(** * Interview orchestration engine: a shallow embedding of the Python sources

    The development follows the repository file by file:
    - [PyStr]: Python [str] values as sequences of Unicode code points, with
      the string methods the sources call ([strip], [lower], [startswith],
      [endswith], [in], [split], slices);
    - [Py]: exceptions, the result of a call that may raise, and the monad of
      a call that mutates one shared object and may raise;
    - [Settings] and the records of [core/state.py];
    - [InterviewLogger]: [core/logger.py];
    - [Observer], [Coordinator], [Interviewer], [FeedbackGenerator]:
      [agents/*.py];
    - [Graph]: [core/graph.py], the nodes and edges of the workflow;
    - [Sample]: the concrete sessions the statements are run on.

    Numbers: Python [float] scores are modelled as exact rationals ([Q]);
    the one closed computation the specification quotes is also replayed on
    IEEE-754 binary64 values.  The reasoning service, the knowledge base, the
    console and [json.loads] are outside the repository: their results are
    inputs of the model. *)

From Stdlib Require Import List String Ascii Bool Arith NArith ZArith QArith Lia Lqa.
From Stdlib Require Import PrimFloat DecimalString Qpower.
Import ListNotations.

Set Warnings "-inexact-float".

(* ------------------------------------------------------------------ *)
(** * Python strings *)

Module PyStr.

(** A Python [str] is a sequence of Unicode code points. *)
Definition str := list N.

Definition byte_val (c : ascii) : N := N_of_ascii c.

(** Continuation byte of a UTF-8 sequence: its six payload bits. *)
Definition cont (c : ascii) : N := N.land (byte_val c) 63.

(** [utf8 s] decodes the UTF-8 bytes of a literal into code points, so that
    the literals of the sources can be written as they are. *)
Fixpoint utf8 (s : string) : str :=
  match s with
  | EmptyString => []
  | String c rest =>
      let b := byte_val c in
      if (b <? 128)%N then b :: utf8 rest
      else if (b <? 224)%N then
        match rest with
        | String c1 rest1 =>
            (N.land b 31 * 64 + cont c1)%N :: utf8 rest1
        | _ => [b]
        end
      else if (b <? 240)%N then
        match rest with
        | String c1 (String c2 rest2) =>
            (N.land b 15 * 4096 + cont c1 * 64 + cont c2)%N :: utf8 rest2
        | _ => [b]
        end
      else
        match rest with
        | String c1 (String c2 (String c3 rest3)) =>
            (N.land b 7 * 262144 + cont c1 * 4096 + cont c2 * 64 + cont c3)%N
              :: utf8 rest3
        | _ => [b]
        end
  end.

Fixpoint eqb (a b : str) : bool :=
  match a, b with
  | [], [] => true
  | x :: a', y :: b' => N.eqb x y && eqb a' b'
  | _, _ => false
  end.

(** [x in xs] for a list of strings. *)
Definition mem (x : str) (xs : list str) : bool := existsb (eqb x) xs.

(** [s.startswith(p)] *)
Fixpoint startswith (s p : str) : bool :=
  match p, s with
  | [], _ => true
  | y :: p', x :: s' => N.eqb x y && startswith s' p'
  | _ :: _, [] => false
  end.

(** [s.endswith(p)] *)
Definition endswith (s p : str) : bool := startswith (rev s) (rev p).

(** [p in s] for strings: [p] occurs in [s] as a substring. *)
Fixpoint contains (s p : str) : bool :=
  startswith s p ||
  match s with
  | [] => false
  | _ :: s' => contains s' p
  end.

(** [str.isspace] on one code point: the code points Python's [strip()]
    removes. *)
Definition is_space (c : N) : bool :=
  ((9 <=? c) && (c <=? 13) || (28 <=? c) && (c <=? 32)
   || (c =? 133) || (c =? 160) || (c =? 5760)
   || (8192 <=? c) && (c <=? 8202)
   || (c =? 8232) || (c =? 8233) || (c =? 8239) || (c =? 8287)
   || (c =? 12288))%N.

Fixpoint lstrip (s : str) : str :=
  match s with
  | [] => []
  | c :: s' => if is_space c then lstrip s' else s
  end.

Definition rstrip (s : str) : str := rev (lstrip (rev s)).

(** [s.strip()] *)
Definition strip (s : str) : str := rstrip (lstrip s).

(** [str.lower] on one code point.  Covered: Basic Latin [A-Z] and the
    Cyrillic capitals U+0400..U+042F; every other code point is left as it
    is (Python also lowers the capitals of the other scripts). *)
Definition lower_cp (c : N) : N :=
  if ((65 <=? c) && (c <=? 90))%N then (c + 32)%N
  else if ((1024 <=? c) && (c <=? 1039))%N then (c + 80)%N
  else if ((1040 <=? c) && (c <=? 1071))%N then (c + 32)%N
  else c.

(** [s.lower()] *)
Definition lower (s : str) : str := map lower_cp s.

(** [s[:n]] *)
Definition slice_to (n : nat) (s : str) : str := firstn n s.

(** [s[len(p):]] for a prefix [p]. *)
Definition drop_prefix (p s : str) : str := skipn (List.length p) s.

(** [s.split(sep)[1]]: the text after the first occurrence of [sep]
    ([None] when [sep] does not occur, where Python raises IndexError). *)
Fixpoint after_first (sep s : str) : option str :=
  if startswith s sep then Some (skipn (List.length sep) s)
  else match s with
       | [] => None
       | _ :: s' => after_first sep s'
       end.

(** [s.split(sep)[0]]: the text before the first occurrence of [sep], all of
    [s] when [sep] does not occur.  [sep] is never empty in the sources. *)
Fixpoint before_first (sep s : str) : str :=
  if startswith s sep then []
  else match s with
       | [] => []
       | c :: s' => c :: before_first sep s'
       end.

(** [text.split(fence)[1].split(ticks)[0].strip()] for a [fence] that
    occurs in [text]: the piece between the first two occurrences of
    [fence], up to its first [ticks]. *)
Definition inside_fence (fence ticks text : str) : str :=
  match after_first fence text with
  | Some rest => strip (before_first ticks (before_first fence rest))
  | None => text
  end.

(** [s.replace(chr(a), chr(b))] for single code points. *)
Definition replace_cp (a b : N) (s : str) : str :=
  map (fun c => if N.eqb c a then b else c) s.

(** [len(s.split())]: the number of maximal runs of non-space code points.
    [in_word] tells whether the previous code point belonged to a word. *)
Fixpoint count_words_from (in_word : bool) (s : str) : nat :=
  match s with
  | [] => 0
  | c :: s' =>
      if is_space c then count_words_from false s'
      else if in_word then count_words_from true s'
           else S (count_words_from true s')
  end.

Definition count_words (s : str) : nat := count_words_from false s.

(** [re.search(r'\{.*\}', s, re.DOTALL)]: from the first opening brace to
    the last closing brace after it; [None] when there is no match. *)
Fixpoint upto_last (c : N) (s : str) : option str :=
  match s with
  | [] => None
  | x :: s' =>
      match upto_last c s' with
      | Some r => Some (x :: r)
      | None => if N.eqb x c then Some [x] else None
      end
  end.

Fixpoint search_braces (s : str) : option str :=
  match s with
  | [] => None
  | x :: s' =>
      if N.eqb x 123 then
        match upto_last 125 s' with
        | Some r => Some (x :: r)
        | None => None
        end
      else search_braces s'
  end.

(** Truth value of a string: [bool(s)]. *)
Definition truthy (s : str) : bool :=
  match s with [] => false | _ => true end.

(** [sep.join(parts)] *)
Fixpoint join (sep : str) (parts : list str) : str :=
  match parts with
  | [] => []
  | [p] => p
  | p :: rest => p ++ sep ++ join sep rest
  end.

End PyStr.

Import PyStr.

Open Scope string_scope.

(* ------------------------------------------------------------------ *)
(** * Exceptions and calls that may raise *)

Module Py.

(** The exception classes that occur in the modelled code.  [ServiceError]
    stands for whatever the reasoning service or the knowledge base raise
    (timeouts, transport errors): all of them are subclasses of [Exception]. *)
Inductive exn : Type :=
| KeyError
| AttributeError
| UnboundLocalError
| JSONDecodeError
| EOFError
| ServiceError.

(** Outcome of a call: a returned value or a raised exception. *)
Inductive result (A : Type) : Type :=
| Ok (a : A)
| Raise (e : exn).

Arguments Ok {A} a.
Arguments Raise {A} e.

(** What [json.loads] makes of a text, as far as the callers distinguish:
    it raises [JSONDecodeError], or it returns a value that is not a
    dictionary (a list, a number, a string, [None]), or it returns a
    dictionary, read as a record of type [A]. *)
Inductive loaded (A : Type) : Type :=
| NotJSON
| NotObject
| Object (o : A).

Arguments NotJSON {A}.
Arguments NotObject {A}.
Arguments Object {A} o.

(** [d[k]] on a dictionary whose key [k] may be missing. *)
Definition subscript {A} (v : option A) : result A :=
  match v with Some a => Ok a | None => Raise KeyError end.

(** [d.get(k, default)] *)
Definition or_default {A} (v : option A) (d : A) : A :=
  match v with Some a => a | None => d end.

(** [d.get(k)] used as a condition, for a string: a missing key gives
    [None], which is false, and so is the empty string. *)
Definition get_truthy (v : option str) : bool :=
  match v with Some s => truthy s | None => false end.

(** [x < y] and [x >= y] on numbers. *)
Definition Qlt_bool (x y : Q) : bool := negb (Qle_bool y x).
Definition Qge_bool (x y : Q) : bool := Qle_bool y x.

(** [l[start:]] for any integer [start]: a negative one counts from the
    end, and both are clamped to the list. *)
Definition slice_from {A} (start : Z) (l : list A) : list A :=
  let n := Z.of_nat (List.length l) in
  skipn (Z.to_nat (if (start <? 0)%Z then Z.max 0 (n + start) else start)) l.

(** A call that works on one shared object of type [S] by reference: it
    returns or raises, and in both cases leaves the object as the
    assignments executed so far have made it. *)
Definition M (S A : Type) : Type := S -> result A * S.

Definition ret {S A} (a : A) : M S A := fun s => (Ok a, s).
Definition lift {S A} (r : result A) : M S A := fun s => (r, s).
Definition get {S} : M S S := fun s => (Ok s, s).
Definition modify {S} (f : S -> S) : M S unit := fun s => (Ok tt, f s).

Definition bind {S A B} (c : M S A) (k : A -> M S B) : M S B :=
  fun s =>
    match c s with
    | (Ok a, s') => k a s'
    | (Raise e, s') => (Raise e, s')
    end.

(** The object as the call leaves it. *)
Definition exec {S A} (c : M S A) (s : S) : S := snd (c s).

End Py.

Import Py.

Declare Scope py_scope.
Delimit Scope py_scope with py.
Notation "x <- c ;; k" := (bind c (fun x => k))
  (at level 61, c at next level, right associativity) : py_scope.
Notation "c ;; k" := (bind c (fun _ => k))
  (at level 61, right associativity) : py_scope.

(* ------------------------------------------------------------------ *)
(** * core/state.py and config/settings.py *)

(** Python [dict] with string keys: insertion-ordered, keys unique. *)
Module Dict.

Definition t (V : Type) : Type := list (str * V).

Fixpoint get {V} (k : str) (d : t V) : option V :=
  match d with
  | [] => None
  | (k', v) :: d' => if PyStr.eqb k k' then Some v else get k d'
  end.

(** [d[k] = v]: overwrite in place when the key exists, append otherwise. *)
Fixpoint set {V} (k : str) (v : V) (d : t V) : t V :=
  match d with
  | [] => [(k, v)]
  | (k', v') :: d' =>
      if PyStr.eqb k k' then (k', v) :: d' else (k', v') :: set k v d'
  end.

End Dict.

Module Settings.

(** [settings.MAX_TURNS], [settings.DEFAULT_DIFFICULTY], [settings.RAG_ENABLED]:
    read from the environment once, at import time. *)
Record t : Type := {
  MAX_TURNS : Z;
  DEFAULT_DIFFICULTY : Z;
  RAG_ENABLED : bool
}.

(** The defaults of [config/settings.py]. *)
Definition default : t :=
  {| MAX_TURNS := 10; DEFAULT_DIFFICULTY := 2; RAG_ENABLED := true |}.

End Settings.

Record Message : Type := {
  role : str;
  content : str
}.

Record CandidateInfo : Type := {
  name : str;
  position : str;
  grade : str;
  experience_years : Q;
  technologies : list str
}.

Record Assessment : Type := {
  technical_score : Q;
  communication_score : Q;
  confidence_score : Q;
  topics_covered : list str;
  confirmed_skills : list str;
  knowledge_gaps : Dict.t str;
  soft_skills_notes : list str
}.

(** [Assessment()]: the defaults of the pydantic model. *)
Definition Assessment_new : Assessment :=
  {| technical_score := 0; communication_score := 0; confidence_score := 0;
     topics_covered := []; confirmed_skills := [];
     knowledge_gaps := []; soft_skills_notes := [] |}.

Definition set_technical_score (v : Q) (a : Assessment) : Assessment :=
  {| technical_score := v;
     communication_score := communication_score a;
     confidence_score := confidence_score a;
     topics_covered := topics_covered a;
     confirmed_skills := confirmed_skills a;
     knowledge_gaps := knowledge_gaps a;
     soft_skills_notes := soft_skills_notes a |}.

Definition set_communication_score (v : Q) (a : Assessment) : Assessment :=
  {| technical_score := technical_score a;
     communication_score := v;
     confidence_score := confidence_score a;
     topics_covered := topics_covered a;
     confirmed_skills := confirmed_skills a;
     knowledge_gaps := knowledge_gaps a;
     soft_skills_notes := soft_skills_notes a |}.

Definition set_confidence_score (v : Q) (a : Assessment) : Assessment :=
  {| technical_score := technical_score a;
     communication_score := communication_score a;
     confidence_score := v;
     topics_covered := topics_covered a;
     confirmed_skills := confirmed_skills a;
     knowledge_gaps := knowledge_gaps a;
     soft_skills_notes := soft_skills_notes a |}.

Definition set_knowledge_gap (k v : str) (a : Assessment) : Assessment :=
  {| technical_score := technical_score a;
     communication_score := communication_score a;
     confidence_score := confidence_score a;
     topics_covered := topics_covered a;
     confirmed_skills := confirmed_skills a;
     knowledge_gaps := Dict.set k v (knowledge_gaps a);
     soft_skills_notes := soft_skills_notes a |}.

Definition append_soft_skills_note (n : str) (a : Assessment) : Assessment :=
  {| technical_score := technical_score a;
     communication_score := communication_score a;
     confidence_score := confidence_score a;
     topics_covered := topics_covered a;
     confirmed_skills := confirmed_skills a;
     knowledge_gaps := knowledge_gaps a;
     soft_skills_notes := soft_skills_notes a ++ [n] |}.

(** One entry of the persisted log ([core/logger.py]). *)
Record Turn : Type := {
  turn_id : Z;
  agent_visible_message : str;
  user_message : str;
  internal_thoughts : str
}.

(** The [log_data] dictionary.  [end_time] and [duration_minutes] are added
    by [save_final_feedback]. *)
Record LogData : Type := {
  participant_name : str;
  turns : list Turn;
  log_final_feedback : str;
  start_time : str;
  end_time : option str;
  duration_minutes : option Q
}.

(** The dictionary [FeedbackGenerator.generate_feedback] returns; of its
    entries the level and the recommendation of the verdict, the roadmap and
    the narrative are kept (the confidence percentage, the lists of skills
    and the learning resources are not). *)
Record Feedback : Type := {
  verdict_grade : str;
  verdict_hiring_recommendation : str;
  roadmap : list str;
  full_text_feedback : str
}.

(** [InterviewState], the dictionary the workflow passes from node to node.
    A key the nodes test with [in] or read with [.get] may be missing
    ([None]).  For the keys of type [Optional[str]], [None] stands for a
    missing key as well as for the value [None]: the sources read them only
    through their truth value.  A missing [interview_complete] reads as
    [False].  Keys that are written and never read ([last_question],
    [last_answer], [need_feedback], [current_agent], [internal_monologue],
    [scenario_number]) are left out. *)
Record InterviewState : Type := {
  candidate_info : CandidateInfo;
  messages : option (list Message);
  current_topic : option str;
  difficulty_level : option Z;
  assessment : option Assessment;
  questions_asked : option (list str);
  observer_recommendation : option str;
  interview_complete : bool;
  current_question : option str;
  current_answer : option str;
  coordinator_instruction : option str;
  log_data : option LogData;
  current_turn_thoughts : option (list str);
  final_feedback : option Feedback
}.

Definition set_messages (v : option (list Message)) (st : InterviewState) : InterviewState :=
  {| candidate_info := candidate_info st;
     messages := v;
     current_topic := current_topic st;
     difficulty_level := difficulty_level st;
     assessment := assessment st;
     questions_asked := questions_asked st;
     observer_recommendation := observer_recommendation st;
     interview_complete := interview_complete st;
     current_question := current_question st;
     current_answer := current_answer st;
     coordinator_instruction := coordinator_instruction st;
     log_data := log_data st;
     current_turn_thoughts := current_turn_thoughts st;
     final_feedback := final_feedback st |}.

Definition set_current_topic (v : option str) (st : InterviewState) : InterviewState :=
  {| candidate_info := candidate_info st;
     messages := messages st;
     current_topic := v;
     difficulty_level := difficulty_level st;
     assessment := assessment st;
     questions_asked := questions_asked st;
     observer_recommendation := observer_recommendation st;
     interview_complete := interview_complete st;
     current_question := current_question st;
     current_answer := current_answer st;
     coordinator_instruction := coordinator_instruction st;
     log_data := log_data st;
     current_turn_thoughts := current_turn_thoughts st;
     final_feedback := final_feedback st |}.

Definition set_difficulty_level (v : option Z) (st : InterviewState) : InterviewState :=
  {| candidate_info := candidate_info st;
     messages := messages st;
     current_topic := current_topic st;
     difficulty_level := v;
     assessment := assessment st;
     questions_asked := questions_asked st;
     observer_recommendation := observer_recommendation st;
     interview_complete := interview_complete st;
     current_question := current_question st;
     current_answer := current_answer st;
     coordinator_instruction := coordinator_instruction st;
     log_data := log_data st;
     current_turn_thoughts := current_turn_thoughts st;
     final_feedback := final_feedback st |}.

Definition set_assessment (v : option Assessment) (st : InterviewState) : InterviewState :=
  {| candidate_info := candidate_info st;
     messages := messages st;
     current_topic := current_topic st;
     difficulty_level := difficulty_level st;
     assessment := v;
     questions_asked := questions_asked st;
     observer_recommendation := observer_recommendation st;
     interview_complete := interview_complete st;
     current_question := current_question st;
     current_answer := current_answer st;
     coordinator_instruction := coordinator_instruction st;
     log_data := log_data st;
     current_turn_thoughts := current_turn_thoughts st;
     final_feedback := final_feedback st |}.

Definition set_questions_asked (v : option (list str)) (st : InterviewState) : InterviewState :=
  {| candidate_info := candidate_info st;
     messages := messages st;
     current_topic := current_topic st;
     difficulty_level := difficulty_level st;
     assessment := assessment st;
     questions_asked := v;
     observer_recommendation := observer_recommendation st;
     interview_complete := interview_complete st;
     current_question := current_question st;
     current_answer := current_answer st;
     coordinator_instruction := coordinator_instruction st;
     log_data := log_data st;
     current_turn_thoughts := current_turn_thoughts st;
     final_feedback := final_feedback st |}.

Definition set_observer_recommendation (v : option str) (st : InterviewState) : InterviewState :=
  {| candidate_info := candidate_info st;
     messages := messages st;
     current_topic := current_topic st;
     difficulty_level := difficulty_level st;
     assessment := assessment st;
     questions_asked := questions_asked st;
     observer_recommendation := v;
     interview_complete := interview_complete st;
     current_question := current_question st;
     current_answer := current_answer st;
     coordinator_instruction := coordinator_instruction st;
     log_data := log_data st;
     current_turn_thoughts := current_turn_thoughts st;
     final_feedback := final_feedback st |}.

Definition set_interview_complete (v : bool) (st : InterviewState) : InterviewState :=
  {| candidate_info := candidate_info st;
     messages := messages st;
     current_topic := current_topic st;
     difficulty_level := difficulty_level st;
     assessment := assessment st;
     questions_asked := questions_asked st;
     observer_recommendation := observer_recommendation st;
     interview_complete := v;
     current_question := current_question st;
     current_answer := current_answer st;
     coordinator_instruction := coordinator_instruction st;
     log_data := log_data st;
     current_turn_thoughts := current_turn_thoughts st;
     final_feedback := final_feedback st |}.

Definition set_current_question (v : option str) (st : InterviewState) : InterviewState :=
  {| candidate_info := candidate_info st;
     messages := messages st;
     current_topic := current_topic st;
     difficulty_level := difficulty_level st;
     assessment := assessment st;
     questions_asked := questions_asked st;
     observer_recommendation := observer_recommendation st;
     interview_complete := interview_complete st;
     current_question := v;
     current_answer := current_answer st;
     coordinator_instruction := coordinator_instruction st;
     log_data := log_data st;
     current_turn_thoughts := current_turn_thoughts st;
     final_feedback := final_feedback st |}.

Definition set_current_answer (v : option str) (st : InterviewState) : InterviewState :=
  {| candidate_info := candidate_info st;
     messages := messages st;
     current_topic := current_topic st;
     difficulty_level := difficulty_level st;
     assessment := assessment st;
     questions_asked := questions_asked st;
     observer_recommendation := observer_recommendation st;
     interview_complete := interview_complete st;
     current_question := current_question st;
     current_answer := v;
     coordinator_instruction := coordinator_instruction st;
     log_data := log_data st;
     current_turn_thoughts := current_turn_thoughts st;
     final_feedback := final_feedback st |}.

Definition set_coordinator_instruction (v : option str) (st : InterviewState) : InterviewState :=
  {| candidate_info := candidate_info st;
     messages := messages st;
     current_topic := current_topic st;
     difficulty_level := difficulty_level st;
     assessment := assessment st;
     questions_asked := questions_asked st;
     observer_recommendation := observer_recommendation st;
     interview_complete := interview_complete st;
     current_question := current_question st;
     current_answer := current_answer st;
     coordinator_instruction := v;
     log_data := log_data st;
     current_turn_thoughts := current_turn_thoughts st;
     final_feedback := final_feedback st |}.

Definition set_log_data (v : option LogData) (st : InterviewState) : InterviewState :=
  {| candidate_info := candidate_info st;
     messages := messages st;
     current_topic := current_topic st;
     difficulty_level := difficulty_level st;
     assessment := assessment st;
     questions_asked := questions_asked st;
     observer_recommendation := observer_recommendation st;
     interview_complete := interview_complete st;
     current_question := current_question st;
     current_answer := current_answer st;
     coordinator_instruction := coordinator_instruction st;
     log_data := v;
     current_turn_thoughts := current_turn_thoughts st;
     final_feedback := final_feedback st |}.

Definition set_current_turn_thoughts (v : option (list str)) (st : InterviewState) : InterviewState :=
  {| candidate_info := candidate_info st;
     messages := messages st;
     current_topic := current_topic st;
     difficulty_level := difficulty_level st;
     assessment := assessment st;
     questions_asked := questions_asked st;
     observer_recommendation := observer_recommendation st;
     interview_complete := interview_complete st;
     current_question := current_question st;
     current_answer := current_answer st;
     coordinator_instruction := coordinator_instruction st;
     log_data := log_data st;
     current_turn_thoughts := v;
     final_feedback := final_feedback st |}.

Definition set_final_feedback (v : option Feedback) (st : InterviewState) : InterviewState :=
  {| candidate_info := candidate_info st;
     messages := messages st;
     current_topic := current_topic st;
     difficulty_level := difficulty_level st;
     assessment := assessment st;
     questions_asked := questions_asked st;
     observer_recommendation := observer_recommendation st;
     interview_complete := interview_complete st;
     current_question := current_question st;
     current_answer := current_answer st;
     coordinator_instruction := coordinator_instruction st;
     log_data := log_data st;
     current_turn_thoughts := current_turn_thoughts st;
     final_feedback := v |}.

(** [validate_state(state)]: the keys [candidate_info], [messages],
    [assessment], [current_topic], [difficulty_level] and [questions_asked]
    are in the state.  [candidate_info] is a field of the record and always
    there. *)
Definition validate_state (st : InterviewState) : bool :=
  match messages st, assessment st, current_topic st, difficulty_level st,
        questions_asked st with
  | Some _, Some _, Some _, Some _, Some _ => true
  | _, _, _, _, _ => false
  end.

(* ------------------------------------------------------------------ *)
(** * core/logger.py *)

Module InterviewLogger.

(** [init_log_data(candidate_info)]; [now] is [datetime.now().isoformat()]. *)
Definition init_log_data (candidate : CandidateInfo) (now : str) : LogData :=
  {| participant_name := name candidate;
     turns := [];
     log_final_feedback := [];
     start_time := now;
     end_time := None;
     duration_minutes := None |}.

(** [add_turn(log_data, agent_visible_message, user_message,
    internal_thoughts)]: appends to [log_data["turns"]] and returns
    [log_data]. *)
Definition add_turn (log : LogData) (agent_message user_msg thoughts : str)
  : LogData :=
  let turn :=
    {| turn_id := Z.of_nat (List.length (turns log)) + 1;
       agent_visible_message := agent_message;
       user_message := user_msg;
       internal_thoughts := thoughts |} in
  {| participant_name := participant_name log;
     turns := turns log ++ [turn];
     log_final_feedback := log_final_feedback log;
     start_time := start_time log;
     end_time := end_time log;
     duration_minutes := duration_minutes log |}.

(** [save_final_feedback(log_data, feedback)] for a feedback dictionary.
    [now] is the clock; [minutes start end] is the rounded difference of two
    time stamps, computed by [datetime]. *)
Definition save_final_feedback (log : LogData) (feedback : Feedback)
    (now : str) (minutes : str -> str -> Q) : LogData :=
  let finish := match end_time log with Some e => e | None => now end in
  {| participant_name := participant_name log;
     turns := turns log;
     log_final_feedback := full_text_feedback feedback;
     start_time := start_time log;
     end_time := Some finish;
     duration_minutes := Some (minutes (start_time log) finish) |}.

End InterviewLogger.

(* ------------------------------------------------------------------ *)
(** * agents/observer.py *)

Module Observer.

(** The dictionary the Observer works on: parsed from the reply of the
    reasoning service or built by the fallback.  A key of the reply may be
    missing ([None]); a key that is present carries a value of the type the
    prompt's schema gives it. *)
Record Analysis : Type := {
  a_technical_score : option Q;
  a_completeness_score : option Q;
  a_confidence_score : option Q;
  a_communication_score : option Q;
  a_has_errors : option bool;
  a_errors_list : option (list str);
  a_is_evasive : option bool;
  a_depth_of_knowledge : option str;
  a_recommendation_for_next_question : option str;
  a_suggested_correction : option str;
  a_reasoning : option str
}.

(** The result of [KnowledgeBase.verify_technical_answer]. *)
Record Verification : Type := {
  v_is_correct : option bool;
  v_confidence : Q;
  v_correct_info : str;
  v_suggested_topics : list str
}.

Definition when {S} (b : bool) (c : M S unit) : M S unit :=
  if b then c else ret tt.

Open Scope py_scope.

(** [_update_assessment(assessment, analysis, verification)].  The object
    [assessment] is updated in place, one attribute assignment after the
    other; the function returns that same object. *)
Definition _update_assessment (analysis : Analysis) (verification : Verification)
  : M Assessment unit :=
  a <- get ;;
  t <- lift (subscript (a_technical_score analysis)) ;;
  modify (set_technical_score (technical_score a * (7 # 10) + t * (3 # 10))) ;;
  a <- get ;;
  c <- lift (subscript (a_communication_score analysis)) ;;
  modify (set_communication_score (communication_score a * (7 # 10) + c * (3 # 10))) ;;
  a <- get ;;
  f <- lift (subscript (a_confidence_score analysis)) ;;
  modify (set_confidence_score (confidence_score a * (7 # 10) + f * (3 # 10))) ;;
  has_errors <- lift (subscript (a_has_errors analysis)) ;;
  when (has_errors && get_truthy (a_suggested_correction analysis))
       (correction <- lift (subscript (a_suggested_correction analysis)) ;;
        modify (set_knowledge_gap (utf8 "текущая тема") (slice_to 200 correction))) ;;
  is_evasive <- lift (subscript (a_is_evasive analysis)) ;;
  when is_evasive
       (modify (append_soft_skills_note (utf8 "Кандидат был уклончив в ответе"))) ;;
  depth <- lift (subscript (a_depth_of_knowledge analysis)) ;;
  when (PyStr.eqb depth (utf8 "deep"))
       (modify (append_soft_skills_note (utf8 "Показал глубокое понимание темы"))) ;;
  ret tt.

(** [_create_empty_analysis()] *)
Definition _create_empty_analysis : Analysis :=
  {| a_technical_score := Some 0;
     a_completeness_score := Some 0;
     a_confidence_score := Some 0;
     a_communication_score := Some 5;
     a_has_errors := Some false;
     a_errors_list := Some [];
     a_is_evasive := Some false;
     a_depth_of_knowledge := Some (utf8 "unknown");
     a_recommendation_for_next_question := Some (utf8 "Продолжить тему");
     a_suggested_correction := Some [];
     a_reasoning := None |}.

Definition short_responses : list str :=
  [utf8 "ничем"; utf8 "не знаю"; utf8 "не помню"; utf8 "нет"; utf8 "не";
   utf8 "no"; utf8 "don't know"].

(** [_fallback_analysis(answer, verification)] *)
Definition _fallback_analysis (answer : str) (verification : Verification)
  : Analysis :=
  let answer_lower := strip (lower answer) in
  let answer_length := count_words answer in
  if mem answer_lower short_responses || (answer_length <=? 2)%nat then
    {| a_technical_score := Some 1;
       a_completeness_score := Some 1;
       a_confidence_score := Some 2;
       a_communication_score := Some 3;
       a_has_errors := Some true;
       a_errors_list :=
         Some [utf8 "Слишком краткий ответ"; utf8 "Не показано понимание темы"];
       a_is_evasive := Some true;
       a_depth_of_knowledge := Some (utf8 "shallow");
       a_recommendation_for_next_question :=
         Some (utf8 "Задать более простой вопрос по той же теме или уточняющий вопрос");
       a_suggested_correction :=
         Some (utf8 "Списки изменяемы (mutable), кортежи неизменяемы (immutable). Списки используют [], кортежи используют (). Пример использования списка: для хранения элементов, которые могут изменяться. Пример использования кортежа: для координат (x, y) или константных данных.");
       a_reasoning := None |}
  else
    let '(score, confidence, is_evasive) :=
      if (answer_length <? 15)%nat then (3%Z, 3%Z, true)
      else if (100 <? answer_length)%nat then (7%Z, 8%Z, false)
      else (5%Z, 5%Z, false) in
    {| a_technical_score := Some (inject_Z score);
       a_completeness_score := Some (inject_Z score);
       a_confidence_score := Some (inject_Z confidence);
       a_communication_score := Some 5;
       a_has_errors := Some (Qlt_bool (v_confidence verification) (4 # 10));
       a_errors_list :=
         Some (if (answer_length <? 25)%nat then [utf8 "Неполный ответ"] else []);
       a_is_evasive := Some is_evasive;
       a_depth_of_knowledge :=
         Some (if (6 <? score)%Z then utf8 "adequate" else utf8 "shallow");
       a_recommendation_for_next_question :=
         Some (if (5 <? score)%Z then utf8 "Продолжить тему"
               else utf8 "Упростить вопрос");
       a_suggested_correction := Some (v_correct_info verification);
       a_reasoning := None |}.

(** The JSON text [_clean_json_response] returns for an empty reply: the
    literal of the source, written here with apostrophes for its quotes. *)
Definition default_json_literal : str :=
  replace_cp 39 34 (utf8 "{'technical_score': 5, 'completeness_score': 5, 'confidence_score': 5, 'communication_score': 5, 'has_errors': false, 'errors_list': [], 'is_evasive': false, 'depth_of_knowledge': 'adequate', 'recommendation_for_next_question': 'Продолжить тему', 'suggested_correction': ''}").

(** What [json.dumps] prints for the default dictionary (non-ASCII text is
    escaped), written with apostrophes for its quotes. *)
Definition default_json_dumps : str :=
  replace_cp 39 34 (utf8 "{'technical_score': 5, 'completeness_score': 5, 'confidence_score': 5, 'communication_score': 5, 'has_errors': false, 'errors_list': [], 'is_evasive': false, 'depth_of_knowledge': 'adequate', 'recommendation_for_next_question': '\u041f\u0440\u043e\u0434\u043e\u043b\u0436\u0438\u0442\u044c \u0442\u0435\u043c\u0443', 'suggested_correction': ''}").

(** [re.sub(r'[\x00-\x1f\x7f-\x9f]', '', text)] *)
Definition strip_control (text : str) : str :=
  filter (fun c => negb ((c <=? 31) || (127 <=? c) && (c <=? 159))%N) text.

(** [_clean_json_response(text)].  The function imports [json] in its
    [except] block, which makes [json] a local name of the whole function:
    the [json.loads(text)] of its [try] block raises [UnboundLocalError]
    before it parses anything, and the bare [except] always runs. *)
Definition _clean_json_response (text : str) : str :=
  if negb (truthy text) then default_json_literal
  else
    let text := strip_control text in
    let text :=
      if contains text (utf8 "```json")
      then inside_fence (utf8 "```json") (utf8 "```") text
      else if contains text (utf8 "```")
      then inside_fence (utf8 "```") (utf8 "```") text
      else text in
    match search_braces text with
    | Some m => m
    | None => default_json_dumps
    end.

(** The collaborators of one call of [analyze_answer]: the knowledge base,
    the reasoning service (its reply's [content], or the exception it
    raises) and [json.loads]. *)
Record Services : Type := {
  verify_technical_answer : result Verification;
  llm_invoke : result str;
  json_loads : str -> loaded Analysis
}.

(** Reading a local variable that may not have been assigned. *)
Definition local {A} (v : option A) : result A :=
  match v with Some a => Ok a | None => Raise UnboundLocalError end.

Definition rag_disabled : Verification :=
  {| v_is_correct := None; v_confidence := 5 # 10;
     v_correct_info := utf8 "RAG отключен"; v_suggested_topics := [] |}.

(** The [try] block of [analyze_answer]: prompt, call, parse. *)
Definition request_analysis (srv : Services) (verification : option Verification)
  : result Analysis :=
  match local verification with
  | Raise e => Raise e
  | Ok _ =>
      match llm_invoke srv with
      | Raise e => Raise e
      | Ok reply =>
          match json_loads srv (_clean_json_response reply) with
          | NotJSON => Raise JSONDecodeError
          | NotObject => Raise AttributeError
          | Object analysis => Ok analysis
          end
      end
  end.

(** The object [state["assessment"]], worked on by reference. *)
Definition on_assessment {A} (c : M Assessment A) : M InterviewState A :=
  fun st =>
    match assessment st with
    | None => (Raise KeyError, st)
    | Some a => let (r, a') := c a in (r, set_assessment (Some a') st)
    end.

(** [analyze_answer(state, question, answer)].  It returns the analysis and
    [state["assessment"]], the object it has updated in place; the state of
    the computation is the dictionary [state] with that object in it. *)
Definition analyze_answer (cfg : Settings.t) (srv : Services)
    (question answer : str) : M InterviewState Analysis :=
  if negb (truthy question) || negb (truthy answer) then
    on_assessment (ret _create_empty_analysis)
  else
    let answer :=
      if (4000 <? List.length answer)%nat
      then (slice_to 4000 answer ++ utf8 "... [ответ обрезан]")%list
      else answer in
    let verification :=
      if Settings.RAG_ENABLED cfg then
        match verify_technical_answer srv with
        | Ok v => Some v
        | Raise _ => None
        end
      else Some rag_disabled in
    analysis <- lift
      match request_analysis srv verification with
      | Ok analysis => Ok analysis
      | Raise _ =>
          match local verification with
          | Ok v => Ok (_fallback_analysis answer v)
          | Raise e => Raise e
          end
      end ;;
    on_assessment
      (v <- lift (local verification) ;; _update_assessment analysis v) ;;
    ret analysis.

Close Scope py_scope.

End Observer.

(* ------------------------------------------------------------------ *)
(** * agents/coordinator.py *)

Module Coordinator.

(** The decision dictionary.  A key of the parsed reply may be missing. *)
Record Decision : Type := {
  action : option str;
  new_topic : option str;
  new_difficulty : option Z;
  reasoning : option str;
  instruction_to_interviewer : option str
}.

Record Services : Type := {
  llm_invoke : result str;
  json_loads : str -> loaded Decision
}.

(** [len(state.get("questions_asked", []))] *)
Definition questions_count (st : InterviewState) : Z :=
  Z.of_nat (List.length (match questions_asked st with
                         | Some qs => qs
                         | None => []
                         end)).

(** [state.get("assessment", {}).get("technical_score", 0)].  When the key
    is missing, the default [{}] is a dictionary and its [get] returns the
    default [0].  When the key is present its value is an [Assessment], a
    pydantic model: it has no attribute [get], and the call raises
    [AttributeError]. *)
Definition assessment_get_technical_score (st : InterviewState) : result Q :=
  match assessment st with
  | None => Ok 0
  | Some _ => Raise AttributeError
  end.

Definition valid_actions : list str :=
  [utf8 "continue"; utf8 "change_topic"; utf8 "end_interview"].

(** [_create_fallback_decision(state)] *)
Definition _create_fallback_decision (cfg : Settings.t) (st : InterviewState)
  : result Decision :=
  let count := questions_count st in
  let build (act why : str) : Decision :=
    {| action := Some act;
       new_topic := Some (match current_topic st with
                          | Some t => t
                          | None => utf8 "Python"
                          end);
       new_difficulty := Some (match difficulty_level st with
                               | Some d => d
                               | None => 2%Z
                               end);
       reasoning := Some why;
       instruction_to_interviewer := Some (utf8 "Задай следующий вопрос") |} in
  if (Settings.MAX_TURNS cfg <=? count)%Z then
    Ok (build (utf8 "end_interview") (utf8 "Достигнут лимит вопросов"))
  else if (5 <=? count)%Z then
    match assessment_get_technical_score st with
    | Raise e => Raise e
    | Ok score =>
        if Qlt_bool 7 score then
          Ok (build (utf8 "end_interview")
                    (utf8 "Кандидат демонстрирует высокий уровень"))
        else
          Ok (build (utf8 "continue") (utf8 "Продолжаем интервью (fallback)"))
    end
  else
    Ok (build (utf8 "continue") (utf8 "Продолжаем интервью (fallback)")).

(** The text handed to [json.loads]: the reply stripped, taken out of its
    code fence, with line breaks and tabs replaced by blanks. *)
Definition clean_content (reply : str) : str :=
  let content := strip reply in
  let content :=
    if contains content (utf8 "```json")
    then inside_fence (utf8 "```json") (utf8 "```") content
    else if contains content (utf8 "```")
    then inside_fence (utf8 "```") (utf8 "```") content
    else content in
  replace_cp 9 32 (replace_cp 13 32 (replace_cp 10 32 content)).

(** What the [try] block does with a parsed dictionary. *)
Definition normalise (d : Decision) : Decision :=
  {| action :=
       match action d with
       | Some a => if mem a valid_actions then Some a else Some (utf8 "continue")
       | None => Some (utf8 "continue")
       end;
     new_topic := new_topic d;
     new_difficulty := new_difficulty d;
     reasoning :=
       match reasoning d with
       | Some r => Some r
       | None => Some (utf8 "Продолжаем интервью")
       end;
     instruction_to_interviewer :=
       match instruction_to_interviewer d with
       | Some i => Some i
       | None => Some (utf8 "Задай следующий вопрос")
       end |}.

(** The [try] block of [decide_next_step]. *)
Definition request_decision (srv : Services) : result Decision :=
  match llm_invoke srv with
  | Raise e => Raise e
  | Ok reply =>
      match json_loads srv (clean_content reply) with
      | NotJSON => Raise JSONDecodeError
      | NotObject => Raise AttributeError
      | Object d => Ok (normalise d)
      end
  end.

(** [decide_next_step(state)]: both [except] clauses return the fallback
    decision; an exception raised while it is computed is raised inside a
    handler and leaves the function. *)
Definition decide_next_step (cfg : Settings.t) (srv : Services)
    (st : InterviewState) : result Decision :=
  match request_decision srv with
  | Ok d => Ok d
  | Raise _ => _create_fallback_decision cfg st
  end.

(** [should_end_interview(state)] *)
Definition should_end_interview (cfg : Settings.t) (st : InterviewState) : bool :=
  if interview_complete st then true
  else
    let count := questions_count st in
    if (Settings.MAX_TURNS cfg <=? count)%Z then true
    else
      match assessment st with
      | Some a => (5 <=? count)%Z && Qlt_bool 7 (technical_score a)
      | None => false
      end.

(** [_get_conversation_history(state, last_n)]: the messages are [Message]
    objects, which have both attributes; every role other than
    ["interviewer"] is shown as the candidate. *)
Definition _get_conversation_history (st : InterviewState) (last_n : Z) : str :=
  match or_default (messages st) [] with
  | [] => utf8 "Нет истории диалога"
  | msgs =>
      join [10%N]
        (map (fun msg =>
                ((if PyStr.eqb (role msg) (utf8 "interviewer")
                  then utf8 "Интервьюер" else utf8 "Кандидат")
                   ++ utf8 ": " ++ content msg)%list)
             (slice_from (- last_n) msgs))
  end.

End Coordinator.

(* ------------------------------------------------------------------ *)
(** * agents/interviewer.py *)

Module Interviewer.

(** The two calls of the reasoning service [generate_question] can make: the
    question, and the alternative asked for when the question repeats. *)
Record Services : Type := {
  llm_invoke : result str;
  llm_invoke_alternative : result str
}.

Definition python_bank : list str :=
  [utf8 "Расскажите о своем опыте работы с Python?";
   utf8 "Какой проект на Python вы считаете самым сложным и почему?";
   utf8 "С какими Python библиотеками вы работали?";
   utf8 "Как вы отлаживаете Python код?";
   utf8 "Расскажите о паттернах проектирования в Python?"].

Definition database_bank : list str :=
  [utf8 "Как вы проектируете схемы баз данных?";
   utf8 "Как оптимизируете медленные SQL запросы?";
   utf8 "Расскажите о вашем опыте работы с транзакциями?";
   utf8 "Как обеспечиваете безопасность баз данных?";
   utf8 "Как работаете с миграциями схемы?"].

(** The dictionary [fallback_questions], in its insertion order. *)
Definition fallback_questions : Dict.t (list str) :=
  [(utf8 "python", python_bank); (utf8 "базы данных", database_bank)].

(** The two nested loops of [_get_fallback_question]: the first question of
    a matching bank that has not been asked. *)
Fixpoint first_unasked (banks : Dict.t (list str)) (topic_lower : str)
    (asked : list str) : option str :=
  match banks with
  | [] => None
  | (key, questions) :: rest =>
      if contains topic_lower key then
        match find (fun q => negb (mem q asked)) questions with
        | Some q => Some q
        | None => first_unasked rest topic_lower asked
        end
      else first_unasked rest topic_lower asked
  end.

(** [_get_fallback_question(topic, difficulty, asked_questions)] *)
Definition _get_fallback_question (topic : str) (difficulty : Z)
    (asked : list str) : str :=
  match first_unasked fallback_questions (lower topic) asked with
  | Some q => q
  | None => (utf8 "Расскажите о своем опыте работы с " ++ topic ++ utf8 "?")%list
  end.

(** [_generate_alternative_question(topic, difficulty, asked_questions)] *)
Definition _generate_alternative_question (srv : Services) (topic : str)
    (difficulty : Z) (asked : list str) : str :=
  match llm_invoke_alternative srv with
  | Ok reply =>
      let question := strip reply in
      if truthy question && negb (mem question asked) then question
      else _get_fallback_question topic difficulty asked
  | Raise _ => _get_fallback_question topic difficulty asked
  end.

Definition prefixes : list str :=
  [utf8 "Вопрос:"; utf8 "Question:"; utf8 "Q:"; utf8 "Интервьюер:"].

(** The loop that removes the prefixes, one after the other. *)
Definition strip_prefixes (question : str) : str :=
  fold_left
    (fun q prefix =>
       if startswith q prefix then strip (drop_prefix prefix q) else q)
    prefixes question.

(** [generate_question(state)] *)
Definition generate_question (srv : Services) (st : InterviewState) : str :=
  let topic := match current_topic st with Some t => t | None => [] end in
  let difficulty := match difficulty_level st with Some d => d | None => 2%Z end in
  let asked := match questions_asked st with Some qs => qs | None => [] end in
  match llm_invoke srv with
  | Ok reply =>
      let question := strip_prefixes (strip reply) in
      let question :=
        if endswith question (utf8 "?") then question
        else (question ++ utf8 "?")%list in
      if mem question asked
      then _generate_alternative_question srv topic difficulty asked
      else question
  | Raise _ => _get_fallback_question topic difficulty asked
  end.

(** [_get_conversation_history(state, last_n)]: a message whose role is
    neither ["user"] nor ["interviewer"] is left out. *)
Definition _get_conversation_history (st : InterviewState) (last_n : Z) : str :=
  match or_default (messages st) [] with
  | [] => utf8 "Нет истории"
  | msgs =>
      join [10%N]
        (flat_map (fun msg =>
                     if PyStr.eqb (role msg) (utf8 "user")
                     then [(utf8 "Кандидат: " ++ content msg)%list]
                     else if PyStr.eqb (role msg) (utf8 "interviewer")
                     then [(utf8 "Интервьюер: " ++ content msg)%list]
                     else [])
                  (slice_from (- last_n) msgs))
  end.

End Interviewer.

(* ------------------------------------------------------------------ *)
(** * agents/feedback_generator.py *)

Module FeedbackGenerator.

(** [_determine_level(assessment, candidate)] *)
Definition _determine_level (a : Assessment) (candidate : CandidateInfo) : str :=
  let tech_score := technical_score a in
  if PyStr.eqb (lower (grade candidate)) (utf8 "junior") then
    if Qge_bool tech_score 7 then utf8 "Middle-ready Junior"
    else utf8 "Junior"
  else if PyStr.eqb (lower (grade candidate)) (utf8 "middle") then
    if Qge_bool tech_score 8 then utf8 "Senior-ready Middle"
    else if Qge_bool tech_score 6 then utf8 "Middle"
    else utf8 "Junior+"
  else
    if Qge_bool tech_score 9 then utf8 "Senior"
    else if Qge_bool tech_score 7 then utf8 "Middle+"
    else utf8 "Под вопросом".

(** [_determine_hiring_recommendation(assessment, candidate)] *)
Definition _determine_hiring_recommendation (a : Assessment)
    (candidate : CandidateInfo) : str :=
  let tech_score := technical_score a in
  let comm_score := communication_score a in
  if Qge_bool tech_score 8 && Qge_bool comm_score 7 then utf8 "Strong Hire"
  else if Qge_bool tech_score 6 && Qge_bool comm_score 5 then utf8 "Hire"
  else if Qge_bool tech_score 4 then utf8 "Hire with reservations"
  else utf8 "No Hire".

(** [_generate_roadmap(assessment, candidate)] *)
Definition _generate_roadmap (a : Assessment) (candidate : CandidateInfo)
  : list str :=
  let gaps :=
    map (fun '(topic, correction) =>
           (utf8 "Изучить " ++ topic ++ utf8 ": " ++ slice_to 100 correction
              ++ utf8 "...")%list)
        (knowledge_gaps a) in
  let general :=
    ((if Qlt_bool (technical_score a) 6
      then [utf8 "Углубить понимание основных концепций"] else [])
     ++ (if Qlt_bool (communication_score a) 5
         then [utf8 "Потренироваться в объяснении технических концепций"] else [])
     ++ (if PyStr.eqb (grade candidate) (utf8 "Junior")
            && Qlt_bool 7 (technical_score a)
         then [utf8 "Начать изучение продвинутых тем для перехода на Middle"] else [])
     ++ (if PyStr.eqb (grade candidate) (utf8 "Middle")
            && Qlt_bool 8 (technical_score a)
         then [utf8 "Изучить архитектурные паттерны и проектирование систем"] else []))%list in
  firstn 5 (gaps ++ general)%list.

(** [_generate_fallback_feedback(assessment, candidate)] *)
Definition _generate_fallback_feedback (a : Assessment)
    (candidate : CandidateInfo) : Feedback :=
  {| verdict_grade := utf8 "Не определен";
     verdict_hiring_recommendation := utf8 "Требуется ручная проверка";
     roadmap := [utf8 "Пройти повторное интервью после подготовки"];
     full_text_feedback :=
       utf8 "Извините, не удалось сгенерировать подробный фидбэк." |}.

(** [generate_feedback(state, duration_minutes)]; [llm_invoke] is the reply
    of the reasoning service or the exception it raises. *)
Definition generate_feedback (llm_invoke : result str) (st : InterviewState)
  : Feedback :=
  let a := match assessment st with Some a => a | None => Assessment_new end in
  let candidate := candidate_info st in
  match llm_invoke with
  | Ok reply =>
      {| verdict_grade := _determine_level a candidate;
         verdict_hiring_recommendation :=
           _determine_hiring_recommendation a candidate;
         roadmap := _generate_roadmap a candidate;
         full_text_feedback := reply |}
  | Raise _ => _generate_fallback_feedback a candidate
  end.

End FeedbackGenerator.

(* ------------------------------------------------------------------ *)
(** * core/graph.py *)

Module Graph.

(** The nodes of the workflow, and LangGraph's [END]. *)
Inductive Node : Type :=
| StartInterview
| CoordinatorDecision
| GenerateQuestion
| GetUserAnswer
| AnalyzeAnswer
| GenerateFeedback
| EndInterview
| END.

(** What the outside gives to one node when it runs: the clock, the replies
    of the reasoning service to each agent, the knowledge base, the line read
    from the console ([EOFError] at the end of the input), and the printing
    of a score inside an f-string. *)
Record World : Type := {
  now : str;
  minutes : str -> str -> Q;
  coordinator : Coordinator.Services;
  interviewer : Interviewer.Services;
  console_input : result str;
  observer : Observer.Services;
  feedback_llm : result str;
  format_score : Q -> str
}.

(** [str(n)] for a length. *)
Definition format_nat (n : nat) : str :=
  utf8 (DecimalString.NilZero.string_of_uint (Nat.to_uint n)).

(** The guard every node starts with: [if "log_data" not in state]. *)
Definition ensure_log_data (w : World) (st : InterviewState) : InterviewState :=
  match log_data st with
  | Some _ => st
  | None =>
      set_log_data
        (Some (InterviewLogger.init_log_data (candidate_info st) (now w))) st
  end.

(** [start_interview(state)] *)
Definition start_interview (cfg : Settings.t) (w : World) (st : InterviewState)
  : InterviewState :=
  let st := ensure_log_data w st in
  let st := set_current_topic (Some (or_default (current_topic st) [])) st in
  let st := set_difficulty_level
              (Some (or_default (difficulty_level st)
                                (Settings.DEFAULT_DIFFICULTY cfg))) st in
  let st := set_questions_asked (Some (or_default (questions_asked st) [])) st in
  let st := set_assessment
              (Some (or_default (assessment st) Assessment_new)) st in
  let st := set_messages (Some (or_default (messages st) [])) st in
  let st := set_current_turn_thoughts
              (Some (or_default (current_turn_thoughts st) [])) st in
  let st := set_interview_complete false st in
  let st := set_current_question None st in
  let st := set_current_answer None st in
  set_coordinator_instruction None st.

Definition action_is (d : Coordinator.Decision) (a : str) : bool :=
  match Coordinator.action d with
  | Some x => PyStr.eqb x a
  | None => false
  end.

(** [coordinator_decision(state)] *)
Definition coordinator_decision (cfg : Settings.t) (w : World)
    (st : InterviewState) : result InterviewState :=
  let st := ensure_log_data w st in
  if Coordinator.should_end_interview cfg st then
    Ok (set_interview_complete true st)
  else
    match Coordinator.decide_next_step cfg (coordinator w) st with
    | Raise e => Raise e
    | Ok decision =>
        let st := set_coordinator_instruction
                    (Some (or_default
                             (Coordinator.instruction_to_interviewer decision) []))
                    st in
        let st :=
          if action_is decision (utf8 "change_topic")
             && get_truthy (Coordinator.new_topic decision)
          then set_current_topic (Coordinator.new_topic decision) st
          else st in
        let thought :=
          (utf8 "Решение: "
             ++ or_default (Coordinator.action decision) (utf8 "continue")
             ++ (if get_truthy (Coordinator.reasoning decision)
                 then utf8 ", обоснование: "
                        ++ slice_to 100
                             (or_default (Coordinator.reasoning decision) [])
                        ++ utf8 "..."
                 else []))%list in
        let st := set_current_turn_thoughts
                    (Some [(utf8 "[Coordinator]: " ++ thought)%list]) st in
        let st :=
          if action_is decision (utf8 "end_interview")
          then set_interview_complete true st
          else st in
        Ok st
    end.

(** [generate_question(state)] *)
Definition generate_question (w : World) (st : InterviewState)
  : InterviewState :=
  let st := ensure_log_data w st in
  let question := Interviewer.generate_question (interviewer w) st in
  let thoughts := or_default (current_turn_thoughts st) [] in
  let thought :=
    (utf8 "Сгенерирован вопрос по теме '"
       ++ or_default (current_topic st) (utf8 "общая") ++ utf8 "'"
       ++ (if get_truthy (coordinator_instruction st)
           then utf8 ", инструкция: "
                  ++ slice_to 100 (or_default (coordinator_instruction st) [])
                  ++ utf8 "..."
           else []))%list in
  let st := set_current_turn_thoughts
              (Some (thoughts ++ [(utf8 "[Interviewer]: " ++ thought)%list])%list)
              st in
  let st := set_messages
              (Some (or_default (messages st) []
                       ++ [{| role := utf8 "interviewer"; content := question |}])%list)
              st in
  let st := set_current_question (Some question) st in
  let st := set_questions_asked
              (Some (or_default (questions_asked st) [] ++ [question])%list) st in
  set_current_answer (Some []) st.

Definition stop_words : list str :=
  [utf8 "стоп"; utf8 "stop"; utf8 "завершить"; utf8 "конец"; utf8 "exit";
   utf8 "quit"].

(** The [try] around [input]: only [EOFError] is caught. *)
Definition read_answer (w : World) : result str :=
  match console_input w with
  | Ok line => Ok (strip line)
  | Raise EOFError => Ok (utf8 "стоп")
  | Raise e => Raise e
  end.

(** [get_user_answer(state)] *)
Definition get_user_answer (w : World) (st : InterviewState)
  : result InterviewState :=
  let st := ensure_log_data w st in
  match read_answer w with
  | Raise e => Raise e
  | Ok user_input =>
      if mem (lower user_input) stop_words then
        Ok (set_current_answer (Some user_input)
              (set_interview_complete true st))
      else
        let msgs :=
          (or_default (messages st) []
             ++ [{| role := utf8 "user"; content := user_input |}])%list in
        let thoughts := or_default (current_turn_thoughts st) [] in
        let st := set_current_turn_thoughts
                    (Some (thoughts
                             ++ [(utf8 "[System]: Получен ответ длиной "
                                    ++ format_nat (List.length user_input)
                                    ++ utf8 " символов")%list])%list) st in
        let st := set_messages (Some msgs) st in
        Ok (set_current_answer (Some user_input) st)
  end.

(** The text [analyze_answer] stores with the turn, before [strip()]. *)
Definition collect_thoughts (w : World) (st : InterviewState)
    (analysis : Observer.Analysis) : str :=
  let line (s : str) : str := (s ++ [10%N])%list in
  (List.concat (map line (or_default (current_turn_thoughts st) []))
   ++ (if get_truthy (Observer.a_reasoning analysis)
       then line (utf8 "[Observer]: "
                    ++ or_default (Observer.a_reasoning analysis) [])
       else [])
   ++ match Observer.a_technical_score analysis with
      | Some s => line (utf8 "[Observer]: Техническая оценка: "
                          ++ format_score w s ++ utf8 "/10")
      | None => []
      end
   ++ match Observer.a_communication_score analysis with
      | Some s => line (utf8 "[Observer]: Коммуникационная оценка: "
                          ++ format_score w s ++ utf8 "/10")
      | None => []
      end
   ++ (if get_truthy (Observer.a_recommendation_for_next_question analysis)
       then line (utf8 "[Observer]: Рекомендация: "
                    ++ or_default
                         (Observer.a_recommendation_for_next_question analysis) [])
       else []))%list.

(** [analyze_answer(state)].  The observer works on the object
    [state["assessment"]] itself: what it has assigned before an exception
    is in the state the [except] clause returns. *)
Definition analyze_answer (cfg : Settings.t) (w : World) (st : InterviewState)
  : InterviewState :=
  let st := ensure_log_data w st in
  let question := or_default (current_question st) [] in
  let answer := or_default (current_answer st) [] in
  if negb (truthy question) || negb (truthy answer) then st
  else
    match Observer.analyze_answer cfg (observer w) question answer st with
    | (Raise _, st) => st
    | (Ok analysis, st) =>
        let updated_assessment := assessment st in
        let thoughts := strip (collect_thoughts w st analysis) in
        let st :=
          set_log_data
            (option_map
               (fun log => InterviewLogger.add_turn log question answer thoughts)
               (log_data st)) st in
        let st := set_assessment updated_assessment st in
        let st := set_observer_recommendation
                    (Some (or_default
                             (Observer.a_recommendation_for_next_question analysis)
                             [])) st in
        let st := set_current_turn_thoughts (Some []) st in
        set_coordinator_instruction None st
    end.

(** [generate_feedback(state)]; writing the log file is left to the caller. *)
Definition generate_feedback (w : World) (st : InterviewState)
  : InterviewState :=
  let st := ensure_log_data w st in
  let feedback := FeedbackGenerator.generate_feedback (feedback_llm w) st in
  let st :=
    set_log_data
      (option_map
         (fun log =>
            InterviewLogger.save_final_feedback log feedback (now w) (minutes w))
         (log_data st)) st in
  set_final_feedback (Some feedback) st.

(** [end_interview(state)] only prints. *)
Definition end_interview (st : InterviewState) : InterviewState := st.

(** [check_should_continue(state)]: [true] for ["continue"], [false] for
    ["end"]. *)
Definition check_should_continue (cfg : Settings.t) (st : InterviewState)
  : bool :=
  if interview_complete st then false
  else if (Settings.MAX_TURNS cfg <=? Coordinator.questions_count st)%Z then false
  else true.

(** One step of the compiled graph: run the node, follow its edge.  An
    exception a node raises leaves [app.invoke]. *)
Definition step (cfg : Settings.t) (w : World) (n : Node) (st : InterviewState)
  : result (Node * InterviewState) :=
  match n with
  | StartInterview => Ok (CoordinatorDecision, start_interview cfg w st)
  | CoordinatorDecision =>
      match coordinator_decision cfg w st with
      | Raise e => Raise e
      | Ok st' =>
          Ok (if check_should_continue cfg st' then GenerateQuestion
              else GenerateFeedback, st')
      end
  | GenerateQuestion => Ok (GetUserAnswer, generate_question w st)
  | GetUserAnswer =>
      match get_user_answer w st with
      | Raise e => Raise e
      | Ok st' => Ok (AnalyzeAnswer, st')
      end
  | AnalyzeAnswer => Ok (CoordinatorDecision, analyze_answer cfg w st)
  | GenerateFeedback => Ok (EndInterview, generate_feedback w st)
  | EndInterview => Ok (END, end_interview st)
  | END => Ok (END, st)
  end.

(** The steps of a run, each with the world it meets. *)
Fixpoint steps (cfg : Settings.t) (ws : list World) (n : Node)
    (st : InterviewState) : result (Node * InterviewState) :=
  match ws with
  | [] => Ok (n, st)
  | w :: ws' =>
      match step cfg w n st with
      | Raise e => Raise e
      | Ok (n', st') => steps cfg ws' n' st'
      end
  end.

(** [initial_state] of [run]. *)
Definition initial_state (cfg : Settings.t) (candidate : CandidateInfo)
    (clock : str) : InterviewState :=
  {| candidate_info := candidate;
     messages := Some [];
     current_topic := Some [];
     difficulty_level := Some (Settings.DEFAULT_DIFFICULTY cfg);
     assessment := Some Assessment_new;
     questions_asked := Some [];
     observer_recommendation := None;
     interview_complete := false;
     current_question := None;
     current_answer := None;
     coordinator_instruction := None;
     log_data := Some (InterviewLogger.init_log_data candidate clock);
     current_turn_thoughts := Some [];
     final_feedback := None |}.

End Graph.

(* ------------------------------------------------------------------ *)
(** * Vocabulary of the statements *)

(** A score on the scale of the interview. *)
Definition in_range (q : Q) : Prop := 0 <= q /\ q <= 10.

Definition scores_in_range (a : Assessment) : Prop :=
  in_range (technical_score a) /\ in_range (communication_score a)
  /\ in_range (confidence_score a).

(** An evaluation that carries the three scores, each on the scale. *)
Definition evaluation_in_range (an : Observer.Analysis) : Prop :=
  exists t c f,
    Observer.a_technical_score an = Some t
    /\ Observer.a_communication_score an = Some c
    /\ Observer.a_confidence_score an = Some f
    /\ in_range t /\ in_range c /\ in_range f.

(** The assessment object after the updates for a sequence of evaluations,
    in order. *)
Definition update_all (evals : list (Observer.Analysis * Observer.Verification))
    (a : Assessment) : Assessment :=
  fold_left (fun a e => exec (Observer._update_assessment (fst e) (snd e)) a)
            evals a.

(** An evaluation with the given three scores and nothing else of note. *)
Definition evaluation (t c f : Q) : Observer.Analysis :=
  {| Observer.a_technical_score := Some t;
     Observer.a_completeness_score := Some t;
     Observer.a_confidence_score := Some f;
     Observer.a_communication_score := Some c;
     Observer.a_has_errors := Some false;
     Observer.a_errors_list := Some [];
     Observer.a_is_evasive := Some false;
     Observer.a_depth_of_knowledge := Some (utf8 "adequate");
     Observer.a_recommendation_for_next_question := Some (utf8 "Продолжить тему");
     Observer.a_suggested_correction := Some [];
     Observer.a_reasoning := None |}.

(** The smoothing expression [old * 0.7 + incoming * 0.3] on binary64. *)
Definition smooth_binary64 (old incoming : float) : float :=
  (old * 0.7 + incoming * 0.3)%float.

(** The log after a sequence of calls of [add_turn]; an entry is the
    question, the answer and the thoughts. *)
Definition add_turns (entries : list (str * str * str)) (log : LogData) : LogData :=
  fold_left
    (fun log e =>
       InterviewLogger.add_turn log (fst (fst e)) (snd (fst e)) (snd e))
    entries log.

(** The identifiers [1, 2, ..., n]. *)
Definition ids_upto (n : nat) : list Z := map Z.of_nat (seq 1 n).

(** The turns of the log a state carries. *)
Definition log_turns (st : InterviewState) : list Turn :=
  match log_data st with Some log => turns log | None => [] end.

(** Turns numbered [1, 2, ..., N], in order. *)
Definition numbered (ts : list Turn) : Prop :=
  map turn_id ts = ids_upto (List.length ts).

(** Two states that differ at most in the assessment they carry. *)
Definition same_but_assessment (st st' : InterviewState) : Prop :=
  set_assessment None st' = set_assessment None st.

(** The questions asked so far. *)
Definition asked (st : InterviewState) : list str :=
  match questions_asked st with Some qs => qs | None => [] end.

(** The world [w] with another outcome of [input]. *)
Definition set_console_input (r : result str) (w : Graph.World) : Graph.World :=
  {| Graph.now := Graph.now w;
     Graph.minutes := Graph.minutes w;
     Graph.coordinator := Graph.coordinator w;
     Graph.interviewer := Graph.interviewer w;
     Graph.console_input := r;
     Graph.observer := Graph.observer w;
     Graph.feedback_llm := Graph.feedback_llm w;
     Graph.format_score := Graph.format_score w |}.

(** The six keys [_update_assessment] reads with a subscript. *)
Definition complete_evaluation (an : Observer.Analysis) : bool :=
  match Observer.a_technical_score an, Observer.a_communication_score an,
        Observer.a_confidence_score an, Observer.a_has_errors an,
        Observer.a_is_evasive an, Observer.a_depth_of_knowledge an with
  | Some _, Some _, Some _, Some _, Some _, Some _ => true
  | _, _, _, _, _, _ => false
  end.

(** The one key under which [_update_assessment] files a correction. *)
Definition gap_key : str := utf8 "текущая тема".

(** A dictionary of knowledge gaps with at most one entry, filed under
    [gap_key], of at most 200 code points. *)
Definition single_gap (gaps : Dict.t str) : Prop :=
  gaps = [] \/ exists v, gaps = [(gap_key, v)] /\ (List.length v <= 200)%nat.

(** The order of the hiring recommendations, from "No Hire" up. *)
Definition hiring_rank (label : str) : nat :=
  if PyStr.eqb label (utf8 "Strong Hire") then 3
  else if PyStr.eqb label (utf8 "Hire") then 2
  else if PyStr.eqb label (utf8 "Hire with reservations") then 1
  else 0.

(** After [k] turns at most, each score is at most [10 * (1 - 0.7^k)]. *)
Definition below_ceiling (k : nat) (a : Assessment) : Prop :=
  technical_score a <= 10 * (1 - (7 # 10) ^ Z.of_nat k)
  /\ communication_score a <= 10 * (1 - (7 # 10) ^ Z.of_nat k)
  /\ confidence_score a <= 10 * (1 - (7 # 10) ^ Z.of_nat k).

(** The note an evasive answer earns. *)
Definition evasive_note : str := utf8 "Кандидат был уклончив в ответе".

(** The answer as the observer analyses it: cut after 4000 code points. *)
Definition analysed_answer (answer : str) : str :=
  if (4000 <? List.length answer)%nat
  then (slice_to 4000 answer ++ utf8 "... [ответ обрезан]")%list
  else answer.

(** The verification the observer works with, when it has one. *)
Definition verification_is (cfg : Settings.t) (srv : Observer.Services)
    (v : Observer.Verification) : Prop :=
  if Settings.RAG_ENABLED cfg
  then Observer.verify_technical_answer srv = Ok v
  else v = Observer.rag_disabled.

(** A question has been asked at this node and its turn is not in the log
    yet. *)
Definition pending (n : Graph.Node) : nat :=
  match n with
  | Graph.GetUserAnswer | Graph.AnalyzeAnswer => 1
  | _ => 0
  end.

(** A logged turn holds a question that was asked and a non-empty answer. *)
Definition turn_recorded (st : InterviewState) (t : Turn) : Prop :=
  In (agent_visible_message t) (asked st)
  /\ truthy (agent_visible_message t) = true
  /\ truthy (user_message t) = true.

(** What holds of the state at every node of a session. *)
Definition session_invariant (cfg : Settings.t) (n : Graph.Node)
    (st : InterviewState) : Prop :=
  (Coordinator.questions_count st <= Z.max 0 (Settings.MAX_TURNS cfg))%Z
  /\ (n = Graph.GenerateQuestion ->
      (Coordinator.questions_count st < Settings.MAX_TURNS cfg)%Z)
  /\ difficulty_level st = Some (Settings.DEFAULT_DIFFICULTY cfg)
  /\ (List.length (log_turns st) + pending n <= List.length (asked st))%nat
  /\ Forall (turn_recorded st) (log_turns st)
  /\ (forall q, current_question st = Some q -> truthy q = true ->
                In q (asked st)).

(** The topic [generate_question] reads from the state. *)
Definition topic_of (st : InterviewState) : str :=
  match current_topic st with Some t => t | None => [] end.

(** The question [_get_fallback_question] builds from the topic when no bank
    has a question left. *)
Definition template_question (topic : str) : str :=
  (utf8 "Расскажите о своем опыте работы с " ++ topic ++ utf8 "?")%list.

(** The list [roadmap] of [_generate_roadmap] before [roadmap[:5]]. *)
Definition roadmap_items (a : Assessment) (candidate : CandidateInfo)
  : list str :=
  (map (fun '(topic, correction) =>
          (utf8 "Изучить " ++ topic ++ utf8 ": " ++ slice_to 100 correction
             ++ utf8 "...")%list)
       (knowledge_gaps a)
   ++ (if Qlt_bool (technical_score a) 6
       then [utf8 "Углубить понимание основных концепций"] else [])
   ++ (if Qlt_bool (communication_score a) 5
       then [utf8 "Потренироваться в объяснении технических концепций"] else [])
   ++ (if PyStr.eqb (grade candidate) (utf8 "Junior")
          && Qlt_bool 7 (technical_score a)
       then [utf8 "Начать изучение продвинутых тем для перехода на Middle"] else [])
   ++ (if PyStr.eqb (grade candidate) (utf8 "Middle")
          && Qlt_bool 8 (technical_score a)
       then [utf8 "Изучить архитектурные паттерны и проектирование систем"] else []))%list.

(** The dialogue holds only messages of the interviewer and of the
    candidate. *)
Definition known_roles (st : InterviewState) : Prop :=
  Forall (fun msg => role msg = utf8 "user" \/ role msg = utf8 "interviewer")
         (or_default (messages st) []).

(* ------------------------------------------------------------------ *)
(** * Sample sessions *)

Module Sample.

Definition candidate : CandidateInfo :=
  {| name := utf8 "Ada";
     position := utf8 "Python Developer";
     grade := utf8 "Middle";
     experience_years := 3;
     technologies := [utf8 "Python"] |}.

Definition clock : str := utf8 "2024-01-01T10:00:00".

(** What the knowledge base of the repository answers. *)
Definition verification : Observer.Verification :=
  {| Observer.v_is_correct := None;
     Observer.v_confidence := 3 # 10;
     Observer.v_correct_info := utf8 "Ошибка при проверке";
     Observer.v_suggested_topics := [] |}.

(** A reply of the reasoning service that is prose, not JSON. *)
Definition prose : str := utf8 "Let us go on with the next question.".

(** A coordinator whose reasoning service answers with prose. *)
Definition coordinator_prose : Coordinator.Services :=
  {| Coordinator.llm_invoke := Ok prose;
     Coordinator.json_loads := fun _ => NotJSON |}.

(** The evaluation the observer's own default JSON text stands for. *)
Definition middling : Observer.Analysis :=
  {| Observer.a_technical_score := Some 5;
     Observer.a_completeness_score := Some 5;
     Observer.a_confidence_score := Some 5;
     Observer.a_communication_score := Some 5;
     Observer.a_has_errors := Some false;
     Observer.a_errors_list := Some [];
     Observer.a_is_evasive := Some false;
     Observer.a_depth_of_knowledge := Some (utf8 "adequate");
     Observer.a_recommendation_for_next_question := Some (utf8 "Продолжить тему");
     Observer.a_suggested_correction := Some [];
     Observer.a_reasoning := None |}.

(** An observer whose reasoning service replies with that JSON text. *)
Definition observer_middling : Observer.Services :=
  {| Observer.verify_technical_answer := Ok verification;
     Observer.llm_invoke := Ok Observer.default_json_literal;
     Observer.json_loads :=
       fun text =>
         if PyStr.eqb text Observer.default_json_literal
         then Object middling else NotJSON |}.

(** A JSON object with a technical score and nothing else. *)
Definition technical_only_text : str :=
  replace_cp 39 34 (utf8 "{'technical_score': 8}").

Definition technical_only : Observer.Analysis :=
  {| Observer.a_technical_score := Some 8;
     Observer.a_completeness_score := None;
     Observer.a_confidence_score := None;
     Observer.a_communication_score := None;
     Observer.a_has_errors := None;
     Observer.a_errors_list := None;
     Observer.a_is_evasive := None;
     Observer.a_depth_of_knowledge := None;
     Observer.a_recommendation_for_next_question := None;
     Observer.a_suggested_correction := None;
     Observer.a_reasoning := None |}.

Definition observer_technical_only : Observer.Services :=
  {| Observer.verify_technical_answer := Ok verification;
     Observer.llm_invoke := Ok technical_only_text;
     Observer.json_loads :=
       fun text =>
         if PyStr.eqb text technical_only_text
         then Object technical_only else NotJSON |}.

(** The world of one turn: the interviewer's service proposes [question],
    the candidate types [line], the coordinator's service answers with
    prose. *)
Definition world (question line : str) : Graph.World :=
  {| Graph.now := clock;
     Graph.minutes := fun _ _ => 0;
     Graph.coordinator := coordinator_prose;
     Graph.interviewer :=
       {| Interviewer.llm_invoke := Ok question;
          Interviewer.llm_invoke_alternative := Raise ServiceError |};
     Graph.console_input := Ok line;
     Graph.observer := observer_middling;
     Graph.feedback_llm := Ok (utf8 "Thank you.");
     Graph.format_score := fun _ => utf8 "5" |}.

(** The four nodes of a turn meet the same world. *)
Definition turn (question line : str) : list Graph.World :=
  repeat (world question line) 4.

Definition five_questions : list str :=
  [utf8 "What is a list?"; utf8 "What is a tuple?"; utf8 "What is a dict?";
   utf8 "What is a set?"; utf8 "What is a generator?"].

Definition long_answer : str :=
  utf8 "It is a built-in container type of the language.".

(** [start_interview], five complete turns, and the routing step after
    them. *)
Definition five_turns_and_routing : list Graph.World :=
  (world [] [] :: List.concat (map (fun q => turn q long_answer) five_questions)
     ++ [world [] []])%list.

(** A run of the workflow from the initial state of [run]. *)
Definition run (ws : list Graph.World) : result (Graph.Node * InterviewState) :=
  Graph.steps Settings.default ws Graph.StartInterview
              (Graph.initial_state Settings.default candidate clock).

(** [start_interview] and five complete turns. *)
Definition five_turns : list Graph.World :=
  removelast five_turns_and_routing.

(** The state the sixth routing step starts from. *)
Definition after_five_turns : InterviewState :=
  match run five_turns with
  | Ok (_, st) => st
  | Raise _ => Graph.initial_state Settings.default candidate clock
  end.

(** [start_interview] and two complete turns. *)
Definition two_turns : list Graph.World :=
  (world [] [] :: turn (utf8 "What is a list?") long_answer
     ++ turn (utf8 "What is a tuple?") long_answer)%list.

(** The state in which the first question waits for its answer. *)
Definition awaiting_first_answer : InterviewState :=
  match run (repeat (world (utf8 "What is a list?") long_answer) 3) with
  | Ok (_, st) => st
  | Raise _ => Graph.initial_state Settings.default candidate clock
  end.

(** The state in which the first answer waits for its evaluation. *)
Definition first_answer_given : InterviewState :=
  match run (repeat (world (utf8 "What is a list?") long_answer) 4) with
  | Ok (_, st) => st
  | Raise _ => Graph.initial_state Settings.default candidate clock
  end.

(** A world whose observer gets a JSON object with a technical score and
    nothing else from the reasoning service. *)
Definition world_technical_only : Graph.World :=
  {| Graph.now := clock;
     Graph.minutes := fun _ _ => 0;
     Graph.coordinator := coordinator_prose;
     Graph.interviewer :=
       {| Interviewer.llm_invoke := Ok (utf8 "What is a tuple?");
          Interviewer.llm_invoke_alternative := Raise ServiceError |};
     Graph.console_input := Ok long_answer;
     Graph.observer := observer_technical_only;
     Graph.feedback_llm := Ok (utf8 "Thank you.");
     Graph.format_score := fun _ => utf8 "8" |}.

(** The world of the first turn, with the candidate typing [line]. *)
Definition first_turn (line : str) : Graph.World :=
  world (utf8 "What is a list?") line.

(** The world of the first turn, with the input at its end. *)
Definition first_turn_eof : Graph.World :=
  set_console_input (Raise EOFError) (first_turn []).

(** An interviewer whose reasoning service is down. *)
Definition interviewer_down : Interviewer.Services :=
  {| Interviewer.llm_invoke := Raise ServiceError;
     Interviewer.llm_invoke_alternative := Raise ServiceError |}.

(** An interviewer whose reasoning service proposes a question that has been
    asked and then, as the alternative, a sentence without a question
    mark. *)
Definition interviewer_repeating : Interviewer.Services :=
  {| Interviewer.llm_invoke := Ok (utf8 "What is a list?");
     Interviewer.llm_invoke_alternative := Ok (utf8 "Tell me about decorators") |}.

(** A session on the topic Go in which the template question has been
    asked. *)
Definition asked_about_go : InterviewState :=
  set_questions_asked (Some [utf8 "Расскажите о своем опыте работы с Go?"])
    (set_current_topic (Some (utf8 "Go"))
       (Graph.initial_state Settings.default candidate clock)).


(** A candidate who declares the grade Junior. *)
Definition junior : CandidateInfo :=
  {| name := utf8 "Bob";
     position := utf8 "Python Developer";
     grade := utf8 "Junior";
     experience_years := 1;
     technologies := [utf8 "Python"] |}.

(** An assessment with the given technical score. *)
Definition scored (technical : Q) : Assessment :=
  set_technical_score technical Assessment_new.

(** Every service is down: each call of the reasoning service raises. *)
Definition world_down (line : str) : Graph.World :=
  {| Graph.now := clock;
     Graph.minutes := fun _ _ => 0;
     Graph.coordinator :=
       {| Coordinator.llm_invoke := Raise ServiceError;
          Coordinator.json_loads := fun _ => NotJSON |};
     Graph.interviewer :=
       {| Interviewer.llm_invoke := Raise ServiceError;
          Interviewer.llm_invoke_alternative := Raise ServiceError |};
     Graph.console_input := Ok line;
     Graph.observer :=
       {| Observer.verify_technical_answer := Ok verification;
          Observer.llm_invoke := Raise ServiceError;
          Observer.json_loads := fun _ => NotJSON |};
     Graph.feedback_llm := Raise ServiceError;
     Graph.format_score := fun _ => utf8 "5" |}.

(** [start_interview], a complete turn, and the routing and asking steps of
    the second turn, with every service down. *)
Definition two_questions_down : list Graph.World :=
  repeat (world_down long_answer) 7.

End Sample.

(* ------------------------------------------------------------------ *)
(** * Facts about strings *)

Module PyStrFacts.

Lemma eqb_refl (a : str) : eqb a a = true.
Proof.
  induction a as [|x a IH]; simpl; [reflexivity|].
  now rewrite N.eqb_refl, IH.
Qed.

Lemma eqb_eq (a b : str) : eqb a b = true <-> a = b.
Proof.
  split.
  - revert b. induction a as [|x a IH]; intros [|y b]; simpl; try discriminate.
    + reflexivity.
    + intros H. apply andb_prop in H. destruct H as [Hx Hr].
      apply N.eqb_eq in Hx. apply IH in Hr. now subst.
  - intros ->. apply eqb_refl.
Qed.

Lemma mem_In (x : str) (xs : list str) : mem x xs = true <-> In x xs.
Proof.
  unfold mem. rewrite existsb_exists. split.
  - intros [y [Hy He]]. apply eqb_eq in He. now subst.
  - intros H. exists x. split; [assumption | apply eqb_refl].
Qed.

Lemma mem_not_In (x : str) (xs : list str) : mem x xs = false <-> ~ In x xs.
Proof.
  rewrite <- mem_In. destruct (mem x xs); split; congruence.
Qed.


End PyStrFacts.

(* ------------------------------------------------------------------ *)
(** * The assessment update *)

Section Smoothing.

Import Observer.

(** The three scores an update leaves in the object, when the evaluation
    carries all three: whatever the rest of the evaluation is, and whether
    the update returns or raises on a missing later key. *)
Lemma update_scores (an : Analysis) (v : Verification) (a : Assessment) (t c f : Q) :
  a_technical_score an = Some t ->
  a_communication_score an = Some c ->
  a_confidence_score an = Some f ->
  let a' := exec (_update_assessment an v) a in
  technical_score a' = technical_score a * (7 # 10) + t * (3 # 10)
  /\ communication_score a' = communication_score a * (7 # 10) + c * (3 # 10)
  /\ confidence_score a' = confidence_score a * (7 # 10) + f * (3 # 10).
Proof.
  intros Ht Hc Hf.
  unfold exec, _update_assessment, bind, lift, get, modify, when, ret.
  rewrite Ht, Hc, Hf. cbn.
  destruct (a_has_errors an) as [[|]|]; cbn; auto.
  - destruct (get_truthy (a_suggested_correction an)); cbn.
    + destruct (a_suggested_correction an); cbn; auto.
      destruct (a_is_evasive an) as [[|]|]; cbn; auto;
        destruct (a_depth_of_knowledge an) as [d|]; cbn; auto;
        destruct (PyStr.eqb d _); cbn; auto.
    + destruct (a_is_evasive an) as [[|]|]; cbn; auto;
        destruct (a_depth_of_knowledge an) as [d|]; cbn; auto;
        destruct (PyStr.eqb d _); cbn; auto.
  - destruct (a_is_evasive an) as [[|]|]; cbn; auto;
      destruct (a_depth_of_knowledge an) as [d|]; cbn; auto;
      destruct (PyStr.eqb d _); cbn; auto.
Qed.

(** The technical score is assigned first: it is smoothed as soon as the
    evaluation carries a technical score. *)
Lemma update_technical (an : Analysis) (v : Verification) (a : Assessment) (t : Q) :
  a_technical_score an = Some t ->
  technical_score (exec (_update_assessment an v) a)
  = technical_score a * (7 # 10) + t * (3 # 10).
Proof.
  intros Ht.
  unfold exec, _update_assessment, bind, lift, get, modify, when, ret.
  rewrite Ht. cbn.
  destruct (a_communication_score an); cbn; auto.
  destruct (a_confidence_score an); cbn; auto.
  destruct (a_has_errors an) as [[|]|]; cbn; auto.
  - destruct (get_truthy (a_suggested_correction an)); cbn.
    + destruct (a_suggested_correction an); cbn; auto.
      destruct (a_is_evasive an) as [[|]|]; cbn; auto;
        destruct (a_depth_of_knowledge an) as [d|]; cbn; auto;
        destruct (PyStr.eqb d _); cbn; auto.
    + destruct (a_is_evasive an) as [[|]|]; cbn; auto;
        destruct (a_depth_of_knowledge an) as [d|]; cbn; auto;
        destruct (PyStr.eqb d _); cbn; auto.
  - destruct (a_is_evasive an) as [[|]|]; cbn; auto;
      destruct (a_depth_of_knowledge an) as [d|]; cbn; auto;
      destruct (PyStr.eqb d _); cbn; auto.
Qed.

(** A convex combination of two scores on the scale is on the scale. *)
Lemma smoothing_in_range (old incoming : Q) :
  in_range old -> in_range incoming ->
  in_range (old * (7 # 10) + incoming * (3 # 10)).
Proof.
  unfold in_range. intros [Ho1 Ho2] [Hi1 Hi2]. split; lra.
Qed.

Lemma update_in_range (an : Analysis) (v : Verification) (a : Assessment) :
  scores_in_range a -> evaluation_in_range an ->
  scores_in_range (exec (_update_assessment an v) a).
Proof.
  intros (Ht & Hc & Hf) (t & c & f & Et & Ec & Ef & Rt & Rc & Rf).
  destruct (update_scores an v a t c f Et Ec Ef) as (E1 & E2 & E3).
  unfold scores_in_range. rewrite E1, E2, E3.
  repeat split; apply smoothing_in_range; assumption.
Qed.

Lemma update_all_in_range (evals : list (Analysis * Verification)) :
  forall a,
    scores_in_range a ->
    Forall (fun e => evaluation_in_range (fst e)) evals ->
    scores_in_range (update_all evals a).
Proof.
  induction evals as [|e evals IH]; intros a Ha Hall; simpl.
  - exact Ha.
  - inversion Hall as [|? ? He Hrest]; subst.
    apply IH; [apply update_in_range; assumption | assumption].
Qed.

Lemma new_assessment_in_range : scores_in_range Assessment_new.
Proof.
  unfold scores_in_range, in_range; simpl. repeat split; lra.
Qed.

End Smoothing.

Section SmoothingClaims.

Import Observer.

(** C1.  For every sequence of evaluations whose technical, communication
    and confidence scores lie in [0,10], the three running scores of the
    assessment lie in [0,10] after each of the updates, applied in order
    from the zero-valued assessment. *)
Theorem running_scores_stay_in_range
    (evals : list (Analysis * Verification)) :
  Forall (fun e => evaluation_in_range (fst e)) evals ->
  forall k, scores_in_range (update_all (firstn k evals) Assessment_new).
Proof.
  intros Hall k.
  apply update_all_in_range.
  - apply new_assessment_in_range.
  - rewrite <- (firstn_skipn k evals) in Hall.
    apply Forall_app in Hall. apply Hall.
Qed.

Lemma running_scores_stay_in_range_witness :
  scores_in_range
    (update_all (firstn 2 [(evaluation 8 7 6, rag_disabled);
                           (evaluation 10 0 3, rag_disabled)])
                Assessment_new).
Proof.
  apply (running_scores_stay_in_range
           [(evaluation 8 7 6, rag_disabled); (evaluation 10 0 3, rag_disabled)]).
  repeat constructor.
  - exists 8, 7, 6. unfold in_range, Qle. simpl. repeat split; lia.
  - exists 10, 0, 3. unfold in_range, Qle. simpl. repeat split; lia.
Defined.

(** C8.  The update sets each of the three running scores to
    [old * 0.7 + incoming * 0.3]; three updates with an incoming technical
    score of 8, from the zero-valued assessment, leave a technical score of
    [8 * (1 - 0.7^3) = 5.256], as rationals and on binary64 alike. *)
Theorem three_updates_toward_eight :
  (forall an v a t c f,
      a_technical_score an = Some t ->
      a_communication_score an = Some c ->
      a_confidence_score an = Some f ->
      let a' := exec (_update_assessment an v) a in
      technical_score a' = technical_score a * (7 # 10) + t * (3 # 10)
      /\ communication_score a' = communication_score a * (7 # 10) + c * (3 # 10)
      /\ confidence_score a' = confidence_score a * (7 # 10) + f * (3 # 10))
  /\ (forall e1 e2 e3,
         a_technical_score (fst e1) = Some 8 ->
         a_technical_score (fst e2) = Some 8 ->
         a_technical_score (fst e3) = Some 8 ->
         let score := technical_score (update_all [e1; e2; e3] Assessment_new) in
         score == 8 * (1 - (7 # 10) ^ 3) /\ score == 5256 # 1000)
  /\ smooth_binary64 (smooth_binary64 (smooth_binary64 0 8) 8) 8 = 5.256%float.
Proof.
  split; [|split].
  - intros an v a t c f. apply update_scores.
  - intros e1 e2 e3 H1 H2 H3. unfold update_all. simpl fold_left.
    rewrite (update_technical _ _ _ _ H3), (update_technical _ _ _ _ H2),
      (update_technical _ _ _ _ H1).
    simpl technical_score. split; reflexivity.
  - vm_compute. reflexivity.
Qed.

Lemma three_updates_toward_eight_witness :
  technical_score
    (update_all [(evaluation 8 7 6, rag_disabled);
                 (evaluation 8 7 6, rag_disabled);
                 (evaluation 8 7 6, rag_disabled)] Assessment_new)
  == 5256 # 1000.
Proof.
  destruct three_updates_toward_eight as [_ [H _]].
  apply (H (evaluation 8 7 6, rag_disabled) (evaluation 8 7 6, rag_disabled)
           (evaluation 8 7 6, rag_disabled)); reflexivity.
Defined.

End SmoothingClaims.

(* ------------------------------------------------------------------ *)
(** * The session log *)

Section LogFacts.

Import InterviewLogger.

Lemma ids_upto_S (n : nat) : ids_upto (S n) = (ids_upto n ++ [(Z.of_nat n + 1)%Z])%list.
Proof.
  unfold ids_upto. rewrite seq_S, map_app. simpl.
  do 2 f_equal. lia.
Qed.

Lemma add_turn_turns (log : LogData) (q a t : str) :
  turns (add_turn log q a t)
  = (turns log
       ++ [{| turn_id := Z.of_nat (List.length (turns log)) + 1;
              agent_visible_message := q;
              user_message := a;
              internal_thoughts := t |}])%list.
Proof. reflexivity. Qed.

(** A list of turns numbered from 1, without gaps. *)
Lemma numbered_app (ts : list Turn) (q a t : str) :
  numbered ts ->
  let ts' := (ts ++ [{| turn_id := Z.of_nat (List.length ts) + 1;
                        agent_visible_message := q;
                        user_message := a;
                        internal_thoughts := t |}])%list in
  numbered ts'.
Proof.
  intros H. unfold numbered in *. cbv zeta.
  rewrite map_app, length_app, H. simpl.
  rewrite Nat.add_1_r, ids_upto_S. reflexivity.
Qed.

Lemma add_turns_numbered (entries : list (str * str * str)) :
  forall log,
    map turn_id (turns log) = ids_upto (List.length (turns log)) ->
    map turn_id (turns (add_turns entries log))
    = ids_upto (List.length (turns (add_turns entries log)))
    /\ List.length (turns (add_turns entries log))
       = (List.length (turns log) + List.length entries)%nat.
Proof.
  induction entries as [|e entries IH]; intros log H; simpl.
  - split; [exact H | lia].
  - destruct (IH (add_turn log (fst (fst e)) (snd (fst e)) (snd e))) as [I1 I2].
    + rewrite add_turn_turns. apply numbered_app. exact H.
    + split; [exact I1|]. unfold add_turns in *. simpl in I2.
      rewrite I2, length_app. simpl. lia.
Qed.

End LogFacts.

(* ------------------------------------------------------------------ *)
(** * The nodes of the workflow and the log *)

Section GraphFacts.

Import Graph.

Variable cfg : Settings.t.

Lemma Ok_inj {A} (a b : A) : Ok a = Ok b -> a = b.
Proof. intros H. injection H as H. exact H. Qed.

Lemma Ok_pair_inj {A B} (a c : A) (b d : B) :
  Ok (a, b) = Ok (c, d) -> a = c /\ b = d.
Proof. intros H. injection H as H1 H2. split; assumption. Qed.

Lemma same_but_assessment_log (st st' : InterviewState) :
  same_but_assessment st st' -> log_data st' = log_data st.
Proof. intros H. apply (f_equal log_data) in H. exact H. Qed.

Lemma same_but_assessment_complete (st st' : InterviewState) :
  same_but_assessment st st' -> interview_complete st' = interview_complete st.
Proof. intros H. apply (f_equal interview_complete) in H. exact H. Qed.

Lemma same_but_assessment_asked (st st' : InterviewState) :
  same_but_assessment st st' -> questions_asked st' = questions_asked st.
Proof. intros H. apply (f_equal questions_asked) in H. exact H. Qed.

(** A call on [state["assessment"]] touches nothing else in the state. *)
Lemma on_assessment_frame {A} (c : M Assessment A) (st : InterviewState) :
  same_but_assessment st (snd (Observer.on_assessment c st)).
Proof.
  unfold Observer.on_assessment.
  destruct (assessment st) as [a|]; [destruct (c a)|]; reflexivity.
Qed.

Lemma observer_frame (srv : Observer.Services) (q a : str) (st : InterviewState) :
  same_but_assessment st (snd (Observer.analyze_answer cfg srv q a st)).
Proof.
  unfold Observer.analyze_answer.
  destruct (negb (truthy q) || negb (truthy a)).
  - apply on_assessment_frame.
  - unfold bind, lift, ret.
    match goal with |- context [match ?r with Ok _ => _ | Raise _ => _ end] =>
      destruct r as [an|e] end; [|reflexivity].
    match goal with |- context [Observer.on_assessment ?c st] =>
      pose proof (on_assessment_frame c st) as F;
      destruct (Observer.on_assessment c st) as [[u|e] st1] end;
      exact F.
Qed.

Lemma ensure_log_data_turns (w : World) (st : InterviewState) :
  log_turns (ensure_log_data w st) = log_turns st.
Proof.
  unfold ensure_log_data, log_turns.
  destruct (log_data st) eqn:E; [rewrite E|]; reflexivity.
Qed.

Lemma ensure_log_data_some (w : World) (st : InterviewState) :
  exists log, log_data (ensure_log_data w st) = Some log
              /\ turns log = log_turns st.
Proof.
  unfold ensure_log_data, log_turns.
  destruct (log_data st) as [log|] eqn:E.
  - exists log. rewrite E. split; reflexivity.
  - eexists. split; reflexivity.
Qed.

Lemma ensure_log_data_complete (w : World) (st : InterviewState) :
  interview_complete (ensure_log_data w st) = interview_complete st.
Proof. unfold ensure_log_data. destruct (log_data st); reflexivity. Qed.

Lemma ensure_log_data_asked (w : World) (st : InterviewState) :
  questions_asked (ensure_log_data w st) = questions_asked st.
Proof. unfold ensure_log_data. destruct (log_data st); reflexivity. Qed.

(** [analyze_answer] leaves the termination flag and the questions asked
    as they are, and either leaves the log as it is or appends one turn,
    numbered one more than the turns before it, for the pending question and
    answer. *)
Lemma analyze_answer_effect (w : World) (st : InterviewState) :
  let st' := analyze_answer cfg w st in
  interview_complete st' = interview_complete st
  /\ questions_asked st' = questions_asked st
  /\ (log_turns st' = log_turns st
      \/ exists thoughts,
           log_turns st'
           = (log_turns st
                ++ [{| turn_id := Z.of_nat (List.length (log_turns st)) + 1;
                       agent_visible_message := or_default (current_question st) [];
                       user_message := or_default (current_answer st) [];
                       internal_thoughts := thoughts |}])%list).
Proof.
  intros st'. subst st'. unfold analyze_answer.
  pose proof (ensure_log_data_complete w st) as Hc.
  pose proof (ensure_log_data_asked w st) as Ha.
  pose proof (ensure_log_data_turns w st) as Ht.
  destruct (ensure_log_data_some w st) as [log [Hlog Hturns]].
  assert (Hq : current_question (ensure_log_data w st) = current_question st)
    by (unfold ensure_log_data; destruct (log_data st); reflexivity).
  assert (Hans : current_answer (ensure_log_data w st) = current_answer st)
    by (unfold ensure_log_data; destruct (log_data st); reflexivity).
  set (st0 := ensure_log_data w st) in *.
  rewrite Hq, Hans.
  destruct (negb (truthy (or_default (current_question st) []))
            || negb (truthy (or_default (current_answer st) []))).
  - auto.
  - pose proof (observer_frame (observer w)
                  (or_default (current_question st) [])
                  (or_default (current_answer st) []) st0) as F.
    destruct (Observer.analyze_answer cfg (observer w) _ _ st0) as [[an|e] st1].
    + simpl in F.
      pose proof (same_but_assessment_log _ _ F) as Fl.
      pose proof (same_but_assessment_complete _ _ F) as Fc.
      pose proof (same_but_assessment_asked _ _ F) as Fa.
      split; [|split].
      * cbn. congruence.
      * cbn. congruence.
      * right. eexists. unfold log_turns at 1. cbn.
        rewrite Fl, Hlog. cbn. rewrite Hturns. reflexivity.
    + simpl in F.
      split; [|split].
      * rewrite (same_but_assessment_complete _ _ F). exact Hc.
      * rewrite (same_but_assessment_asked _ _ F). exact Ha.
      * left. unfold log_turns. rewrite (same_but_assessment_log _ _ F).
        exact Ht.
Qed.

Lemma start_interview_turns (w : World) (st : InterviewState) :
  log_turns (start_interview cfg w st) = log_turns st.
Proof.
  transitivity (log_turns (ensure_log_data w st));
    [reflexivity | apply ensure_log_data_turns].
Qed.

Lemma coordinator_decision_turns (w : World) (st st' : InterviewState) :
  coordinator_decision cfg w st = Ok st' -> log_turns st' = log_turns st.
Proof.
  unfold coordinator_decision. intros H. cbv zeta in H.
  rewrite <- (ensure_log_data_turns w st).
  destruct (Coordinator.should_end_interview cfg (ensure_log_data w st)).
  - apply Ok_inj in H. subst st'. reflexivity.
  - destruct (Coordinator.decide_next_step cfg (coordinator w) _) as [d|e];
      [|discriminate].
    apply Ok_inj in H. subst st'.
    destruct (action_is d (utf8 "change_topic")
              && get_truthy (Coordinator.new_topic d));
      destruct (action_is d (utf8 "end_interview")); reflexivity.
Qed.

Lemma generate_question_turns (w : World) (st : InterviewState) :
  log_turns (generate_question w st) = log_turns st.
Proof.
  transitivity (log_turns (ensure_log_data w st));
    [reflexivity | apply ensure_log_data_turns].
Qed.

Lemma get_user_answer_turns (w : World) (st st' : InterviewState) :
  get_user_answer w st = Ok st' -> log_turns st' = log_turns st.
Proof.
  unfold get_user_answer. intros H.
  rewrite <- (ensure_log_data_turns w st).
  destruct (read_answer w) as [line|e]; [|discriminate].
  destruct (mem (lower line) stop_words); apply Ok_inj in H; subst st';
    reflexivity.
Qed.

Lemma generate_feedback_turns (w : World) (st : InterviewState) :
  log_turns (generate_feedback w st) = log_turns st.
Proof.
  rewrite <- (ensure_log_data_turns w st).
  unfold generate_feedback, log_turns. cbn.
  destruct (log_data (ensure_log_data w st)); reflexivity.
Qed.

(** Every step keeps the turns of the log numbered from 1 without gaps. *)
Lemma step_numbered (w : World) (n n' : Node) (st st' : InterviewState) :
  numbered (log_turns st) ->
  step cfg w n st = Ok (n', st') ->
  numbered (log_turns st').
Proof.
  intros Hn H. destruct n; simpl in H.
  - apply Ok_pair_inj in H; destruct H as [_ <-]. now rewrite start_interview_turns.
  - destruct (coordinator_decision cfg w st) as [s|e] eqn:E; [|discriminate].
    apply Ok_pair_inj in H; destruct H as [_ <-]. now rewrite (coordinator_decision_turns _ _ _ E).
  - apply Ok_pair_inj in H; destruct H as [_ <-]. now rewrite generate_question_turns.
  - destruct (get_user_answer w st) as [s|e] eqn:E; [|discriminate].
    apply Ok_pair_inj in H; destruct H as [_ <-]. now rewrite (get_user_answer_turns _ _ _ E).
  - apply Ok_pair_inj in H; destruct H as [_ <-].
    destruct (analyze_answer_effect w st) as (_ & _ & [E | [t E]]);
      rewrite E; [assumption|].
    apply numbered_app. assumption.
  - apply Ok_pair_inj in H; destruct H as [_ <-]. now rewrite generate_feedback_turns.
  - apply Ok_pair_inj in H; destruct H as [_ <-]. assumption.
  - apply Ok_pair_inj in H; destruct H as [_ <-]. assumption.
Qed.

Lemma steps_numbered (ws : list World) :
  forall (n n' : Node) (st st' : InterviewState),
    numbered (log_turns st) ->
    steps cfg ws n st = Ok (n', st') ->
    numbered (log_turns st').
Proof.
  induction ws as [|w ws IH]; intros n n' st st' Hn H; simpl in H.
  - injection H as _ <-. assumption.
  - destruct (step cfg w n st) as [[n1 st1]|e] eqn:E; [|discriminate].
    apply (IH n1 n' st1 st'); [|assumption].
    apply (step_numbered _ _ _ _ _ Hn E).
Qed.

End GraphFacts.


(* ------------------------------------------------------------------ *)
(** * Claims about the session log *)

Section LogClaims.

Import Graph InterviewLogger.

(** C9.  [add_turn] gives the turn it appends the number of turns already in
    the log plus one; the turns of a log built by any number N of calls of
    [add_turn] are numbered 1, 2, ..., N in order; and so are the turns of
    the log of every state the workflow reaches from its initial state. *)
Theorem turn_ids_are_sequential :
  (forall log q a t,
      turns (add_turn log q a t)
      = (turns log
           ++ [{| turn_id := Z.of_nat (List.length (turns log)) + 1;
                  agent_visible_message := q;
                  user_message := a;
                  internal_thoughts := t |}])%list)
  /\ (forall candidate clock entries,
         map turn_id (turns (add_turns entries (init_log_data candidate clock)))
         = ids_upto (List.length entries))
  /\ (forall cfg candidate clock ws n st,
         steps cfg ws StartInterview (initial_state cfg candidate clock)
         = Ok (n, st) ->
         map turn_id (log_turns st) = ids_upto (List.length (log_turns st))).
Proof.
  split; [|split].
  - intros. apply add_turn_turns.
  - intros candidate clock entries.
    destruct (add_turns_numbered entries (init_log_data candidate clock))
      as [H1 H2]; [reflexivity|].
    rewrite H1, H2. reflexivity.
  - intros cfg candidate clock ws n st H.
    apply (steps_numbered cfg ws StartInterview n
             (initial_state cfg candidate clock) st); [reflexivity | exact H].
Qed.

Lemma turn_ids_are_sequential_witness :
  exists n st,
    steps Settings.default Sample.two_turns StartInterview
          (initial_state Settings.default Sample.candidate Sample.clock)
    = Ok (n, st)
    /\ map turn_id (log_turns st) = ids_upto (List.length (log_turns st)).
Proof.
  destruct (steps Settings.default Sample.two_turns StartInterview
              (initial_state Settings.default Sample.candidate Sample.clock))
    as [[n st]|e] eqn:E.
  - exists n, st. split; [reflexivity|].
    destruct turn_ids_are_sequential as [_ [_ H]].
    apply (H Settings.default Sample.candidate Sample.clock Sample.two_turns n st).
    exact E.
  - vm_compute in E. discriminate E.
Defined.

End LogClaims.

(* ------------------------------------------------------------------ *)
(** * Claims about the final feedback *)

Section LevelClaims.

Import FeedbackGenerator.

Lemma Qge_bool_true (x y : Q) : y <= x -> Qge_bool x y = true.
Proof. intros H. unfold Qge_bool. apply Qle_bool_iff. exact H. Qed.

Lemma Qge_bool_false (x y : Q) : x < y -> Qge_bool x y = false.
Proof.
  intros H. unfold Qge_bool.
  destruct (Qle_bool y x) eqn:E; [|reflexivity].
  apply Qle_bool_iff in E. apply Qlt_not_le in H. contradiction.
Qed.

Lemma eqb_neq (a b : str) : a <> b -> PyStr.eqb a b = false.
Proof.
  intros H. destruct (PyStr.eqb a b) eqn:E; [|reflexivity].
  apply PyStrFacts.eqb_eq in E. contradiction.
Qed.

(** C6, as the code has it.  The level is a lookup on the declared grade,
    lower-cased, and the technical score: for Junior, a score of at least 7
    gives "Middle-ready Junior" and a lower one "Junior"; for Middle, at
    least 8 gives "Senior-ready Middle", from 6 up to 8 "Middle" and below 6
    "Junior+"; for every other grade, Senior among them, at least 9 gives
    "Senior", from 7 up to 9 "Middle+" and below 7 the label "Под вопросом"
    (under review). *)
Theorem level_lookup (a : Assessment) (c : CandidateInfo) :
  let s := technical_score a in
  let level := _determine_level a c in
  (lower (grade c) = utf8 "junior" ->
     (7 <= s -> level = utf8 "Middle-ready Junior")
     /\ (s < 7 -> level = utf8 "Junior"))
  /\ (lower (grade c) = utf8 "middle" ->
        (8 <= s -> level = utf8 "Senior-ready Middle")
        /\ (6 <= s -> s < 8 -> level = utf8 "Middle")
        /\ (s < 6 -> level = utf8 "Junior+"))
  /\ (lower (grade c) <> utf8 "junior" ->
      lower (grade c) <> utf8 "middle" ->
        (9 <= s -> level = utf8 "Senior")
        /\ (7 <= s -> s < 9 -> level = utf8 "Middle+")
        /\ (s < 7 -> level = utf8 "Под вопросом")).
Proof.
  intros s level. subst s level. unfold _determine_level.
  split; [|split].
  - intros G. rewrite G, PyStrFacts.eqb_refl. split; intros H.
    + now rewrite (Qge_bool_true _ _ H).
    + now rewrite (Qge_bool_false _ _ H).
  - intros G. rewrite G, PyStrFacts.eqb_refl.
    replace (PyStr.eqb (utf8 "middle") (utf8 "junior")) with false
      by reflexivity.
    split; [|split].
    + intros H. now rewrite (Qge_bool_true _ _ H).
    + intros H1 H2.
      now rewrite (Qge_bool_false _ _ H2), (Qge_bool_true _ _ H1).
    + intros H.
      assert (H8 : technical_score a < 8) by lra.
      now rewrite (Qge_bool_false _ _ H8), (Qge_bool_false _ _ H).
  - intros G1 G2. rewrite (eqb_neq _ _ G1), (eqb_neq _ _ G2).
    split; [|split].
    + intros H. now rewrite (Qge_bool_true _ _ H).
    + intros H1 H2.
      now rewrite (Qge_bool_false _ _ H2), (Qge_bool_true _ _ H1).
    + intros H.
      assert (H9 : technical_score a < 9) by lra.
      now rewrite (Qge_bool_false _ _ H9), (Qge_bool_false _ _ H).
Qed.

Lemma level_lookup_witness :
  _determine_level (Sample.scored (13 # 2)) Sample.junior = utf8 "Junior"
  /\ _determine_level (Sample.scored (13 # 2)) Sample.candidate = utf8 "Middle".
Proof.
  split.
  - destruct (level_lookup (Sample.scored (13 # 2)) Sample.junior)
      as [H _].
    apply H; [reflexivity|]. unfold Qlt. simpl. lia.
  - destruct (level_lookup (Sample.scored (13 # 2)) Sample.candidate)
      as [_ [H _]].
    apply H; [reflexivity| |]; [unfold Qle | unfold Qlt]; simpl; lia.
Defined.

(** C6 as stated fails: a Junior with a technical score of 6.5, which lies
    in [6, 7), is given the level "Junior", not "Middle-ready Junior". *)
Lemma junior_between_six_and_seven :
  lower (grade Sample.junior) = utf8 "junior"
  /\ 6 <= technical_score (Sample.scored (13 # 2))
  /\ technical_score (Sample.scored (13 # 2)) < 7
  /\ _determine_level (Sample.scored (13 # 2)) Sample.junior = utf8 "Junior"
  /\ _determine_level (Sample.scored (13 # 2)) Sample.junior
     <> utf8 "Middle-ready Junior".
Proof.
  split; [reflexivity|].
  split; [unfold Qle; simpl; lia|].
  split; [unfold Qlt; simpl; lia|].
  split; [reflexivity|].
  vm_compute. discriminate.
Qed.

End LevelClaims.

(* ------------------------------------------------------------------ *)
(** * Claims about the coordinator *)

Section CoordinatorClaims.

Import Coordinator.

Variable cfg : Settings.t.

(** When the reply of the reasoning service does not parse, the outcome of
    [decide_next_step] is the outcome of the fallback for the same state:
    its decision when it returns one, its exception when it raises. *)
Lemma decide_next_step_unparsable (srv : Services) (st : InterviewState)
    (reply : str) :
  llm_invoke srv = Ok reply ->
  json_loads srv (clean_content reply) = NotJSON ->
  decide_next_step cfg srv st = _create_fallback_decision cfg st.
Proof.
  intros Hr Hp. unfold decide_next_step, request_decision.
  rewrite Hr, Hp. reflexivity.
Qed.

(** Below five questions, and at the limit of questions, the fallback
    returns a decision. *)
Lemma fallback_below_five (st : InterviewState) :
  (questions_count st < Settings.MAX_TURNS cfg)%Z ->
  (questions_count st < 5)%Z ->
  exists d,
    _create_fallback_decision cfg st = Ok d
    /\ action d = Some (utf8 "continue")
    /\ new_topic d = Some (match current_topic st with
                           | Some t => t
                           | None => utf8 "Python"
                           end)
    /\ new_difficulty d = Some (match difficulty_level st with
                                | Some l => l
                                | None => 2%Z
                                end).
Proof.
  intros H1 H2. unfold _create_fallback_decision.
  apply Z.leb_gt in H1. apply Z.leb_gt in H2. rewrite H1, H2.
  eexists. split; [reflexivity|]. repeat apply conj; reflexivity.
Qed.

Lemma fallback_at_limit (st : InterviewState) :
  (Settings.MAX_TURNS cfg <= questions_count st)%Z ->
  exists d,
    _create_fallback_decision cfg st = Ok d
    /\ action d = Some (utf8 "end_interview").
Proof.
  intros H. unfold _create_fallback_decision.
  apply Z.leb_le in H. rewrite H.
  eexists. split; reflexivity.
Qed.

(** From the fifth question on, below the limit, the fallback asks the
    assessment for its [get] method and raises. *)
Lemma fallback_from_five (st : InterviewState) (a : Assessment) :
  (questions_count st < Settings.MAX_TURNS cfg)%Z ->
  (5 <= questions_count st)%Z ->
  assessment st = Some a ->
  _create_fallback_decision cfg st = Raise AttributeError.
Proof.
  intros H1 H2 Ha. unfold _create_fallback_decision.
  apply Z.leb_gt in H1. apply Z.leb_le in H2. rewrite H1, H2.
  unfold assessment_get_technical_score. rewrite Ha. reflexivity.
Qed.

(** So an unparsable reply makes [decide_next_step] raise from the fifth
    question on. *)
Lemma decide_next_step_raises_from_five (srv : Services) (st : InterviewState)
    (reply : str) (a : Assessment) :
  llm_invoke srv = Ok reply ->
  json_loads srv (clean_content reply) = NotJSON ->
  (questions_count st < Settings.MAX_TURNS cfg)%Z ->
  (5 <= questions_count st)%Z ->
  assessment st = Some a ->
  decide_next_step cfg srv st = Raise AttributeError.
Proof.
  intros Hr Hp H1 H2 Ha.
  rewrite (decide_next_step_unparsable srv st reply Hr Hp).
  apply (fallback_from_five st a H1 H2 Ha).
Qed.

End CoordinatorClaims.

Section CoordinatorFailures.

Import Coordinator Graph.

(** C2, where the code fails.  A session of five complete turns in which
    the reasoning service answers every call of the coordinator with prose:
    the first five routing steps return the fallback decision, the sixth
    raises [AttributeError] out of [decide_next_step], out of the node and
    out of the workflow. *)
Theorem prose_reply_after_five_turns_raises :
  json_loads Sample.coordinator_prose (clean_content Sample.prose) = NotJSON
  /\ Sample.run Sample.five_turns
     = Ok (CoordinatorDecision, Sample.after_five_turns)
  /\ questions_count Sample.after_five_turns = 5%Z
  /\ decide_next_step Settings.default Sample.coordinator_prose
                      Sample.after_five_turns
     = Raise AttributeError
  /\ step Settings.default (Sample.world [] []) CoordinatorDecision
          Sample.after_five_turns
     = Raise AttributeError
  /\ Sample.run Sample.five_turns_and_routing = Raise AttributeError.
Proof.
  repeat apply conj; vm_compute; reflexivity.
Qed.

(** C3, where the code fails.  With five questions asked and the default
    limit of ten, the fallback raises [AttributeError] instead of returning
    a decision: with a technical score of 8, where the rule ends the
    interview, and with the technical score the five turns have left, which
    is below 7 and where the rule continues. *)
Theorem fallback_decision_raises_after_five_questions :
  let st := set_assessment (Some (Sample.scored 8)) Sample.after_five_turns in
  questions_count st = 5%Z
  /\ option_map technical_score (assessment st) = Some 8
  /\ _create_fallback_decision Settings.default st = Raise AttributeError
  /\ questions_count Sample.after_five_turns = 5%Z
  /\ (exists a, assessment Sample.after_five_turns = Some a
                /\ technical_score a < 7)
  /\ _create_fallback_decision Settings.default Sample.after_five_turns
     = Raise AttributeError.
Proof.
  repeat apply conj; try (vm_compute; reflexivity).
  eexists. split; [vm_compute; reflexivity|].
  vm_compute. reflexivity.
Qed.

End CoordinatorFailures.

(* ------------------------------------------------------------------ *)
(** * Claims about the evaluation of a turn *)

Section EvaluationClaims.

Import Graph.

(** Whatever happens while a turn is evaluated, the turns recorded before
    it stay in the log, unchanged and in their places. *)
Lemma analyze_answer_keeps_turns (cfg : Settings.t) (w : World)
    (st : InterviewState) :
  exists extra,
    log_turns (analyze_answer cfg w st) = (log_turns st ++ extra)%list.
Proof.
  destruct (analyze_answer_effect cfg w st) as (_ & _ & [E | [t E]]).
  - exists []. rewrite E, app_nil_r. reflexivity.
  - eexists. exact E.
Qed.

(** When the error is raised before the update starts (the knowledge base
    raises, which leaves [verification] unassigned), the node returns the
    state as it was: the assessment and the log are untouched. *)
Lemma analysis_failure_leaves_state (cfg : Settings.t) (w : World)
    (st : InterviewState) (e : exn) :
  Settings.RAG_ENABLED cfg = true ->
  Observer.verify_technical_answer (observer w) = Raise e ->
  analyze_answer cfg w st = ensure_log_data w st.
Proof.
  intros Hrag Hkb. unfold analyze_answer.
  destruct (negb (truthy (or_default (current_question (ensure_log_data w st)) []))
            || negb (truthy (or_default (current_answer (ensure_log_data w st)) [])))
    eqn:E; [reflexivity|].
  unfold Observer.analyze_answer. rewrite E, Hrag, Hkb.
  reflexivity.
Qed.

(** C7, where the code fails.  The first answer of a session is evaluated;
    the reasoning service replies with a JSON object that has a technical
    score of 8 and no other key.  The update assigns the technical score and
    then raises [KeyError] on the missing communication score.  The node
    catches the exception and records no turn, but the assessment of the
    state is the object the update has already written to: its technical
    score has moved from 0 to 2.4. *)
Theorem failed_evaluation_changes_assessment :
  let st := Sample.first_answer_given in
  let w := Sample.world_technical_only in
  let st' := analyze_answer Settings.default w st in
  Sample.run (repeat (Sample.world (utf8 "What is a list?") Sample.long_answer) 4)
  = Ok (AnalyzeAnswer, st)
  /\ fst (Observer.analyze_answer Settings.default (observer w)
         (or_default (current_question st) [])
         (or_default (current_answer st) []) st)
  = Raise KeyError
  /\ log_turns st' = log_turns st
  /\ assessment st = Some Assessment_new
  /\ (exists a', assessment st' = Some a'
                 /\ technical_score a' == 24 # 10
                 /\ ~ technical_score a' == technical_score Assessment_new)
  /\ assessment st' <> assessment st.
Proof.
  repeat apply conj; try (vm_compute; reflexivity).
  - eexists. split; [vm_compute; reflexivity|].
    split; vm_compute; [reflexivity | discriminate].
  - vm_compute. discriminate.
Qed.

End EvaluationClaims.

(* ------------------------------------------------------------------ *)
(** * Stop words *)

Section StopWords.

Import Graph.

(** Lower-casing leaves white space alone. *)
Lemma lower_cp_space (c : N) : is_space c = true -> lower_cp c = c.
Proof.
  intros H. unfold is_space in H.
  repeat rewrite ?orb_true_iff, ?andb_true_iff, ?N.leb_le, ?N.eqb_eq in H.
  unfold lower_cp.
  destruct ((65 <=? c) && (c <=? 90))%N eqn:E1.
  { apply andb_true_iff in E1. rewrite !N.leb_le in E1. lia. }
  destruct ((1024 <=? c) && (c <=? 1039))%N eqn:E2.
  { apply andb_true_iff in E2. rewrite !N.leb_le in E2. lia. }
  destruct ((1040 <=? c) && (c <=? 1071))%N eqn:E3.
  { apply andb_true_iff in E3. rewrite !N.leb_le in E3. lia. }
  reflexivity.
Qed.

Lemma not_space_lower (c : N) : is_space (lower_cp c) = false -> is_space c = false.
Proof.
  intros H. destruct (is_space c) eqn:E; [|reflexivity].
  rewrite (lower_cp_space c E) in H. congruence.
Qed.

Lemma lstrip_no_space (c : N) (s : str) :
  is_space c = false -> lstrip (c :: s) = (c :: s)%list.
Proof. intros H. simpl. rewrite H. reflexivity. Qed.

(** A string that neither starts nor ends with white space is its own
    [strip()]. *)
Lemma strip_id (c d : N) (s : str) :
  is_space c = false -> is_space d = false ->
  strip (c :: s ++ [d]) = (c :: s ++ [d])%list.
Proof.
  intros Hc Hd. unfold strip, rstrip.
  rewrite (lstrip_no_space c _ Hc).
  assert (E : rev (c :: s ++ [d]) = (d :: rev (c :: s))%list).
  { change (c :: s ++ [d])%list with ((c :: s) ++ [d])%list.
    rewrite rev_app_distr. reflexivity. }
  rewrite E, (lstrip_no_space d _ Hd), <- E.
  apply rev_involutive.
Qed.

(** The same for a string whose lower-cased form does so. *)
Lemma strip_lower_id (line : str) (c d : N) (s : str) :
  lower line = (c :: s ++ [d])%list ->
  is_space c = false -> is_space d = false ->
  strip line = line.
Proof.
  intros H Hc Hd.
  destruct line as [|x line]; [discriminate|].
  simpl in H. injection H as Hx Hrest.
  destruct (exists_last (l := x :: line)) as [body [y Hy]]; [discriminate|].
  assert (Hl : lower_cp y = d).
  { assert (E : lower (x :: line) = (c :: s ++ [d])%list)
      by (simpl; now rewrite Hx, Hrest).
    rewrite Hy in E. unfold lower in E. rewrite map_app in E. simpl in E.
    change (c :: s ++ [d])%list with ((c :: s) ++ [d])%list in E.
    apply app_inj_tail in E. apply E. }
  destruct body as [|b body].
  - simpl in Hy. injection Hy as -> ->. simpl in Hrest.
    destruct s; discriminate.
  - simpl in Hy. injection Hy as -> ->.
    apply strip_id.
    + apply not_space_lower. now rewrite Hx.
    + apply not_space_lower. now rewrite Hl.
Qed.

(** An answer that is a stop word up to case has no white space to trim. *)
Lemma stop_word_strip (line : str) :
  In (lower line) stop_words -> strip line = line.
Proof.
  intros H. unfold stop_words in H. simpl in H.
  repeat (destruct H as [H|H];
          [symmetry in H;
           vm_compute in H;
           match type of H with
           | _ = (?c :: ?rest)%list =>
               eapply (strip_lower_id line c (last rest 0%N) (removelast rest));
               [exact H | reflexivity | reflexivity]
           end
          |]).
  contradiction.
Qed.

End StopWords.

(* ------------------------------------------------------------------ *)
(** * Claims about stopping a session *)

Section StopClaims.

Import Graph.

Variable cfg : Settings.t.

(** What [get_user_answer] does with a stop word. *)
Lemma get_user_answer_stop (w : World) (st : InterviewState) (answer : str) :
  read_answer w = Ok answer ->
  In (lower answer) stop_words ->
  get_user_answer w st
  = Ok (set_current_answer (Some answer)
          (set_interview_complete true (ensure_log_data w st))).
Proof.
  intros Hr Hs. unfold get_user_answer. rewrite Hr.
  apply PyStrFacts.mem_In in Hs. rewrite Hs. reflexivity.
Qed.

(** Once the termination flag is set, the routing step ends the loop. *)
Lemma routing_when_complete (w : World) (st : InterviewState) :
  interview_complete st = true ->
  step cfg w CoordinatorDecision st
  = Ok (GenerateFeedback, set_interview_complete true (ensure_log_data w st)).
Proof.
  intros H. unfold step, coordinator_decision, Coordinator.should_end_interview.
  rewrite ensure_log_data_complete, H. reflexivity.
Qed.

(** From the evaluation node, with the flag set, the workflow is at the
    reporting node two steps later; no question is added, and the turns of
    the log stay where they are. *)
Lemma reporting_after_flag (w2 w3 : World) (st : InterviewState) :
  interview_complete st = true ->
  exists st3,
    steps cfg [w2; w3] AnalyzeAnswer st = Ok (GenerateFeedback, st3)
    /\ interview_complete st3 = true
    /\ asked st3 = asked st
    /\ exists extra, log_turns st3 = (log_turns st ++ extra)%list.
Proof.
  intros H.
  destruct (analyze_answer_effect cfg w2 st) as (Hc & Ha & _).
  destruct (analyze_answer_keeps_turns cfg w2 st) as [extra Ht].
  rewrite H in Hc.
  eexists. split.
  - unfold steps. unfold step at 1. rewrite (routing_when_complete _ _ Hc).
    reflexivity.
  - split; [reflexivity|]. split.
    + unfold asked. cbn [questions_asked set_interview_complete].
      rewrite ensure_log_data_asked, Ha. reflexivity.
    + exists extra.
      change (log_turns (set_interview_complete true
                (ensure_log_data w3 (analyze_answer cfg w2 st))))
        with (log_turns (ensure_log_data w3 (analyze_answer cfg w2 st))).
      rewrite ensure_log_data_turns. exact Ht.
Qed.

(** C4, as the code has it.  An answer that is a stop word up to case sets
    the termination flag and is stored as the current answer.  The workflow
    then passes the evaluation node and the routing node and is at the
    reporting node after three steps, whatever the services do; no further
    question is asked, and the turns recorded before the stop are in the log
    afterwards, unchanged and in their places. *)
Theorem stop_word_reaches_reporting (w1 w2 w3 : World) (st : InterviewState)
    (answer : str) :
  console_input w1 = Ok answer ->
  In (lower answer) stop_words ->
  exists st1 st3,
    step cfg w1 GetUserAnswer st = Ok (AnalyzeAnswer, st1)
    /\ interview_complete st1 = true
    /\ current_answer st1 = Some answer
    /\ log_turns st1 = log_turns st
    /\ steps cfg [w1; w2; w3] GetUserAnswer st = Ok (GenerateFeedback, st3)
    /\ interview_complete st3 = true
    /\ asked st3 = asked st
    /\ exists extra, log_turns st3 = (log_turns st ++ extra)%list.
Proof.
  intros Hin Hstop.
  assert (Hr : read_answer w1 = Ok answer).
  { unfold read_answer. rewrite Hin, (stop_word_strip _ Hstop). reflexivity. }
  pose proof (get_user_answer_stop w1 st answer Hr Hstop) as Hg.
  set (st1 := set_current_answer (Some answer)
                (set_interview_complete true (ensure_log_data w1 st))) in *.
  assert (Hl : log_turns st1 = log_turns st)
    by apply (ensure_log_data_turns w1 st).
  assert (Ha : asked st1 = asked st).
  { unfold asked, st1. cbn [questions_asked set_current_answer set_interview_complete].
    now rewrite ensure_log_data_asked. }
  destruct (reporting_after_flag w2 w3 st1 eq_refl)
    as (st3 & Hs & Hc3 & Ha3 & extra & Ht3).
  exists st1, st3.
  split; [unfold step; now rewrite Hg|].
  split; [reflexivity|]. split; [reflexivity|]. split; [exact Hl|].
  split.
  - change (steps cfg [w1; w2; w3] GetUserAnswer st)
      with (match step cfg w1 GetUserAnswer st with
            | Raise e => Raise e
            | Ok (n', st') => steps cfg [w2; w3] n' st'
            end).
    unfold step at 1. rewrite Hg. exact Hs.
  - split; [exact Hc3|]. split; [congruence|].
    exists extra. now rewrite Ht3, Hl.
Qed.

End StopClaims.

Section StopInstances.

Import Graph.

Lemma stop_word_reaches_reporting_witness :
  exists st1 st3,
    step Settings.default (Sample.first_turn (utf8 "STOP")) GetUserAnswer
         Sample.awaiting_first_answer
    = Ok (AnalyzeAnswer, st1)
    /\ interview_complete st1 = true
    /\ current_answer st1 = Some (utf8 "STOP")
    /\ log_turns st1 = log_turns Sample.awaiting_first_answer
    /\ steps Settings.default
             [Sample.first_turn (utf8 "STOP"); Sample.first_turn (utf8 "STOP");
              Sample.first_turn (utf8 "STOP")]
             GetUserAnswer Sample.awaiting_first_answer
       = Ok (GenerateFeedback, st3)
    /\ interview_complete st3 = true
    /\ asked st3 = asked Sample.awaiting_first_answer
    /\ exists extra,
         log_turns st3 = (log_turns Sample.awaiting_first_answer ++ extra)%list.
Proof.
  apply (stop_word_reaches_reporting Settings.default
           (Sample.first_turn (utf8 "STOP")) (Sample.first_turn (utf8 "STOP"))
           (Sample.first_turn (utf8 "STOP")) Sample.awaiting_first_answer
           (utf8 "STOP")).
  - reflexivity.
  - vm_compute. right. left. reflexivity.
Defined.

(** C4 as stated fails.  In the state a session reaches when its first
    question waits for its answer, no turn is in the log, and the candidate
    types [stop].  One step later the workflow
    is at the evaluation node, not at the reporting node; it is at the
    reporting node after three steps, and the log then holds a turn that was
    not recorded before the stop: the question with [stop] as its answer. *)
Lemma stop_word_is_evaluated_and_logged :
  let w := Sample.first_turn (utf8 "stop") in
  let st := Sample.awaiting_first_answer in
  In (lower (utf8 "stop")) stop_words
  /\ Sample.run (repeat (Sample.first_turn Sample.long_answer) 3)
     = Ok (GetUserAnswer, st)
  /\ log_turns st = []
  /\ (exists st1, step Settings.default w GetUserAnswer st = Ok (AnalyzeAnswer, st1))
  /\ (forall st1, step Settings.default w GetUserAnswer st
                  <> Ok (GenerateFeedback, st1))
  /\ exists st3,
       steps Settings.default [w; w; w] GetUserAnswer st
       = Ok (GenerateFeedback, st3)
       /\ map user_message (log_turns st3) = [utf8 "stop"]
       /\ map turn_id (log_turns st3) = [1%Z]
       /\ log_turns st3 <> log_turns st.
Proof.
  cbv zeta. repeat apply conj.
  - vm_compute. right. left. reflexivity.
  - vm_compute. reflexivity.
  - vm_compute. reflexivity.
  - eexists. vm_compute. reflexivity.
  - intros st1 H. vm_compute in H. discriminate H.
  - eexists. split; [vm_compute; reflexivity|].
    repeat apply conj; vm_compute; try reflexivity. discriminate.
Qed.

(** C10.  When [input] raises [EOFError], [get_user_answer] does what it
    does when the candidate types the stop word: it returns, with the
    termination flag set and the stop word as the current answer; and the
    workflow goes on as it does after the typed stop word, to the reporting
    node, whatever the services do. *)
Theorem end_of_input_acts_as_stop (cfg : Settings.t) (w1 w2 w3 : World)
    (st : InterviewState) :
  console_input w1 = Raise EOFError ->
  let typed := set_console_input (Ok (utf8 "стоп")) w1 in
  get_user_answer w1 st = get_user_answer typed st
  /\ (exists st1,
         get_user_answer w1 st = Ok st1
         /\ interview_complete st1 = true
         /\ current_answer st1 = Some (utf8 "стоп"))
  /\ steps cfg [w1; w2; w3] GetUserAnswer st
     = steps cfg [typed; w2; w3] GetUserAnswer st
  /\ exists st3,
       steps cfg [w1; w2; w3] GetUserAnswer st = Ok (GenerateFeedback, st3)
       /\ interview_complete st3 = true.
Proof.
  intros Heof typed.
  assert (Hr : read_answer w1 = Ok (utf8 "стоп"))
    by (unfold read_answer; now rewrite Heof).
  assert (Hstop : In (lower (utf8 "стоп")) stop_words)
    by (vm_compute; left; reflexivity).
  pose proof (get_user_answer_stop w1 st (utf8 "стоп") Hr Hstop) as Hg.
  assert (Hsame : get_user_answer w1 st = get_user_answer typed st).
  { rewrite Hg. symmetry.
    apply (get_user_answer_stop typed st (utf8 "стоп")); [reflexivity | exact Hstop]. }
  assert (Hsteps : forall w, get_user_answer w st = get_user_answer w1 st ->
            steps cfg [w; w2; w3] GetUserAnswer st
            = match get_user_answer w1 st with
              | Raise e => Raise e
              | Ok st' => steps cfg [w2; w3] AnalyzeAnswer st'
              end).
  { intros w E.
    change (steps cfg [w; w2; w3] GetUserAnswer st)
      with (match step cfg w GetUserAnswer st with
            | Raise e => Raise e
            | Ok (n', st') => steps cfg [w2; w3] n' st'
            end).
    unfold step at 1. rewrite E.
    destruct (get_user_answer w1 st); reflexivity. }
  split; [exact Hsame|]. split.
  - eexists. split; [exact Hg|]. split; reflexivity.
  - split.
    + rewrite (Hsteps w1 eq_refl), (Hsteps typed (eq_sym Hsame)). reflexivity.
    + rewrite (Hsteps w1 eq_refl), Hg.
      destruct (reporting_after_flag cfg w2 w3
                  (set_current_answer (Some (utf8 "стоп"))
                     (set_interview_complete true (ensure_log_data w1 st)))
                  eq_refl) as (st3 & Hs & Hc3 & _).
      exists st3. split; assumption.
Qed.

Lemma end_of_input_acts_as_stop_witness :
  exists st3,
    steps Settings.default
          [Sample.first_turn_eof; Sample.first_turn []; Sample.first_turn []]
          GetUserAnswer Sample.awaiting_first_answer
    = Ok (GenerateFeedback, st3)
    /\ interview_complete st3 = true.
Proof.
  apply (end_of_input_acts_as_stop Settings.default
           Sample.first_turn_eof (Sample.first_turn [])
           (Sample.first_turn []) Sample.awaiting_first_answer).
  reflexivity.
Defined.

End StopInstances.

(* ------------------------------------------------------------------ *)
(** * Claims about the interviewer *)

Section InterviewerClaims.

Import Interviewer.

Lemma truthy_app (a b : str) : truthy a = true -> truthy (a ++ b)%list = true.
Proof. destruct a; [discriminate | reflexivity]. Qed.

Lemma first_unasked_In (banks : Dict.t (list str)) (topic_lower : str)
    (done : list str) (q : str) :
  first_unasked banks topic_lower done = Some q ->
  exists key bank, In (key, bank) banks /\ In q bank /\ ~ In q done.
Proof.
  induction banks as [|[key bank] banks IH]; simpl; [discriminate|].
  intros H.
  destruct (contains topic_lower key).
  - destruct (find (fun q => negb (mem q done)) bank) as [q'|] eqn:F.
    + injection H as ->. apply find_some in F. destruct F as [F1 F2].
      exists key, bank. split; [now left|]. split; [assumption|].
      apply PyStrFacts.mem_not_In. now apply negb_true_iff.
    + destruct (IH H) as (k & b & I1 & I2 & I3).
      exists k, b. auto.
  - destruct (IH H) as (k & b & I1 & I2 & I3).
    exists k, b. auto.
Qed.

(** The fallback question is never the empty string. *)
Lemma fallback_question_nonempty (topic : str) (difficulty : Z) (done : list str) :
  truthy (_get_fallback_question topic difficulty done) = true.
Proof.
  unfold _get_fallback_question.
  destruct (first_unasked fallback_questions (lower topic) done) as [q|] eqn:E.
  - apply first_unasked_In in E. destruct E as (k & b & I1 & I2 & _).
    unfold fallback_questions in I1. simpl in I1.
    destruct I1 as [I1|[I1|[]]]; injection I1 as <- <-;
      vm_compute in I2;
      repeat (destruct I2 as [I2|I2]; [now subst q|]); contradiction.
  - apply truthy_app. reflexivity.
Qed.

(** [generate_question] never returns the empty string. *)
Lemma generate_question_nonempty (srv : Services) (st : InterviewState) :
  truthy (generate_question srv st) = true.
Proof.
  unfold generate_question.
  destruct (llm_invoke srv) as [reply|e]; [|apply fallback_question_nonempty].
  set (question := strip_prefixes (strip reply)).
  match goal with |- context [mem ?q ?l] => destruct (mem q l) eqn:M end.
  - unfold _generate_alternative_question.
    destruct (llm_invoke_alternative srv) as [alt|e];
      [|apply fallback_question_nonempty].
    destruct (truthy (strip alt)) eqn:T; simpl;
      [|apply fallback_question_nonempty].
    destruct (negb (mem (strip alt) _)); simpl;
      [exact T | apply fallback_question_nonempty].
  - destruct (endswith question (utf8 "?")) eqn:E.
    + destruct question; [discriminate E | reflexivity].
    + destruct question; reflexivity.
Qed.

(** On the primary path the claim holds: a question that has not been asked
    is returned with its question mark. *)
Lemma generate_question_primary (srv : Services) (st : InterviewState)
    (reply : str) :
  llm_invoke srv = Ok reply ->
  let stripped := strip_prefixes (strip reply) in
  let question := if endswith stripped (utf8 "?") then stripped
                  else (stripped ++ utf8 "?")%list in
  ~ In question (asked st) ->
  generate_question srv st = question
  /\ endswith question (utf8 "?") = true.
Proof.
  intros Hr stripped question Hnew.
  unfold generate_question. rewrite Hr.
  fold stripped. fold question.
  apply PyStrFacts.mem_not_In in Hnew. unfold asked in Hnew. rewrite Hnew.
  split; [reflexivity|].
  unfold question. destruct (endswith stripped (utf8 "?")) eqn:E; [exact E|].
  unfold endswith. rewrite rev_app_distr. simpl.
  destruct (rev stripped); reflexivity.
Qed.

(** A question taken from a bank has not been asked. *)
Lemma bank_question_is_new (topic : str) (difficulty : Z) (done : list str)
    (q : str) :
  first_unasked fallback_questions (lower topic) done = Some q ->
  _get_fallback_question topic difficulty done = q /\ ~ In q done.
Proof.
  intros H. unfold _get_fallback_question. rewrite H.
  split; [reflexivity|].
  apply first_unasked_In in H. destruct H as (_ & _ & _ & _ & H). exact H.
Qed.

(** C5, where the code fails.  With the reasoning service down and the
    topic Go, for which there is no bank, the interviewer returns the
    template question although it is in the list of asked questions; a
    session with the service down asks the same question twice in a row.
    And when the service proposes an asked question and then an alternative
    without a question mark, the alternative is returned as it is. *)
Theorem fallback_question_repeats :
  asked Sample.asked_about_go = [utf8 "Расскажите о своем опыте работы с Go?"]
  /\ generate_question Sample.interviewer_down Sample.asked_about_go
     = utf8 "Расскажите о своем опыте работы с Go?"
  /\ In (generate_question Sample.interviewer_down Sample.asked_about_go)
        (asked Sample.asked_about_go)
  /\ (exists st,
         Sample.run Sample.two_questions_down = Ok (Graph.GetUserAnswer, st)
         /\ asked st = [utf8 "Расскажите о своем опыте работы с ?";
                        utf8 "Расскажите о своем опыте работы с ?"])
  /\ asked Sample.first_answer_given = [utf8 "What is a list?"]
  /\ generate_question Sample.interviewer_repeating Sample.first_answer_given
     = utf8 "Tell me about decorators"
  /\ endswith (generate_question Sample.interviewer_repeating
                 Sample.first_answer_given) (utf8 "?") = false.
Proof.
  repeat apply conj; try (vm_compute; reflexivity).
  - vm_compute. left. reflexivity.
  - eexists. split; vm_compute; reflexivity.
Qed.

End InterviewerClaims.

(* ------------------------------------------------------------------ *)
(** * More about the assessment update *)

Section UpdateEffects.

Import Observer.

(** The paths of an update, by the keys the evaluation carries. *)
Ltac update_cases an :=
  unfold exec, _update_assessment, bind, lift, get, modify, when, ret,
    subscript, get_truthy;
  destruct (a_technical_score an) as [?|]; cbn; trivial;
  destruct (a_communication_score an) as [?|]; cbn; trivial;
  destruct (a_confidence_score an) as [?|]; cbn; trivial;
  destruct (a_has_errors an) as [[|]|]; cbn; trivial;
  try (destruct (a_suggested_correction an) as [[|? ?]|]; cbn; trivial);
  destruct (a_is_evasive an) as [[|]|]; cbn; trivial;
  destruct (a_depth_of_knowledge an) as [?|]; cbn; trivial;
  try match goal with
      | |- context [PyStr.eqb ?x ?y] => destruct (PyStr.eqb x y)
      end; cbn; trivial.

Lemma single_gap_set (gaps : Dict.t str) (c : str) :
  single_gap gaps -> single_gap (Dict.set gap_key (slice_to 200 c) gaps).
Proof.
  intros [-> | [v [-> _]]]; right; exists (slice_to 200 c);
    (split; [reflexivity | apply firstn_le_length]).
Qed.

Lemma update_single_gap (an : Analysis) (v : Verification) (a : Assessment) :
  single_gap (knowledge_gaps a) ->
  single_gap (knowledge_gaps (exec (_update_assessment an v) a)).
Proof.
  intros H. update_cases an;
    match goal with
    | |- single_gap (Dict.set _ ?c _) =>
        apply (single_gap_set (knowledge_gaps a) (_ :: _)); exact H
    end.
Qed.


(** X2.  An update never touches the topics covered or the confirmed skills,
    and it never drops or reorders a soft-skill note: the notes after the
    update are the notes before it followed by at most two new ones. *)
Theorem update_only_appends_notes (an : Analysis) (v : Verification)
    (a : Assessment) :
  let a' := exec (_update_assessment an v) a in
  topics_covered a' = topics_covered a
  /\ confirmed_skills a' = confirmed_skills a
  /\ exists added,
       soft_skills_notes a' = (soft_skills_notes a ++ added)%list
       /\ (List.length added <= 2)%nat.
Proof.
  cbv zeta.
  assert (E0 : exists added : list str,
             soft_skills_notes a = (soft_skills_notes a ++ added)%list
             /\ (List.length added <= 2)%nat)
    by (exists []; rewrite app_nil_r; split; [reflexivity | simpl; lia]).
  update_cases an; repeat split; trivial;
    try rewrite <- app_assoc;
    eexists; (split; [reflexivity | simpl; lia]).
Qed.

Lemma update_outcome (an : Analysis) (v : Verification) (a : Assessment) :
  fst (_update_assessment an v a)
  = if complete_evaluation an then Ok tt else Raise KeyError.
Proof.
  unfold complete_evaluation. update_cases an.
Qed.


End UpdateEffects.

(* ------------------------------------------------------------------ *)
(** * Smoothing over a whole session *)

Section SmoothingOverTurns.

Import Observer FeedbackGenerator.

Lemma seven_tenths_succ (n : nat) :
  (7 # 10) ^ Z.of_nat (S n) == (7 # 10) ^ Z.of_nat n * (7 # 10).
Proof.
  rewrite Nat2Z.inj_succ. unfold Z.succ.
  rewrite Qpower_plus by discriminate. reflexivity.
Qed.




Lemma ceiling_step (k : nat) (old incoming : Q) :
  old <= 10 * (1 - (7 # 10) ^ Z.of_nat k) ->
  incoming <= 10 ->
  old * (7 # 10) + incoming * (3 # 10) <= 10 * (1 - (7 # 10) ^ Z.of_nat (S k)).
Proof.
  intros Ho Hi. rewrite seven_tenths_succ.
  set (p := (7 # 10) ^ Z.of_nat k) in *. lra.
Qed.

Lemma ceiling_from (evals : list (Analysis * Verification)) :
  Forall (fun e => evaluation_in_range (fst e)) evals ->
  forall k a,
    below_ceiling k a ->
    below_ceiling (k + List.length evals) (update_all evals a).
Proof.
  induction evals as [|e evals IH]; intros Hall k a Ha.
  - simpl. rewrite Nat.add_0_r. exact Ha.
  - inversion Hall as [|? ? He Hrest]; subst.
    change (update_all (e :: evals) a)
      with (update_all evals (exec (_update_assessment (fst e) (snd e)) a)).
    replace (k + List.length (e :: evals))%nat
      with (S k + List.length evals)%nat by (simpl; lia).
    apply (IH Hrest).
    destruct He as (t & c & f & Et & Ec & Ef & Rt & Rc & Rf).
    destruct (update_scores (fst e) (snd e) a t c f Et Ec Ef) as (E1 & E2 & E3).
    destruct Ha as (H1 & H2 & H3).
    unfold below_ceiling. rewrite E1, E2, E3.
    repeat split; apply ceiling_step; try assumption;
      [apply Rt | apply Rc | apply Rf].
Qed.

Lemma Qge_bool_prop (x y : Q) :
  (Qge_bool x y = true -> y <= x) /\ (Qge_bool x y = false -> x < y).
Proof.
  unfold Qge_bool. split; intros H.
  - apply Qle_bool_iff. exact H.
  - apply Qnot_le_lt. intros L. apply Qle_bool_iff in L. congruence.
Qed.

(** Case analysis on the comparisons of a goal, as facts about the scores. *)
Ltac by_thresholds :=
  repeat match goal with
         | |- context [Qge_bool ?x ?y] =>
             let E := fresh "E" in
             destruct (Qge_bool x y) eqn:E;
             [apply (proj1 (Qge_bool_prop x y)) in E
             |apply (proj2 (Qge_bool_prop x y)) in E];
             cbn [andb]
         end.

Lemma ceiling_values :
  10 * (1 - (7 # 10) ^ Z.of_nat 4) < 8 /\ 10 * (1 - (7 # 10) ^ Z.of_nat 2) < 6.
Proof. split; vm_compute; reflexivity. Qed.

Lemma ceiling_decreasing (k n : nat) :
  (n <= k)%nat ->
  10 * (1 - (7 # 10) ^ Z.of_nat n) <= 10 * (1 - (7 # 10) ^ Z.of_nat k).
Proof.
  induction 1 as [|k Hle IH]; [apply Qle_refl|].
  rewrite seven_tenths_succ.
  assert (P : 0 <= (7 # 10) ^ Z.of_nat k) by (apply Qpower_0_le; discriminate).
  set (p := (7 # 10) ^ Z.of_nat k) in *. lra.
Qed.

(** X5.  How far a session can get in few turns.  After [n] evaluations with
    scores in [0,10], from a new assessment, each running score is at most
    [10 * (1 - 0.7^n)].  So with four evaluated turns or fewer no candidate
    is recommended as "Strong Hire", and with two or fewer none gets more
    than "Hire with reservations", whatever they answered. *)
Theorem few_turns_limit_the_recommendation
    (evals : list (Analysis * Verification)) (c : CandidateInfo) :
  Forall (fun e => evaluation_in_range (fst e)) evals ->
  let a := update_all evals Assessment_new in
  let n := List.length evals in
  below_ceiling n a
  /\ ((n <= 4)%nat ->
      _determine_hiring_recommendation a c <> utf8 "Strong Hire")
  /\ ((n <= 2)%nat ->
      (hiring_rank (_determine_hiring_recommendation a c) <= 1)%nat).
Proof.
  intros Hall a n.
  assert (B : below_ceiling n a).
  { apply (ceiling_from evals Hall 0 Assessment_new).
    unfold below_ceiling. simpl. repeat split; vm_compute; discriminate. }
  split; [exact B|].
  destruct B as (Bt & _). destruct ceiling_values as [C4 C2].
  split; intros Hn.
  - pose proof (ceiling_decreasing 4 n Hn) as D.
    assert (T : technical_score a < 8) by lra.
    unfold _determine_hiring_recommendation. by_thresholds;
      first [exfalso; lra | vm_compute; discriminate].
  - pose proof (ceiling_decreasing 2 n Hn) as D.
    assert (T : technical_score a < 6) by lra.
    unfold _determine_hiring_recommendation. by_thresholds;
      first [exfalso; lra | vm_compute; lia].
Qed.

Lemma few_turns_limit_the_recommendation_witness :
  _determine_hiring_recommendation
    (update_all [(evaluation 10 10 10, rag_disabled);
                 (evaluation 10 10 10, rag_disabled)] Assessment_new)
    Sample.candidate
  <> utf8 "Strong Hire".
Proof.
  apply (few_turns_limit_the_recommendation
           [(evaluation 10 10 10, rag_disabled); (evaluation 10 10 10, rag_disabled)]
           Sample.candidate).
  - repeat constructor;
      exists 10, 10, 10; unfold in_range, Qle; simpl; repeat split; lia.
  - simpl. lia.
Defined.

(** X6.  The hiring recommendation is monotone: a candidate whose technical
    and communication scores are both at least those of another is never
    recommended less strongly.  The declared grade plays no part. *)
Theorem hiring_recommendation_is_monotone (a a' : Assessment)
    (c c' : CandidateInfo) :
  technical_score a <= technical_score a' ->
  communication_score a <= communication_score a' ->
  (hiring_rank (_determine_hiring_recommendation a c)
   <= hiring_rank (_determine_hiring_recommendation a' c'))%nat.
Proof.
  intros Ht Hc. unfold _determine_hiring_recommendation. by_thresholds;
    first [exfalso; lra | vm_compute; lia].
Qed.

Lemma hiring_recommendation_is_monotone_witness :
  (hiring_rank (_determine_hiring_recommendation (Sample.scored 5) Sample.junior)
   <= hiring_rank (_determine_hiring_recommendation (Sample.scored 9)
                     Sample.candidate))%nat.
Proof.
  apply (hiring_recommendation_is_monotone (Sample.scored 5) (Sample.scored 9)
           Sample.junior Sample.candidate);
    unfold Qle; simpl; lia.
Defined.

End SmoothingOverTurns.

(* ------------------------------------------------------------------ *)
(** * The observer's fallback *)

Section FallbackAnalysis.

Import Observer.

Lemma in_range_small (z : Z) : (0 <= z <= 10)%Z -> in_range (inject_Z z).
Proof.
  intros [H1 H2]. unfold in_range, Qle, inject_Z. simpl. lia.
Qed.

Lemma fallback_in_range (answer : str) (v : Verification) :
  evaluation_in_range (_fallback_analysis answer v).
Proof.
  unfold _fallback_analysis.
  destruct (mem (strip (lower answer)) short_responses
            || (count_words answer <=? 2)%nat).
  - exists 1, 3, 2. repeat split; try reflexivity; vm_compute; discriminate.
  - destruct (count_words answer <? 15)%nat;
      [|destruct (100 <? count_words answer)%nat];
      eexists _, 5, _; cbn;
      (split; [reflexivity|]); (split; [reflexivity|]); (split; [reflexivity|]);
      repeat split; vm_compute; discriminate.
Qed.

Lemma fallback_complete (answer : str) (v : Verification) :
  complete_evaluation (_fallback_analysis answer v) = true.
Proof.
  unfold _fallback_analysis.
  destruct (mem (strip (lower answer)) short_responses
            || (count_words answer <=? 2)%nat); [reflexivity|].
  destruct (count_words answer <? 15)%nat;
    [|destruct (100 <? count_words answer)%nat]; reflexivity.
Qed.

(** X7.  The fallback analysis is always usable: for every answer and every
    verification it carries all the keys the update reads, with scores in
    [0,10], so the update on it returns and, from scores in [0,10], leaves
    scores in [0,10]. *)
Theorem fallback_evaluation_is_usable (answer : str) (v : Verification)
    (a : Assessment) :
  evaluation_in_range (_fallback_analysis answer v)
  /\ fst (_update_assessment (_fallback_analysis answer v) v a) = Ok tt
  /\ (scores_in_range a ->
      scores_in_range (exec (_update_assessment (_fallback_analysis answer v) v) a)).
Proof.
  split; [apply fallback_in_range|]. split.
  - rewrite update_outcome, fallback_complete. reflexivity.
  - intros H. apply update_in_range; [exact H | apply fallback_in_range].
Qed.

Lemma fallback_evaluation_is_usable_witness :
  scores_in_range
    (exec (_update_assessment (_fallback_analysis (utf8 "не знаю") rag_disabled)
             rag_disabled) Assessment_new).
Proof.
  apply (fallback_evaluation_is_usable (utf8 "не знаю") rag_disabled Assessment_new).
  apply new_assessment_in_range.
Defined.

Lemma dict_get_set (k v : str) (d : Dict.t str) :
  Dict.get k (Dict.set k v d) = Some v.
Proof.
  induction d as [|[k' v'] d IH]; simpl.
  - now rewrite PyStrFacts.eqb_refl.
  - destruct (PyStr.eqb k k') eqn:E; simpl; rewrite E; [reflexivity | exact IH].
Qed.

(** X8.  An answer of fewer than fifteen words is marked evasive by the
    fallback, and the update files exactly one note for it.  An answer of at
    most two words is moreover scored 1 and flagged as an error, and the
    update files the fallback's fixed correction, cut to 200 characters,
    under the fixed key, whatever the question was. *)
Theorem short_answers_are_noted (answer : str) (v : Verification)
    (a : Assessment) :
  (count_words answer < 15)%nat ->
  let an := _fallback_analysis answer v in
  let a' := exec (_update_assessment an v) a in
  a_is_evasive an = Some true
  /\ soft_skills_notes a' = (soft_skills_notes a ++ [evasive_note])%list
  /\ ((count_words answer <= 2)%nat ->
      technical_score a' = technical_score a * (7 # 10) + 1 * (3 # 10)
      /\ exists text,
           a_suggested_correction an = Some text
           /\ a_suggested_correction (_fallback_analysis [] rag_disabled) = Some text
           /\ Dict.get gap_key (knowledge_gaps a') = Some (slice_to 200 text)).
Proof.
  intros Hw an a'. subst an a'. unfold _fallback_analysis.
  destruct (mem (strip (lower answer)) short_responses
            || (count_words answer <=? 2)%nat) eqn:Short.
  - split; [reflexivity|]. split; [vm_compute; reflexivity|].
    intros _. split; [vm_compute; reflexivity|].
    set (text := or_default
                   (a_suggested_correction (_fallback_analysis [] rag_disabled)) []).
    exists text. split; [vm_compute; reflexivity|].
    split; [vm_compute; reflexivity|].
    match goal with
    | |- Dict.get _ (knowledge_gaps ?x) = _ =>
        assert (G : knowledge_gaps x
                    = Dict.set gap_key (slice_to 200 text) (knowledge_gaps a))
          by (vm_compute; reflexivity);
        rewrite G
    end.
    apply dict_get_set.
  - apply orb_false_iff in Short. destruct Short as [_ S2].
    apply Nat.leb_gt in S2.
    apply Nat.ltb_lt in Hw. rewrite Hw.
    split; [reflexivity|]. split.
    + unfold exec, _update_assessment, bind, lift, get, modify, when, ret,
        subscript, get_truthy. cbn.
      destruct (Qlt_bool (v_confidence v) (4 # 10)); cbn;
        [destruct (v_correct_info v); cbn|]; reflexivity.
    + intros H2. lia.
Qed.

Lemma short_answers_are_noted_witness :
  soft_skills_notes
    (exec (_update_assessment (_fallback_analysis (utf8 "не знаю") rag_disabled)
             rag_disabled) Assessment_new)
  = [evasive_note].
Proof.
  apply (short_answers_are_noted (utf8 "не знаю") rag_disabled Assessment_new).
  vm_compute. lia.
Defined.

End FallbackAnalysis.

(* ------------------------------------------------------------------ *)
(** * Evaluating a turn when the reasoning service fails *)

Section FallbackTurn.

Import Graph.

Lemma observer_falls_back (cfg : Settings.t) (srv : Observer.Services)
    (q ans : str) (st : InterviewState) (a : Assessment)
    (v : Observer.Verification) (e : exn) :
  truthy q = true -> truthy ans = true ->
  assessment st = Some a ->
  verification_is cfg srv v ->
  Observer.request_analysis srv (Some v) = Raise e ->
  let an := Observer._fallback_analysis (analysed_answer ans) v in
  Observer.analyze_answer cfg srv q ans st
  = (Ok an,
     set_assessment (Some (exec (Observer._update_assessment an v) a)) st).
Proof.
  intros Hq Ha Hs Hv Hr an.
  assert (Hver : (if Settings.RAG_ENABLED cfg
                  then match Observer.verify_technical_answer srv with
                       | Ok v0 => Some v0
                       | Raise _ => None
                       end
                  else Some Observer.rag_disabled) = Some v).
  { unfold verification_is in Hv.
    destruct (Settings.RAG_ENABLED cfg); [now rewrite Hv | now subst v]. }
  pose proof (update_outcome an v a) as O.
  unfold an in O at 2. rewrite fallback_complete in O.
  unfold Observer.analyze_answer. rewrite Hq, Ha. cbn [negb orb].
  rewrite Hver, Hr.
  unfold bind, lift, ret, Observer.on_assessment, Observer.local.
  rewrite Hs. unfold exec.
  subst an. unfold analysed_answer in *.
  destruct (Observer._update_assessment _ v a) as [r a'].
  simpl in O. subst r. reflexivity.
Qed.

(** X9.  When the observer's call of the reasoning service fails (it raises,
    or the reply does not parse to a JSON object) while the knowledge base
    answers, the turn is evaluated all the same: the node updates the
    assessment with the fallback analysis and appends one turn to the log,
    with the next number, the pending question and the answer in full, also
    when the analysis worked on the answer cut to 4000 characters. *)
Theorem failed_service_still_logs_the_turn (cfg : Settings.t) (w : World)
    (st : InterviewState) (q ans : str) (a : Assessment)
    (v : Observer.Verification) (e : exn) :
  current_question st = Some q -> truthy q = true ->
  current_answer st = Some ans -> truthy ans = true ->
  assessment st = Some a ->
  verification_is cfg (observer w) v ->
  Observer.request_analysis (observer w) (Some v) = Raise e ->
  let an := Observer._fallback_analysis (analysed_answer ans) v in
  let st' := analyze_answer cfg w st in
  assessment st' = Some (exec (Observer._update_assessment an v) a)
  /\ exists thoughts,
       log_turns st'
       = (log_turns st
            ++ [{| turn_id := Z.of_nat (List.length (log_turns st)) + 1;
                   agent_visible_message := q;
                   user_message := ans;
                   internal_thoughts := thoughts |}])%list.
Proof.
  intros Hcq Hq Hca Ha Hs Hv Hr an st'. subst st'. unfold analyze_answer.
  destruct (ensure_log_data_some w st) as [log [Hlog Hturns]].
  assert (Hq0 : current_question (ensure_log_data w st) = Some q)
    by (unfold ensure_log_data; destruct (log_data st); exact Hcq).
  assert (Ha0 : current_answer (ensure_log_data w st) = Some ans)
    by (unfold ensure_log_data; destruct (log_data st); exact Hca).
  assert (Hs0 : assessment (ensure_log_data w st) = Some a)
    by (unfold ensure_log_data; destruct (log_data st); exact Hs).
  set (st0 := ensure_log_data w st) in *.
  rewrite Hq0, Ha0. cbn [or_default]. rewrite Hq, Ha. cbn [negb orb].
  rewrite (observer_falls_back cfg (observer w) q ans st0 a v e Hq Ha Hs0 Hv Hr).
  fold an. split; [reflexivity|].
  eexists. unfold log_turns at 1. cbn. rewrite Hlog. cbn.
  rewrite Hturns. reflexivity.
Qed.

Lemma failed_service_still_logs_the_turn_witness :
  exists thoughts,
    log_turns (analyze_answer Settings.default (Sample.world_down Sample.long_answer)
                 Sample.first_answer_given)
    = (log_turns Sample.first_answer_given
         ++ [{| turn_id := Z.of_nat (List.length (log_turns Sample.first_answer_given)) + 1;
                agent_visible_message := utf8 "What is a list?";
                user_message := Sample.long_answer;
                internal_thoughts := thoughts |}])%list.
Proof.
  apply (failed_service_still_logs_the_turn Settings.default
           (Sample.world_down Sample.long_answer) Sample.first_answer_given
           (utf8 "What is a list?") Sample.long_answer Assessment_new
           Sample.verification ServiceError);
    vm_compute; reflexivity.
Defined.

End FallbackTurn.

(* ------------------------------------------------------------------ *)
(** * Cleaning the reply of the reasoning service *)

Section CleanJson.

Import Observer.

Lemma startswith_nil (s : str) : startswith s [] = true.
Proof. destruct s; reflexivity. Qed.

Lemma upto_last_ends (c : N) (s r : str) :
  upto_last c s = Some r -> exists r', r = (r' ++ [c])%list.
Proof.
  revert r. induction s as [|x s IH]; intros r H; simpl in H; [discriminate|].
  destruct (upto_last c s) as [r0|].
  - injection H as <-. destruct (IH r0 eq_refl) as [r' ->].
    exists (x :: r'). reflexivity.
  - destruct (N.eqb x c) eqn:E; [|discriminate].
    injection H as <-. apply N.eqb_eq in E. subst x. exists []. reflexivity.
Qed.

Lemma search_braces_shape (s m : str) :
  search_braces s = Some m -> exists body, m = (123%N :: body ++ [125%N])%list.
Proof.
  induction s as [|x s IH]; intros H; simpl in H; [discriminate|].
  destruct (N.eqb x 123) eqn:E.
  - destruct (upto_last 125 s) as [r|] eqn:U; [|discriminate].
    injection H as <-. apply N.eqb_eq in E. subst x.
    destruct (upto_last_ends _ _ _ U) as [r' ->]. exists r'. reflexivity.
  - apply IH. exact H.
Qed.

Lemma braces_delimit (body : str) :
  startswith (123%N :: body ++ [125%N])%list (utf8 "{") = true
  /\ endswith (123%N :: body ++ [125%N])%list (utf8 "}") = true.
Proof.
  split.
  - simpl. apply startswith_nil.
  - unfold endswith.
    change (123%N :: body ++ [125%N])%list with ((123%N :: body) ++ [125%N])%list.
    rewrite rev_app_distr. simpl. apply startswith_nil.
Qed.

(** X10.  What [_clean_json_response] hands to the parser is never empty: it
    is one of the two default texts, or a text that opens with a brace and
    closes with a brace. *)
Theorem clean_json_response_shape (text : str) :
  let r := _clean_json_response text in
  truthy r = true
  /\ (r = default_json_literal \/ r = default_json_dumps
      \/ (startswith r (utf8 "{") = true /\ endswith r (utf8 "}") = true)).
Proof.
  cbv zeta. unfold _clean_json_response.
  destruct (negb (truthy text)).
  - split; [reflexivity | left; reflexivity].
  - match goal with |- context [search_braces ?t] =>
      destruct (search_braces t) as [m|] eqn:S end.
    + destruct (search_braces_shape _ _ S) as [body ->].
      split; [reflexivity|]. right. right. apply braces_delimit.
    + split; [reflexivity | right; left; reflexivity].
Qed.

Lemma upto_last_whole (c : N) (body : str) :
  upto_last c (body ++ [c])%list = Some (body ++ [c])%list.
Proof.
  induction body as [|x body IH]; simpl.
  - now rewrite N.eqb_refl.
  - now rewrite IH.
Qed.

Lemma startswith_app (s p q : str) :
  startswith s (p ++ q)%list = true -> startswith s p = true.
Proof.
  revert s. induction p as [|y p IH]; intros s H; [apply startswith_nil|].
  destruct s as [|x s]; simpl in *; [discriminate|].
  apply andb_true_iff in H. destruct H as [H1 H2].
  rewrite H1. simpl. apply IH. exact H2.
Qed.

Lemma contains_app (s p q : str) :
  contains s (p ++ q)%list = true -> contains s p = true.
Proof.
  induction s as [|x s IH]; intros H.
  - change (startswith [] (p ++ q)%list || false = true) in H.
    change (startswith [] p || false = true).
    rewrite orb_false_r in *. apply (startswith_app _ _ _ H).
  - change (startswith (x :: s) (p ++ q)%list || contains s (p ++ q)%list = true)
      in H.
    change (startswith (x :: s) p || contains s p = true).
    apply orb_true_iff in H. apply orb_true_iff. destruct H as [H|H].
    + left. apply (startswith_app _ _ _ H).
    + right. apply IH. exact H.
Qed.

(** X11.  A reply that is a JSON object as it stands (it opens with a brace,
    closes with a brace, and holds neither control characters nor a code
    fence) reaches the parser unchanged. *)
Theorem clean_json_response_keeps_objects (body : str) :
  let text := (123%N :: body ++ [125%N])%list in
  strip_control text = text ->
  contains text (utf8 "```") = false ->
  _clean_json_response text = text.
Proof.
  intros text Hc Hf. unfold _clean_json_response.
  change (negb (truthy text)) with false. cbv iota.
  rewrite Hc.
  assert (Hj : contains text (utf8 "```json") = false).
  { destruct (contains text (utf8 "```json")) eqn:E; [|reflexivity].
    change (utf8 "```json") with (utf8 "```" ++ utf8 "json")%list in E.
    apply contains_app in E. congruence. }
  rewrite Hj, Hf.
  unfold text. simpl search_braces. rewrite upto_last_whole. reflexivity.
Qed.

Lemma clean_json_response_keeps_objects_witness :
  _clean_json_response Sample.technical_only_text = Sample.technical_only_text.
Proof.
  apply (clean_json_response_keeps_objects
           (removelast (tl Sample.technical_only_text)));
    vm_compute; reflexivity.
Defined.

End CleanJson.

(* ------------------------------------------------------------------ *)
(** * The coordinator's decisions *)

Section Decisions.

Import Coordinator Graph.



End Decisions.

(* ------------------------------------------------------------------ *)
(** * What the nodes leave alone *)

Section NodeFrames.

Import Graph.

Variable cfg : Settings.t.

Lemma questions_count_asked (st : InterviewState) :
  Coordinator.questions_count st = Z.of_nat (List.length (asked st)).
Proof. reflexivity. Qed.

Lemma start_interview_fields (w : World) (st : InterviewState) :
  let st' := start_interview cfg w st in
  questions_asked st' = Some (asked st)
  /\ difficulty_level st'
     = Some (or_default (difficulty_level st) (Settings.DEFAULT_DIFFICULTY cfg))
  /\ current_question st' = None
  /\ interview_complete st' = false
  /\ validate_state st' = true.
Proof.
  unfold start_interview, ensure_log_data. cbv zeta.
  destruct (log_data st); cbn; repeat split; reflexivity.
Qed.

Lemma coordinator_decision_fields (w : World) (st st' : InterviewState) :
  coordinator_decision cfg w st = Ok st' ->
  questions_asked st' = questions_asked st
  /\ difficulty_level st' = difficulty_level st
  /\ current_question st' = current_question st
  /\ messages st' = messages st
  /\ assessment st' = assessment st
  /\ (current_topic st' = current_topic st
      \/ exists t, current_topic st' = Some t).
Proof.
  unfold coordinator_decision. intros H. cbv zeta in H.
  assert (E : forall s, s = ensure_log_data w st ->
            questions_asked s = questions_asked st
            /\ difficulty_level s = difficulty_level st
            /\ current_question s = current_question st
            /\ messages s = messages st
            /\ assessment s = assessment st
            /\ current_topic s = current_topic st).
  { intros s ->. unfold ensure_log_data.
    destruct (log_data st); repeat split; reflexivity. }
  destruct (E _ eq_refl) as (E1 & E2 & E3 & E4 & E5 & E6).
  destruct (Coordinator.should_end_interview cfg (ensure_log_data w st)).
  - apply Ok_inj in H. subst st'. cbn. repeat split; auto.
  - destruct (Coordinator.decide_next_step cfg (coordinator w) _) as [d|e];
      [|discriminate].
    apply Ok_inj in H. subst st'.
    destruct (action_is d (utf8 "change_topic")) eqn:A;
      destruct (get_truthy (Coordinator.new_topic d)) eqn:T;
      destruct (action_is d (utf8 "end_interview")); cbn;
      repeat split; auto.
    all: right; destruct (Coordinator.new_topic d); [eexists; reflexivity|discriminate].
Qed.

Lemma generate_question_fields (w : World) (st : InterviewState) :
  let st' := generate_question w st in
  let q := Interviewer.generate_question (interviewer w) (ensure_log_data w st) in
  questions_asked st' = Some (asked st ++ [q])%list
  /\ current_question st' = Some q
  /\ truthy q = true
  /\ difficulty_level st' = difficulty_level st
  /\ assessment st' = assessment st
  /\ current_topic st' = current_topic st
  /\ (exists ms, messages st' = Some ms).
Proof.
  cbv zeta.
  split; [|split; [|split; [apply generate_question_nonempty|]]].
  - unfold generate_question. cbv zeta. cbn.
    rewrite ensure_log_data_asked. reflexivity.
  - reflexivity.
  - unfold generate_question, ensure_log_data. cbv zeta.
    destruct (log_data st); cbn; repeat split; try reflexivity;
      eexists; reflexivity.
Qed.

Lemma get_user_answer_fields (w : World) (st st' : InterviewState) :
  get_user_answer w st = Ok st' ->
  questions_asked st' = questions_asked st
  /\ difficulty_level st' = difficulty_level st
  /\ current_question st' = current_question st
  /\ assessment st' = assessment st
  /\ current_topic st' = current_topic st
  /\ (messages st' = messages st \/ exists ms, messages st' = Some ms).
Proof.
  unfold get_user_answer, ensure_log_data. intros H.
  destruct (read_answer w) as [line|e]; [|discriminate].
  destruct (mem (lower line) stop_words); apply Ok_inj in H; subst st';
    destruct (log_data st); cbn; repeat split; auto;
    right; eexists; reflexivity.
Qed.

Lemma same_but_assessment_fields (st st' : InterviewState) :
  same_but_assessment st st' ->
  questions_asked st' = questions_asked st
  /\ difficulty_level st' = difficulty_level st
  /\ current_question st' = current_question st
  /\ current_answer st' = current_answer st
  /\ current_topic st' = current_topic st
  /\ messages st' = messages st
  /\ interview_complete st' = interview_complete st
  /\ log_data st' = log_data st.
Proof.
  intros H. repeat split.
  - apply (f_equal questions_asked) in H. exact H.
  - apply (f_equal difficulty_level) in H. exact H.
  - apply (f_equal current_question) in H. exact H.
  - apply (f_equal current_answer) in H. exact H.
  - apply (f_equal current_topic) in H. exact H.
  - apply (f_equal messages) in H. exact H.
  - apply (f_equal interview_complete) in H. exact H.
  - apply (f_equal log_data) in H. exact H.
Qed.

(** The observer replaces the assessment of the state by an assessment: it
    neither adds the key nor removes it. *)
Lemma observer_keeps_assessment_key (srv : Observer.Services) (q a : str)
    (st : InterviewState) :
  let st' := snd (Observer.analyze_answer cfg srv q a st) in
  (assessment st = None -> assessment st' = None)
  /\ (assessment st <> None -> assessment st' <> None).
Proof.
  assert (O : forall A (c : M Assessment A),
             let s := snd (Observer.on_assessment c st) in
             (assessment st = None -> assessment s = None)
             /\ (assessment st <> None -> assessment s <> None)).
  { intros A c. unfold Observer.on_assessment.
    destruct (assessment st) as [x|] eqn:E.
    - destruct (c x). cbn. split; [discriminate | discriminate].
    - cbn. rewrite E. split; [reflexivity | congruence]. }
  cbv zeta. unfold Observer.analyze_answer.
  destruct (negb (truthy q) || negb (truthy a)); [apply O|].
  unfold bind, lift, ret.
  match goal with |- context [match ?r with Ok _ => _ | Raise _ => _ end] =>
    destruct r as [an|e] end; [|cbn; split; [auto | auto]].
  match goal with |- context [Observer.on_assessment ?c st] =>
    pose proof (O _ c) as F;
    destruct (Observer.on_assessment c st) as [[u|e] st1] end;
    exact F.
Qed.

Lemma analyze_answer_fields (w : World) (st : InterviewState) :
  let st' := analyze_answer cfg w st in
  questions_asked st' = questions_asked st
  /\ difficulty_level st' = difficulty_level st
  /\ current_question st' = current_question st
  /\ current_topic st' = current_topic st
  /\ messages st' = messages st
  /\ (assessment st <> None -> assessment st' <> None)
  /\ (log_turns st' = log_turns st
      \/ exists q ans thoughts,
           current_question st = Some q /\ truthy q = true
           /\ current_answer st = Some ans /\ truthy ans = true
           /\ log_turns st'
              = (log_turns st
                   ++ [{| turn_id := Z.of_nat (List.length (log_turns st)) + 1;
                          agent_visible_message := q;
                          user_message := ans;
                          internal_thoughts := thoughts |}])%list).
Proof.
  cbv zeta. unfold analyze_answer.
  destruct (ensure_log_data_some w st) as [log [Hlog Hturns]].
  assert (E : questions_asked (ensure_log_data w st) = questions_asked st
              /\ difficulty_level (ensure_log_data w st) = difficulty_level st
              /\ current_question (ensure_log_data w st) = current_question st
              /\ current_answer (ensure_log_data w st) = current_answer st
              /\ current_topic (ensure_log_data w st) = current_topic st
              /\ messages (ensure_log_data w st) = messages st
              /\ assessment (ensure_log_data w st) = assessment st).
  { unfold ensure_log_data. destruct (log_data st); repeat split; reflexivity. }
  destruct E as (E1 & E2 & E3 & E4 & E5 & E6 & E7).
  pose proof (ensure_log_data_turns w st) as Ht.
  set (st0 := ensure_log_data w st) in *.
  rewrite E3, E4.
  set (q := or_default (current_question st) []).
  set (ans := or_default (current_answer st) []).
  destruct (negb (truthy q) || negb (truthy ans)) eqn:Empty.
  - repeat split; auto. intros H. now rewrite E7.
  - apply orb_false_iff in Empty. destruct Empty as [Tq Ta].
    apply negb_false_iff in Tq. apply negb_false_iff in Ta.
    assert (Hq : current_question st = Some q).
    { unfold q in *. destruct (current_question st); [reflexivity|discriminate]. }
    assert (Ha : current_answer st = Some ans).
    { unfold ans in *. destruct (current_answer st); [reflexivity|discriminate]. }
    pose proof (observer_frame cfg (observer w) q ans st0) as F.
    pose proof (observer_keeps_assessment_key (observer w) q ans st0) as K.
    cbv zeta in K.
    destruct (Observer.analyze_answer cfg (observer w) q ans st0) as [[an|e] st1].
    + simpl in F, K.
      destruct (same_but_assessment_fields _ _ F)
        as (F1 & F2 & F3 & F4 & F5 & F6 & F7 & F8).
      cbn. repeat split; try congruence.
      * intros H. apply K. now rewrite E7.
      * right. exists q, ans. eexists.
        repeat split; try assumption.
        unfold log_turns at 1. cbn. rewrite F8, Hlog. cbn.
        rewrite Hturns. reflexivity.
    + simpl in F, K.
      destruct (same_but_assessment_fields _ _ F)
        as (F1 & F2 & F3 & F4 & F5 & F6 & F7 & F8).
      repeat split; try congruence.
      * intros H. apply K. now rewrite E7.
      * left. unfold log_turns. rewrite F8. exact Ht.
Qed.

Lemma generate_feedback_fields (w : World) (st : InterviewState) :
  let st' := generate_feedback w st in
  questions_asked st' = questions_asked st
  /\ difficulty_level st' = difficulty_level st
  /\ current_question st' = current_question st
  /\ current_topic st' = current_topic st
  /\ messages st' = messages st
  /\ assessment st' = assessment st
  /\ final_feedback st' <> None.
Proof.
  cbv zeta. unfold generate_feedback, ensure_log_data.
  destruct (log_data st); cbn; repeat split; try reflexivity; discriminate.
Qed.

End NodeFrames.

(* ------------------------------------------------------------------ *)
(** * Invariants of a session *)

Section SessionInvariants.

Import Graph.

Variable cfg : Settings.t.

Lemma asked_of_questions (st st' : InterviewState) :
  questions_asked st' = questions_asked st -> asked st' = asked st.
Proof. unfold asked. now intros ->. Qed.

Lemma count_of_questions (st st' : InterviewState) :
  questions_asked st' = questions_asked st ->
  Coordinator.questions_count st' = Coordinator.questions_count st.
Proof. unfold Coordinator.questions_count. now intros ->. Qed.

Lemma turn_recorded_mono (st st' : InterviewState) (t : Turn) :
  (forall q, In q (asked st) -> In q (asked st')) ->
  turn_recorded st t -> turn_recorded st' t.
Proof.
  intros M (H1 & H2 & H3). repeat split; auto.
Qed.

Lemma continue_below_limit (st : InterviewState) :
  check_should_continue cfg st = true ->
  (Coordinator.questions_count st < Settings.MAX_TURNS cfg)%Z
  /\ interview_complete st = false.
Proof.
  unfold check_should_continue.
  destruct (interview_complete st); [discriminate|].
  destruct (Settings.MAX_TURNS cfg <=? Coordinator.questions_count st)%Z eqn:E;
    [discriminate|].
  intros _. split; [now apply Z.leb_gt | reflexivity].
Qed.

(** The invariant of a state that shares the tracked fields with one that
    satisfies it, at a node with no more pending turns. *)
Lemma invariant_transfer (n n' : Node) (st st' : InterviewState) :
  session_invariant cfg n st ->
  questions_asked st' = questions_asked st ->
  difficulty_level st' = difficulty_level st ->
  current_question st' = current_question st ->
  log_turns st' = log_turns st ->
  (pending n' <= pending n)%nat ->
  n' <> GenerateQuestion ->
  session_invariant cfg n' st'.
Proof.
  intros (I1 & I2 & I3 & I4 & I5 & I6) Hq Hd Hc Hl Hp Hn.
  pose proof (asked_of_questions _ _ Hq) as Ha.
  unfold session_invariant.
  rewrite (count_of_questions _ _ Hq), Hd, Hl, Ha, Hc.
  split; [exact I1|]. split; [intros E; contradiction|].
  split; [exact I3|]. split; [lia|].
  split; [|exact I6].
  eapply Forall_impl; [|exact I5].
  intros t. apply turn_recorded_mono. now rewrite Ha.
Qed.

(** Every step of the workflow keeps the invariant. *)
Lemma step_keeps_invariant (w : World) (n n' : Node) (st st' : InterviewState) :
  session_invariant cfg n st ->
  step cfg w n st = Ok (n', st') ->
  session_invariant cfg n' st'.
Proof.
  intros I H. destruct n; simpl in H.
  - (* start_interview *)
    apply Ok_pair_inj in H. destruct H as [<- <-].
    destruct (start_interview_fields cfg w st) as (F1 & F2 & F3 & F4 & _).
    destruct I as (I1 & I2 & I3 & I4 & I5 & I6).
    assert (Ha : asked (start_interview cfg w st) = asked st)
      by (unfold asked at 1; now rewrite F1).
    unfold session_invariant.
    rewrite questions_count_asked, Ha, <- questions_count_asked.
    rewrite start_interview_turns, F2, F3, I3.
    split; [exact I1|]. split; [discriminate|]. split; [reflexivity|].
    split; [simpl in *; lia|]. split; [|discriminate].
    eapply Forall_impl; [|exact I5].
    intros t. apply turn_recorded_mono. now rewrite Ha.
  - (* coordinator_decision *)
    destruct (coordinator_decision cfg w st) as [s|e] eqn:E; [|discriminate].
    apply Ok_pair_inj in H. destruct H as [<- <-].
    destruct (coordinator_decision_fields cfg w st s E)
      as (F1 & F2 & F3 & _).
    pose proof (coordinator_decision_turns cfg w st s E) as Fl.
    destruct (check_should_continue cfg s) eqn:C.
    + destruct (continue_below_limit s C) as [Hlt _].
      destruct I as (I1 & I2 & I3 & I4 & I5 & I6).
      pose proof (asked_of_questions _ _ F1) as Ha.
      unfold session_invariant. rewrite F2, Fl, Ha, F3.
      split; [lia|]. split; [intros _; exact Hlt|].
      split; [exact I3|]. split; [simpl in *; lia|]. split; [|exact I6].
      eapply Forall_impl; [|exact I5].
      intros t. apply turn_recorded_mono. now rewrite Ha.
    + apply (invariant_transfer CoordinatorDecision GenerateFeedback st s I);
        auto; discriminate.
  - (* generate_question *)
    apply Ok_pair_inj in H. destruct H as [<- <-].
    destruct (generate_question_fields w st) as (F1 & F2 & F3 & F4 & _).
    pose proof (generate_question_turns w st) as Fl.
    destruct I as (I1 & I2 & I3 & I4 & I5 & I6).
    set (q := Interviewer.generate_question (interviewer w)
                (ensure_log_data w st)) in *.
    assert (Ha : asked (generate_question w st) = (asked st ++ [q])%list)
      by (unfold asked at 1; now rewrite F1).
    specialize (I2 eq_refl).
    unfold session_invariant.
    rewrite questions_count_asked, Ha, Fl, F2, F4, length_app.
    rewrite questions_count_asked in I2. simpl.
    split; [lia|]. split; [discriminate|]. split; [exact I3|].
    split; [simpl in I4; lia|]. split.
    + eapply Forall_impl; [|exact I5].
      intros t. apply turn_recorded_mono. rewrite Ha.
      intros x Hx. apply in_or_app. now left.
    + intros x Hx _. injection Hx as <-. apply in_or_app. right. now left.
  - (* get_user_answer *)
    destruct (get_user_answer w st) as [s|e] eqn:E; [|discriminate].
    apply Ok_pair_inj in H. destruct H as [<- <-].
    destruct (get_user_answer_fields w st s E) as (F1 & F2 & F3 & _).
    pose proof (get_user_answer_turns w st s E) as Fl.
    apply (invariant_transfer GetUserAnswer AnalyzeAnswer st s I); auto.
    discriminate.
  - (* analyze_answer *)
    apply Ok_pair_inj in H. destruct H as [<- <-].
    destruct (analyze_answer_fields cfg w st)
      as (F1 & F2 & F3 & _ & _ & _ & Fl).
    destruct Fl as [Fl | (q & ans & th & Hq & Tq & Ha & Ta & Fl)].
    + apply (invariant_transfer AnalyzeAnswer CoordinatorDecision st _ I); auto.
      * simpl. lia.
      * discriminate.
    + destruct I as (I1 & I2 & I3 & I4 & I5 & I6).
      pose proof (asked_of_questions _ _ F1) as Hasked.
      unfold session_invariant.
      rewrite (count_of_questions _ _ F1), F2, Fl, Hasked, F3, length_app.
      split; [exact I1|]. split; [discriminate|]. split; [exact I3|].
      split; [simpl in *; lia|]. split; [|exact I6].
      apply Forall_app. split.
      * eapply Forall_impl; [|exact I5].
        intros t. apply turn_recorded_mono. now rewrite Hasked.
      * constructor; [|constructor].
        unfold turn_recorded. simpl. rewrite Hasked.
        repeat split; auto.
  - (* generate_feedback *)
    apply Ok_pair_inj in H. destruct H as [<- <-].
    destruct (generate_feedback_fields w st) as (F1 & F2 & F3 & _).
    apply (invariant_transfer GenerateFeedback EndInterview st _ I); auto.
    + apply generate_feedback_turns.
    + discriminate.
  - apply Ok_pair_inj in H. destruct H as [<- <-].
    apply (invariant_transfer EndInterview END st st I); auto. discriminate.
  - apply Ok_pair_inj in H. destruct H as [<- <-]. exact I.
Qed.

Lemma steps_keep_invariant (ws : list World) :
  forall (n n' : Node) (st st' : InterviewState),
    session_invariant cfg n st ->
    steps cfg ws n st = Ok (n', st') ->
    session_invariant cfg n' st'.
Proof.
  induction ws as [|w ws IH]; intros n n' st st' I H; simpl in H.
  - apply Ok_pair_inj in H. destruct H as [<- <-]. exact I.
  - destruct (step cfg w n st) as [[n1 st1]|e] eqn:E; [|discriminate].
    apply (IH n1 n' st1 st'); [|assumption].
    apply (step_keeps_invariant w n n1 st st1 I E).
Qed.

Lemma initial_invariant (candidate : CandidateInfo) (clock : str) :
  session_invariant cfg StartInterview (initial_state cfg candidate clock).
Proof.
  unfold session_invariant. cbn.
  split; [lia|]. split; [discriminate|]. split; [reflexivity|].
  split; [lia|]. split; [constructor|discriminate].
Qed.

End SessionInvariants.

Section SessionTheorems.

Import Graph.

(** X13.  A session never asks more questions than the configured maximum:
    in every state the workflow reaches from the initial state of [run],
    whatever the services and the candidate do, the number of questions
    asked is at most [MAX_TURNS] (none when [MAX_TURNS] is not positive),
    and the asking node is only entered with room for one more. *)
Theorem never_more_than_max_questions (cfg : Settings.t)
    (candidate : CandidateInfo) (clock : str) (ws : list World) (n : Node)
    (st : InterviewState) :
  steps cfg ws StartInterview (initial_state cfg candidate clock) = Ok (n, st) ->
  (Coordinator.questions_count st <= Z.max 0 (Settings.MAX_TURNS cfg))%Z
  /\ (n = GenerateQuestion ->
      (Coordinator.questions_count st < Settings.MAX_TURNS cfg)%Z).
Proof.
  intros H.
  destruct (steps_keep_invariant cfg ws _ _ _ _
              (initial_invariant cfg candidate clock) H) as (I1 & I2 & _).
  split; assumption.
Qed.

(** X14.  The difficulty level never changes during a session: it is the
    configured default at every node, also after the coordinator has
    returned a decision with a [new_difficulty]. *)
Theorem difficulty_never_changes (cfg : Settings.t)
    (candidate : CandidateInfo) (clock : str) (ws : list World) (n : Node)
    (st : InterviewState) :
  steps cfg ws StartInterview (initial_state cfg candidate clock) = Ok (n, st) ->
  difficulty_level st = Some (Settings.DEFAULT_DIFFICULTY cfg).
Proof.
  intros H.
  destruct (steps_keep_invariant cfg ws _ _ _ _
              (initial_invariant cfg candidate clock) H) as (_ & _ & I3 & _).
  exact I3.
Qed.

(** X15.  The log follows the questions: in every state a session reaches,
    the log has at most as many turns as questions were asked (one fewer
    while a question waits for its answer or its evaluation), and every
    logged turn holds a question from the list of asked questions together
    with a non-empty answer. *)
Theorem log_follows_the_questions (cfg : Settings.t)
    (candidate : CandidateInfo) (clock : str) (ws : list World) (n : Node)
    (st : InterviewState) :
  steps cfg ws StartInterview (initial_state cfg candidate clock) = Ok (n, st) ->
  (List.length (log_turns st) + pending n <= List.length (asked st))%nat
  /\ Forall (turn_recorded st) (log_turns st).
Proof.
  intros H.
  destruct (steps_keep_invariant cfg ws _ _ _ _
              (initial_invariant cfg candidate clock) H)
    as (_ & _ & _ & I4 & I5 & _).
  split; assumption.
Qed.

Lemma never_more_than_max_questions_witness :
  exists n st,
    Sample.run Sample.two_turns = Ok (n, st)
    /\ (Coordinator.questions_count st
        <= Z.max 0 (Settings.MAX_TURNS Settings.default))%Z.
Proof.
  unfold Sample.run.
  destruct (steps Settings.default Sample.two_turns StartInterview
              (initial_state Settings.default Sample.candidate Sample.clock))
    as [[n st]|e] eqn:E.
  - exists n, st. split; [reflexivity|].
    exact (proj1 (never_more_than_max_questions Settings.default
                    Sample.candidate Sample.clock Sample.two_turns n st E)).
  - vm_compute in E. discriminate E.
Defined.

Lemma difficulty_never_changes_witness :
  exists n st,
    Sample.run Sample.two_turns = Ok (n, st)
    /\ difficulty_level st = Some (Settings.DEFAULT_DIFFICULTY Settings.default).
Proof.
  unfold Sample.run.
  destruct (steps Settings.default Sample.two_turns StartInterview
              (initial_state Settings.default Sample.candidate Sample.clock))
    as [[n st]|e] eqn:E.
  - exists n, st. split; [reflexivity|].
    exact (difficulty_never_changes Settings.default Sample.candidate
             Sample.clock Sample.two_turns n st E).
  - vm_compute in E. discriminate E.
Defined.

Lemma log_follows_the_questions_witness :
  exists n st,
    Sample.run Sample.two_turns = Ok (n, st)
    /\ Forall (turn_recorded st) (log_turns st).
Proof.
  unfold Sample.run.
  destruct (steps Settings.default Sample.two_turns StartInterview
              (initial_state Settings.default Sample.candidate Sample.clock))
    as [[n st]|e] eqn:E.
  - exists n, st. split; [reflexivity|].
    exact (proj2 (log_follows_the_questions Settings.default
                    Sample.candidate Sample.clock Sample.two_turns n st E)).
  - vm_compute in E. discriminate E.
Defined.

Lemma validate_state_keys (st : InterviewState) :
  validate_state st = true
  <-> (messages st <> None /\ assessment st <> None /\ current_topic st <> None
       /\ difficulty_level st <> None /\ questions_asked st <> None).
Proof.
  unfold validate_state.
  destruct (messages st), (assessment st), (current_topic st),
    (difficulty_level st), (questions_asked st);
    split; intros H; try discriminate; try reflexivity;
    try (repeat split; discriminate);
    destruct H as (H1 & H2 & H3 & H4 & H5); congruence.
Qed.

Lemma step_keeps_valid (cfg : Settings.t) (w : World) (n n' : Node)
    (st st' : InterviewState) :
  validate_state st = true ->
  step cfg w n st = Ok (n', st') ->
  validate_state st' = true.
Proof.
  intros V H. destruct n; simpl in H.
  - apply Ok_pair_inj in H. destruct H as [_ <-].
    apply (start_interview_fields cfg w st).
  - destruct (coordinator_decision cfg w st) as [s|e] eqn:E; [|discriminate].
    apply Ok_pair_inj in H. destruct H as [_ <-].
    destruct (coordinator_decision_fields cfg w st s E)
      as (F1 & F2 & _ & F4 & F5 & F6).
    apply validate_state_keys in V. apply validate_state_keys.
    rewrite F1, F2, F4, F5.
    destruct V as (V1 & V2 & V3 & V4 & V5). repeat split; auto.
    destruct F6 as [-> | [t ->]]; [exact V3 | discriminate].
  - apply Ok_pair_inj in H. destruct H as [_ <-].
    destruct (generate_question_fields w st)
      as (F1 & _ & _ & F4 & F5 & F6 & [ms F7]).
    apply validate_state_keys in V. apply validate_state_keys.
    rewrite F1, F4, F5, F6, F7.
    destruct V as (V1 & V2 & V3 & V4 & V5). repeat split; auto; discriminate.
  - destruct (get_user_answer w st) as [s|e] eqn:E; [|discriminate].
    apply Ok_pair_inj in H. destruct H as [_ <-].
    destruct (get_user_answer_fields w st s E)
      as (F1 & F2 & _ & F4 & F5 & F6).
    apply validate_state_keys in V. apply validate_state_keys.
    rewrite F1, F2, F4, F5.
    destruct V as (V1 & V2 & V3 & V4 & V5). repeat split; auto.
    destruct F6 as [-> | [ms ->]]; [exact V1 | discriminate].
  - apply Ok_pair_inj in H. destruct H as [_ <-].
    destruct (analyze_answer_fields cfg w st)
      as (F1 & F2 & _ & F4 & F5 & F6 & _).
    apply validate_state_keys in V. apply validate_state_keys.
    rewrite F1, F2, F4, F5.
    destruct V as (V1 & V2 & V3 & V4 & V5). repeat split; auto.
  - apply Ok_pair_inj in H. destruct H as [_ <-].
    destruct (generate_feedback_fields w st)
      as (F1 & F2 & _ & F4 & F5 & F6 & _).
    apply validate_state_keys in V. apply validate_state_keys.
    rewrite F1, F2, F4, F5, F6. exact V.
  - apply Ok_pair_inj in H. destruct H as [_ <-]. exact V.
  - apply Ok_pair_inj in H. destruct H as [_ <-]. exact V.
Qed.

Lemma steps_keep_valid (cfg : Settings.t) (ws : list World) :
  forall (n n' : Node) (st st' : InterviewState),
    validate_state st = true ->
    steps cfg ws n st = Ok (n', st') ->
    validate_state st' = true.
Proof.
  induction ws as [|w ws IH]; intros n n' st st' V H; simpl in H.
  - apply Ok_pair_inj in H. destruct H as [_ <-]. exact V.
  - destruct (step cfg w n st) as [[n1 st1]|e] eqn:E; [|discriminate].
    apply (IH n1 n' st1 st'); [|assumption].
    apply (step_keeps_valid cfg w n n1 st st1 V E).
Qed.

(** X16.  Whatever state the workflow is started with, [start_interview]
    fills in the keys that [validate_state] requires, and no later node
    removes one: every state after the first step passes [validate_state]. *)
Theorem state_is_valid_after_start (cfg : Settings.t) (w : World)
    (ws : list World) (n : Node) (st st' : InterviewState) :
  steps cfg (w :: ws) StartInterview st = Ok (n, st') ->
  validate_state st' = true.
Proof.
  intros H.
  change (steps cfg ws CoordinatorDecision (start_interview cfg w st)
          = Ok (n, st')) in H.
  apply (steps_keep_valid cfg ws CoordinatorDecision n
           (start_interview cfg w st) st'); [|exact H].
  apply (start_interview_fields cfg w st).
Qed.

Lemma state_is_valid_after_start_witness :
  exists n st,
    Sample.run Sample.two_turns = Ok (n, st) /\ validate_state st = true.
Proof.
  unfold Sample.run.
  destruct (steps Settings.default Sample.two_turns StartInterview
              (initial_state Settings.default Sample.candidate Sample.clock))
    as [[n st]|e] eqn:E.
  - exists n, st. split; [reflexivity|].
    exact (state_is_valid_after_start Settings.default (Sample.world [] [])
             (Sample.turn (utf8 "What is a list?") Sample.long_answer
                ++ Sample.turn (utf8 "What is a tuple?") Sample.long_answer)%list
             n (initial_state Settings.default Sample.candidate Sample.clock)
             st E).
  - vm_compute in E. discriminate E.
Defined.

End SessionTheorems.

(* ------------------------------------------------------------------ *)
(** * Routing, blank answers and termination *)

Section Routing.

Import Graph.

Lemma Qlt_bool_true (x y : Q) : x < y -> Qlt_bool x y = true.
Proof.
  intros H. unfold Qlt_bool. apply negb_true_iff.
  destruct (Qle_bool y x) eqn:E; [|reflexivity].
  apply Qle_bool_iff in E. apply Qlt_not_le in H. contradiction.
Qed.

Lemma should_end_of_ensure (cfg : Settings.t) (w : World) (st : InterviewState) :
  Coordinator.should_end_interview cfg (ensure_log_data w st)
  = Coordinator.should_end_interview cfg st.
Proof.
  unfold ensure_log_data. destruct (log_data st); reflexivity.
Qed.

(** X17.  The hard stops need no decision.  When the termination flag is
    set, or the limit of questions is reached, or five questions have been
    asked and the technical score is above 7, the routing node sets the flag
    and hands over to the reporting node without calling the reasoning
    service: whatever the service would answer or raise makes no
    difference.  And the asking node is entered only when none of the three
    holds. *)
Theorem hard_stops_need_no_decision (cfg : Settings.t) (w : World)
    (st : InterviewState) :
  (interview_complete st = true
   \/ (Settings.MAX_TURNS cfg <= Coordinator.questions_count st)%Z
   \/ (exists a, assessment st = Some a
                 /\ (5 <= Coordinator.questions_count st)%Z
                 /\ 7 < technical_score a) ->
   step cfg w CoordinatorDecision st
   = Ok (GenerateFeedback, set_interview_complete true (ensure_log_data w st)))
  /\ (forall st', step cfg w CoordinatorDecision st = Ok (GenerateQuestion, st') ->
      interview_complete st = false
      /\ (Coordinator.questions_count st < Settings.MAX_TURNS cfg)%Z
      /\ forall a, assessment st = Some a ->
                   (5 <= Coordinator.questions_count st)%Z ->
                   technical_score a <= 7).
Proof.
  split.
  - intros H.
    assert (E : Coordinator.should_end_interview cfg st = true).
    { unfold Coordinator.should_end_interview.
      destruct H as [H | [H | (a & Ha & H5 & H7)]].
      - now rewrite H.
      - destruct (interview_complete st); [reflexivity|].
        apply Z.leb_le in H. now rewrite H.
      - destruct (interview_complete st); [reflexivity|].
        destruct (Settings.MAX_TURNS cfg <=? Coordinator.questions_count st)%Z;
          [reflexivity|].
        rewrite Ha. apply Z.leb_le in H5. rewrite H5.
        now rewrite (Qlt_bool_true _ _ H7). }
    unfold step, coordinator_decision.
    rewrite should_end_of_ensure, E. reflexivity.
  - intros st' H. unfold step, coordinator_decision in H.
    rewrite should_end_of_ensure in H.
    destruct (Coordinator.should_end_interview cfg st) eqn:E.
    + apply Ok_pair_inj in H. destruct H as [H _].
      unfold check_should_continue in H. cbn in H. discriminate H.
    + unfold Coordinator.should_end_interview in E.
      destruct (interview_complete st); [discriminate|].
      destruct (Settings.MAX_TURNS cfg <=? Coordinator.questions_count st)%Z
        eqn:L; [discriminate|].
      apply Z.leb_gt in L.
      split; [reflexivity|]. split; [exact L|].
      intros a Ha H5. rewrite Ha in E. apply Z.leb_le in H5. rewrite H5 in E.
      cbn in E. unfold Qlt_bool in E. apply negb_false_iff in E.
      apply Qle_bool_iff in E. exact E.
Qed.

Lemma hard_stops_need_no_decision_witness :
  step Settings.default (Sample.world_down []) CoordinatorDecision
       (set_assessment (Some (Sample.scored 8)) Sample.after_five_turns)
  = Ok (GenerateFeedback,
        set_interview_complete true
          (ensure_log_data (Sample.world_down [])
             (set_assessment (Some (Sample.scored 8)) Sample.after_five_turns))).
Proof.
  apply (proj1 (hard_stops_need_no_decision Settings.default
                  (Sample.world_down [])
                  (set_assessment (Some (Sample.scored 8))
                     Sample.after_five_turns))).
  right. right. exists (Sample.scored 8).
  split; [reflexivity|]. split; vm_compute; [discriminate | reflexivity].
Defined.

(** X18.  A blank answer is skipped.  When the line the candidate enters is
    empty or white space only, it is stored as an empty answer and added to
    the messages, but it is not evaluated: the evaluation node returns
    without calling the observer, no turn is logged and the assessment is
    what it was.  The question still counts as asked. *)
Theorem blank_answer_is_skipped (cfg : Settings.t) (w1 w2 : World)
    (st : InterviewState) (line : str) :
  console_input w1 = Ok line ->
  strip line = [] ->
  exists st1 st2,
    step cfg w1 GetUserAnswer st = Ok (AnalyzeAnswer, st1)
    /\ current_answer st1 = Some []
    /\ messages st1
       = Some (or_default (messages st) []
                 ++ [{| role := utf8 "user"; content := [] |}])%list
    /\ step cfg w2 AnalyzeAnswer st1 = Ok (CoordinatorDecision, st2)
    /\ log_turns st2 = log_turns st
    /\ assessment st2 = assessment st
    /\ asked st2 = asked st
    /\ interview_complete st2 = interview_complete st.
Proof.
  intros Hin Hblank.
  assert (G : get_user_answer w1 st
              = Ok (set_current_answer (Some [])
                      (set_messages
                         (Some (or_default (messages (ensure_log_data w1 st)) []
                                  ++ [{| role := utf8 "user"; content := [] |}])%list)
                         (set_current_turn_thoughts
                            (Some (or_default
                                     (current_turn_thoughts (ensure_log_data w1 st)) []
                                     ++ [(utf8 "[System]: Получен ответ длиной "
                                            ++ format_nat 0
                                            ++ utf8 " символов")%list])%list)
                            (ensure_log_data w1 st))))).
  { unfold get_user_answer, read_answer. rewrite Hin, Hblank. reflexivity. }
  eexists. eexists.
  split; [unfold step; rewrite G; reflexivity|].
  split; [reflexivity|].
  split.
  { cbn. unfold ensure_log_data. destruct (log_data st); reflexivity. }
  split.
  { unfold step. f_equal. }
  unfold analyze_answer.
  match goal with |- context [ensure_log_data w2 ?s] =>
    set (st1 := s);
    assert (A : current_answer (ensure_log_data w2 st1) = Some [])
      by (unfold ensure_log_data; destruct (log_data st1); reflexivity)
  end.
  rewrite A. cbn [or_default truthy negb]. rewrite orb_true_r.
  split; [rewrite ensure_log_data_turns; apply (ensure_log_data_turns w1 st)|].
  split.
  { unfold st1, ensure_log_data.
    destruct (log_data st) eqn:E; cbn; rewrite ?E; reflexivity. }
  split.
  { unfold asked. rewrite ensure_log_data_asked. unfold st1. cbn.
    now rewrite ensure_log_data_asked. }
  rewrite ensure_log_data_complete. unfold st1. cbn.
  apply ensure_log_data_complete.
Qed.

Lemma blank_answer_is_skipped_witness :
  exists st1 st2,
    step Settings.default (Sample.first_turn (utf8 "   ")) GetUserAnswer
         Sample.awaiting_first_answer = Ok (AnalyzeAnswer, st1)
    /\ current_answer st1 = Some []
    /\ messages st1
       = Some (or_default (messages Sample.awaiting_first_answer) []
                 ++ [{| role := utf8 "user"; content := [] |}])%list
    /\ step Settings.default (Sample.first_turn []) AnalyzeAnswer st1
       = Ok (CoordinatorDecision, st2)
    /\ log_turns st2 = log_turns Sample.awaiting_first_answer
    /\ assessment st2 = assessment Sample.awaiting_first_answer
    /\ asked st2 = asked Sample.awaiting_first_answer
    /\ interview_complete st2 = interview_complete Sample.awaiting_first_answer.
Proof.
  apply (blank_answer_is_skipped Settings.default
           (Sample.first_turn (utf8 "   ")) (Sample.first_turn [])
           Sample.awaiting_first_answer (utf8 "   "));
    reflexivity.
Defined.

End Routing.

(* ------------------------------------------------------------------ *)
(** * Termination *)

Section Termination.

Import Graph.











End Termination.

(* ------------------------------------------------------------------ *)
(** * Repeated questions, the roadmap and the dialogue history *)

Section InterviewerEffects.

Import Interviewer.

Lemma fallback_repeat (topic : str) (difficulty : Z) (done : list str) :
  mem (_get_fallback_question topic difficulty done) done = true ->
  _get_fallback_question topic difficulty done = template_question topic
  /\ first_unasked fallback_questions (lower topic) done = None.
Proof.
  intros H.
  destruct (first_unasked fallback_questions (lower topic) done) as [q|] eqn:E.
  - destruct (bank_question_is_new topic difficulty done q E) as [Q N].
    rewrite Q in H. apply PyStrFacts.mem_In in H. contradiction.
  - split; [|reflexivity].
    unfold _get_fallback_question, template_question. rewrite E. reflexivity.
Qed.

(** X20.  The interviewer repeats itself in one way only.  When
    [generate_question] returns a question that is in the list of asked
    questions, whatever the reasoning service replied or raised, that
    question is the template built from the topic, and no bank that matches
    the topic has a question left. *)
Theorem repeated_question_is_the_template (srv : Services)
    (st : InterviewState) :
  mem (generate_question srv st) (asked st) = true ->
  generate_question srv st = template_question (topic_of st)
  /\ first_unasked fallback_questions (lower (topic_of st)) (asked st) = None.
Proof.
  unfold generate_question, asked, topic_of.
  set (topic := match current_topic st with Some t => t | None => [] end).
  set (difficulty := match difficulty_level st with Some d => d | None => 2%Z end).
  set (done := match questions_asked st with Some qs => qs | None => [] end).
  destruct (llm_invoke srv) as [reply|e]; [|apply fallback_repeat].
  cbv zeta.
  set (question := if endswith (strip_prefixes (strip reply)) (utf8 "?")
                   then strip_prefixes (strip reply)
                   else (strip_prefixes (strip reply) ++ utf8 "?")%list).
  destruct (mem question done) eqn:M.
  - unfold _generate_alternative_question.
    destruct (llm_invoke_alternative srv) as [alt|e]; [|apply fallback_repeat].
    cbv zeta.
    destruct (truthy (strip alt)); cbn [andb]; [|apply fallback_repeat].
    destruct (mem (strip alt) done) eqn:A; cbn [negb]; [apply fallback_repeat|].
    intros H. congruence.
  - intros H. congruence.
Qed.

Lemma repeated_question_is_the_template_witness :
  generate_question Sample.interviewer_down Sample.asked_about_go
  = template_question (topic_of Sample.asked_about_go)
  /\ first_unasked fallback_questions (lower (topic_of Sample.asked_about_go))
                   (asked Sample.asked_about_go) = None.
Proof.
  apply (repeated_question_is_the_template Sample.interviewer_down
           Sample.asked_about_go).
  vm_compute. reflexivity.
Defined.

End InterviewerEffects.

Section Roadmap.

Import FeedbackGenerator.

Lemma roadmap_truncates (a : Assessment) (c : CandidateInfo) :
  _generate_roadmap a c = firstn 5 (roadmap_items a c).
Proof. reflexivity. Qed.

Lemma update_all_single_gap (evals : list (Observer.Analysis * Observer.Verification)) :
  forall a, single_gap (knowledge_gaps a) ->
            single_gap (knowledge_gaps (update_all evals a)).
Proof.
  induction evals as [|e evals IH]; intros a H; simpl; [exact H|].
  apply IH. apply update_single_gap. exact H.
Qed.

Lemma Qlt_bool_prop (x y : Q) : Qlt_bool x y = true -> x < y.
Proof.
  unfold Qlt_bool. intros H. apply negb_true_iff in H.
  apply Qnot_le_lt. intros L. apply Qle_bool_iff in L. congruence.
Qed.

Lemma general_advice_is_short (a : Assessment) (c : CandidateInfo) :
  single_gap (knowledge_gaps a) ->
  (List.length (roadmap_items a c) <= 3)%nat.
Proof.
  intros G. unfold roadmap_items.
  assert (L : (List.length
                 (map (fun '(topic, correction) =>
                         (utf8 "Изучить " ++ topic ++ utf8 ": "
                            ++ slice_to 100 correction ++ utf8 "...")%list)
                      (knowledge_gaps a)) <= 1)%nat).
  { rewrite length_map. destruct G as [-> | (v & -> & _)]; simpl; lia. }
  rewrite length_app. 
  destruct (Qlt_bool (technical_score a) 6) eqn:T6;
    destruct (Qlt_bool (communication_score a) 5) eqn:C5;
    destruct (PyStr.eqb (grade c) (utf8 "Junior")) eqn:J;
    destruct (PyStr.eqb (grade c) (utf8 "Middle")) eqn:Mi;
    destruct (Qlt_bool 7 (technical_score a)) eqn:T7;
    destruct (Qlt_bool 8 (technical_score a)) eqn:T8;
    cbn [andb app List.length]; try lia;
    try (apply PyStrFacts.eqb_eq in J; apply PyStrFacts.eqb_eq in Mi;
         rewrite J in Mi; vm_compute in Mi; discriminate Mi);
    try (apply Qlt_bool_prop in T6; apply Qlt_bool_prop in T7; lra);
    try (apply Qlt_bool_prop in T6; apply Qlt_bool_prop in T8; lra).
Qed.

(** X21.  The roadmap of a session is never cut.  After any sequence of
    updates from a new assessment, and for any candidate, the list that
    [_generate_roadmap] builds has at most three entries (one knowledge gap,
    and two pieces of general advice, since the conditions exclude each
    other), so [roadmap[:5]] returns it whole. *)
Theorem roadmap_is_never_cut
    (evals : list (Observer.Analysis * Observer.Verification))
    (c : CandidateInfo) :
  (List.length (roadmap_items (update_all evals Assessment_new) c) <= 3)%nat
  /\ _generate_roadmap (update_all evals Assessment_new) c
     = roadmap_items (update_all evals Assessment_new) c.
Proof.
  assert (L : (List.length (roadmap_items (update_all evals Assessment_new) c)
               <= 3)%nat).
  { apply general_advice_is_short. apply update_all_single_gap.
    left. reflexivity. }
  split; [exact L|].
  rewrite roadmap_truncates. apply firstn_all2. lia.
Qed.

End Roadmap.

Section DialogueHistory.

Import Graph.

Lemma ensure_log_data_messages (w : World) (st : InterviewState) :
  messages (ensure_log_data w st) = messages st.
Proof. unfold ensure_log_data. destruct (log_data st); reflexivity. Qed.

Lemma known_roles_of_messages (st st' : InterviewState) :
  messages st' = messages st -> known_roles st -> known_roles st'.
Proof. unfold known_roles. intros ->. exact (fun H => H). Qed.

Lemma known_roles_snoc (st st' : InterviewState) (m : Message) :
  messages st' = Some (or_default (messages st) [] ++ [m])%list ->
  role m = utf8 "user" \/ role m = utf8 "interviewer" ->
  known_roles st -> known_roles st'.
Proof.
  unfold known_roles. intros -> R H. simpl.
  apply Forall_app. split; [exact H|]. constructor; [exact R|constructor].
Qed.

Lemma step_keeps_roles (cfg : Settings.t) (w : World) (n n' : Node)
    (st st' : InterviewState) :
  step cfg w n st = Ok (n', st') -> known_roles st -> known_roles st'.
Proof.
  intros H K. destruct n; simpl in H.
  - apply Ok_pair_inj in H. destruct H as [_ <-].
    unfold known_roles in *. unfold start_interview. cbn -[utf8].
    rewrite ensure_log_data_messages. destruct (messages st); exact K.
  - destruct (coordinator_decision cfg w st) as [s|e] eqn:E; [|discriminate].
    apply Ok_pair_inj in H. destruct H as [_ <-].
    destruct (coordinator_decision_fields cfg w st s E) as (_ & _ & _ & F & _).
    exact (known_roles_of_messages st s F K).
  - apply Ok_pair_inj in H. destruct H as [_ <-].
    apply (known_roles_snoc st _
             {| role := utf8 "interviewer";
                content := Interviewer.generate_question (interviewer w)
                             (ensure_log_data w st) |});
      [|right; reflexivity|exact K].
    unfold generate_question. cbn. rewrite ensure_log_data_messages. reflexivity.
  - unfold get_user_answer in H.
    destruct (read_answer w) as [line|e]; [|discriminate].
    destruct (mem (lower line) stop_words).
    + apply Ok_pair_inj in H. destruct H as [_ <-].
      apply (known_roles_of_messages st); [|exact K].
      cbn. apply ensure_log_data_messages.
    + apply Ok_pair_inj in H. destruct H as [_ <-].
      apply (known_roles_snoc st _ {| role := utf8 "user"; content := line |});
        [|left; reflexivity|exact K].
      cbn. rewrite ensure_log_data_messages. reflexivity.
  - apply Ok_pair_inj in H. destruct H as [_ <-].
    destruct (analyze_answer_fields cfg w st) as (_ & _ & _ & _ & F & _).
    exact (known_roles_of_messages st _ F K).
  - apply Ok_pair_inj in H. destruct H as [_ <-].
    destruct (generate_feedback_fields w st) as (_ & _ & _ & _ & F & _).
    exact (known_roles_of_messages st _ F K).
  - apply Ok_pair_inj in H. destruct H as [_ <-]. exact K.
  - apply Ok_pair_inj in H. destruct H as [_ <-]. exact K.
Qed.

Lemma steps_keep_roles (cfg : Settings.t) :
  forall (ws : list World) (n n' : Node) (st st' : InterviewState),
    steps cfg ws n st = Ok (n', st') -> known_roles st -> known_roles st'.
Proof.
  induction ws as [|w ws IH]; intros n n' st st' H K.
  - apply Ok_pair_inj in H. destruct H as [_ <-]. exact K.
  - simpl in H. destruct (step cfg w n st) as [[n1 s1]|e] eqn:E; [|discriminate].
    apply (IH n1 n' s1 st' H). exact (step_keeps_roles cfg w n n1 st s1 E K).
Qed.

Lemma histories_agree_on (msgs : list Message) :
  Forall (fun msg => role msg = utf8 "user" \/ role msg = utf8 "interviewer")
         msgs ->
  map (fun msg =>
         ((if PyStr.eqb (role msg) (utf8 "interviewer")
           then utf8 "Интервьюер" else utf8 "Кандидат")
            ++ utf8 ": " ++ content msg)%list) msgs
  = flat_map (fun msg =>
                if PyStr.eqb (role msg) (utf8 "user")
                then [(utf8 "Кандидат: " ++ content msg)%list]
                else if PyStr.eqb (role msg) (utf8 "interviewer")
                then [(utf8 "Интервьюер: " ++ content msg)%list]
                else []) msgs.
Proof.
  induction 1 as [|m ms R _ IH]; [reflexivity|].
  cbn [map flat_map]. rewrite IH. f_equal.
  destruct R as [R|R]; rewrite R; reflexivity.
Qed.

Lemma Forall_slice_from (A : Type) (P : A -> Prop) (start : Z) (l : list A) :
  Forall P l -> Forall P (slice_from start l).
Proof.
  intros H. unfold slice_from. cbv zeta.
  rewrite <- (firstn_skipn
                (Z.to_nat (if (start <? 0)%Z
                           then Z.max 0 (Z.of_nat (List.length l) + start)
                           else start)) l) in H.
  apply Forall_app in H. exact (proj2 H).
Qed.

(** X22.  The coordinator and the interviewer read the same dialogue.  In a
    state reached by the workflow from one whose messages are the
    interviewer's and the candidate's, the messages still are, and as soon as
    there is one the two agents' [_get_conversation_history] return the same
    text for every window [last_n]; with no message they return two
    different fixed texts. *)
Theorem agents_read_the_same_history (cfg : Settings.t) (ws : list World)
    (n n' : Node) (st st' : InterviewState) (last_n : Z) :
  known_roles st ->
  steps cfg ws n st = Ok (n', st') ->
  known_roles st'
  /\ match or_default (messages st') [] with
     | [] => Coordinator._get_conversation_history st' last_n
             <> Interviewer._get_conversation_history st' last_n
     | _ => Coordinator._get_conversation_history st' last_n
            = Interviewer._get_conversation_history st' last_n
     end.
Proof.
  intros K H.
  assert (K' : known_roles st') by exact (steps_keep_roles cfg ws n n' st st' H K).
  split; [exact K'|].
  unfold Coordinator._get_conversation_history,
         Interviewer._get_conversation_history.
  unfold known_roles in K'.
  destruct (or_default (messages st') []) as [|m ms] eqn:E.
  - vm_compute. discriminate.
  - f_equal. apply histories_agree_on. apply Forall_slice_from. exact K'.
Qed.

End DialogueHistory.

Lemma agents_read_the_same_history_witness :
  match Graph.steps Settings.default Sample.two_turns Graph.StartInterview
          (Graph.initial_state Settings.default Sample.candidate Sample.clock)
  with
  | Ok (_, st') =>
      known_roles st'
      /\ match or_default (messages st') [] with
         | [] => Coordinator._get_conversation_history st' 4
                 <> Interviewer._get_conversation_history st' 4
         | _ => Coordinator._get_conversation_history st' 4
                = Interviewer._get_conversation_history st' 4
         end
  | Raise _ => True
  end.
Proof.
  destruct (Graph.steps Settings.default Sample.two_turns Graph.StartInterview
              (Graph.initial_state Settings.default Sample.candidate
                 Sample.clock)) as [[n' st']|e] eqn:E; [|exact I].
  exact (agents_read_the_same_history Settings.default Sample.two_turns
           Graph.StartInterview n'
           (Graph.initial_state Settings.default Sample.candidate Sample.clock)
           st' 4 (Forall_nil _) E).
Defined.
